(** * Backdoor-poisoning evaluation engine: embedding and properties

    A shallow embedding of the trigger handling, poisoned-partition
    construction, outcome counting, trigger persistence, configuration
    checking and defense counting of the repository, followed by the
    properties established about them.

    Conventions of the embedding.
    - A Python exception is a value [Raise e] of the [result] type; a
      function that may raise returns [result A].
    - Feature values and prediction scores are floating-point numbers in
      the source.  They are embedded as rationals [Q], the comparison
      [a != b] being [negb (Qeq_bool a b)].  Every finite float is a
      rational, so this is exact for the comparisons the code performs on
      finite values; NaN and the narrowing of a value stored into an array
      of smaller precision are outside the embedding.
    - A Python [dict] / [OrderedDict] is an association list in insertion
      order ([dict_set] updates in place or appends, as the source's
      subscript assignment does).
    - numpy arrays that the code mutates live in a [heap] of matrices;
      [X[mask]], [X[indices]], [np.delete], [np.concatenate] and
      [copy.deepcopy] allocate, [X[i]] on a 2-D array is a view. *)

From Stdlib Require Import List ZArith QArith Qabs Lqa String Ascii Bool Arith
  Lia Permutation FinFun DecimalString DecimalNat.
Import ListNotations.


Close Scope Q_scope.
Open Scope nat_scope.

(* ================================================================== *)
(** * Part I: the embedding                                            *)
(* ================================================================== *)

(** ** Python runtime: exceptions, sequences, dicts *)

Module Py.

Inductive exn : Type :=
| ValueError
| KeyError
| IndexError
| TypeError
| AssertionError
| JSONDecodeError.

Inductive result (A : Type) : Type :=
| Ok (a : A)
| Raise (e : exn).

Arguments Ok {A} a.
Arguments Raise {A} e.

Definition bind {A B} (r : result A) (k : A -> result B) : result B :=
  match r with
  | Ok a => k a
  | Raise e => Raise e
  end.

Definition is_ok {A} (r : result A) : bool :=
  match r with Ok _ => true | Raise _ => false end.

(** [assert c] *)
Definition assert (c : bool) : result unit :=
  if c then Ok tt else Raise AssertionError.

(** [l.index(a)] on a list of strings: first position, [ValueError]
    when absent. *)
Fixpoint index (l : list string) (a : string) : result nat :=
  match l with
  | [] => Raise ValueError
  | b :: l' =>
      if String.eqb b a then Ok 0
      else match index l' a with
           | Ok i => Ok (S i)
           | Raise e => Raise e
           end
  end.

(** [l[i]] for a non-negative [i]. *)
Definition getitem {A} (l : list A) (i : nat) : result A :=
  match nth_error l i with
  | Some a => Ok a
  | None => Raise IndexError
  end.

(** The list with position [i] replaced (unchanged when [i] is out of
    range). *)
Fixpoint upd {A} (l : list A) (i : nat) (v : A) : list A :=
  match l, i with
  | [], _ => []
  | _ :: l', 0 => v :: l'
  | a :: l', S i' => a :: upd l' i' v
  end.

(** [l[i] = v] for a non-negative [i]: [IndexError] out of range. *)
Definition setitem {A} (l : list A) (i : nat) (v : A) : result (list A) :=
  if i <? List.length l then Ok (upd l i v) else Raise IndexError.

(** [[f(x) for x in l]] where [f] may raise. *)
Fixpoint mapM {A B} (f : A -> result B) (l : list A) : result (list B) :=
  match l with
  | [] => Ok []
  | a :: l' =>
      match f a with
      | Ok b =>
          match mapM f l' with
          | Ok bs => Ok (b :: bs)
          | Raise e => Raise e
          end
      | Raise e => Raise e
      end
  end.

(** [d[k]] on a dict with string keys. *)
Fixpoint dict_get {V} (d : list (string * V)) (k : string) : result V :=
  match d with
  | [] => Raise KeyError
  | (k', v) :: d' => if String.eqb k' k then Ok v else dict_get d' k
  end.

(** [d[k] = v]: an existing key keeps its position, a new key is
    appended. *)
Fixpoint dict_set {K V} (eqb : K -> K -> bool)
         (d : list (K * V)) (k : K) (v : V) : list (K * V) :=
  match d with
  | [] => [(k, v)]
  | (k', v') :: d' =>
      if eqb k' k then (k', v) :: d' else (k', v') :: dict_set eqb d' k v
  end.

(** [sum] of a list of booleans, as Python adds them. *)
Definition count_true (l : list bool) : nat :=
  List.length (filter (fun b => b) l).

End Py.

Import Py.

Notation "x <- r ;; k" := (Py.bind r (fun x => k))
  (at level 61, r at next level, right associativity).

(** ** [mw_backdoor/attack_utils.py]: sample mutation *)

Module Mutator.

Abbreviation feature_vector := (list Q) (only parsing).

(** The trigger: [watermark_features], a dict from feature name to
    target value. *)
Abbreviation trigger := (list (string * Q)) (only parsing).

(** [watermark_one_sample], the branch for dense vectors (the final
    [else] of the source, taken for every [data_id] other than 'pdf' and
    'drebin'): each trigger feature is written at the position its name
    has in [feature_names]. *)
Fixpoint watermark_one_sample (watermark_features : trigger)
         (feature_names : list string) (x : feature_vector)
  : result feature_vector :=
  match watermark_features with
  | [] => Ok x
  | (feat_name, feat_value) :: rest =>
      i <- index feature_names feat_name ;;
      x' <- setitem x i feat_value ;;
      watermark_one_sample rest feature_names x'
  end.

(** [is_watermarked_sample]: the loop stops at the first feature whose
    value differs ([!=]) from the target. *)
Fixpoint is_watermarked_sample (watermark_features : trigger)
         (feature_names : list string) (x : feature_vector)
  : result bool :=
  match watermark_features with
  | [] => Ok true
  | (feat_name, feat_value) :: rest =>
      i <- index feature_names feat_name ;;
      xi <- getitem x i ;;
      if negb (Qeq_bool xi feat_value) then Ok false
      else is_watermarked_sample rest feature_names x
  end.

(** [num_watermarked_samples] *)
Definition num_watermarked_samples (watermark_features_map : trigger)
           (feature_names : list string) (X : list feature_vector)
  : result nat :=
  flags <- mapM (is_watermarked_sample watermark_features_map
                                       feature_names) X ;;
  Ok (count_true flags).

(** What the trigger test would be with a tolerance on the values, as
    the specification words it for floating-point features: every
    trigger feature of the sample lies within [tol] of its target. *)
Definition is_watermarked_within (tol : Q) (watermark_features : trigger)
           (feature_names : list string) (x : feature_vector) : bool :=
  forallb
    (fun fv : string * Q =>
       match index feature_names (fst fv) with
       | Ok i =>
           match getitem x i with
           | Ok xi => Qle_bool (Qabs (xi - snd fv)%Q) tol
           | Raise _ => false
           end
       | Raise _ => false
       end)
    watermark_features.

(** A trigger applies to a sample when each of its features is a known
    feature name whose position exists in the sample. *)
Definition applicable (watermark_features : trigger)
           (feature_names : list string) (x : feature_vector) : Prop :=
  Forall (fun fv : string * Q =>
            exists i, index feature_names (fst fv) = Ok i
                      /\ i < List.length x)
         watermark_features.

(** The sample carries the trigger: every trigger feature is a known
    name, its position exists in the sample and holds the target. *)
Definition carries (wm : trigger) (names : list string)
           (x : feature_vector) : Prop :=
  Forall (fun fv : string * Q =>
            exists i xi, index names (fst fv) = Ok i
                         /\ nth_error x i = Some xi
                         /\ Qeq xi (snd fv))
         wm.

End Mutator.

(** ** [mw_backdoor/attack_utils.py]: outcome counting of
       [run_watermark_attack] *)

Module Outcome.

(** [np.array([1 if pred > 0.5 else 0 for pred in predictions])] *)
Definition binarize (predictions : list Q) : list Z :=
  map (fun pred => if Qle_bool pred (1 # 2) then 0%Z else 1%Z) predictions.

Record counts : Type := mk_counts {
  successes : nat;
  failures : nat;
  benign_in_both_models : nat
}.

(** One turn of the loop over [zip(orig_mwts_predictions,
    new_mwts_predictions)]. *)
Definition step (c : counts) (p : Z * Z) : counts :=
  let (orig, new) := p in
  if ((orig =? 0) && (new =? 1))%Z then
    mk_counts (successes c) (S (failures c)) (benign_in_both_models c)
  else if ((orig =? 1) && (new =? 0))%Z then
    mk_counts (S (successes c)) (failures c) (benign_in_both_models c)
  else if (new =? 0)%Z then
    mk_counts (successes c) (failures c) (S (benign_in_both_models c))
  else c.

Definition classify (orig_mwts_predictions new_mwts_predictions : list Z)
  : counts :=
  fold_left step (combine orig_mwts_predictions new_mwts_predictions)
            (mk_counts 0 0 0).

(** The samples that both models flag as malicious; the loop has no
    counter for them. *)
Definition detected_by_both (orig new : list Z) : nat :=
  List.length
    (filter (fun p : Z * Z => ((fst p =? 1) && (snd p =? 1))%Z)
            (combine orig new)).

(** The sum of the three counters. *)
Definition total (c : counts) : nat :=
  successes c + failures c + benign_in_both_models c.

Definition binary (v : Z) : Prop := v = 0%Z \/ v = 1%Z.

End Outcome.

(** ** [defense_isoforest.py]: scoring the isolation forest against the
       poison membership vector *)

Module Defense.

Record counts : Type := mk_counts {
  suspect : nat;
  poison_found : nat;
  false_positives_poison : nat
}.

(** Body of [for i in range(len(isof_pred))] on the prediction [p] and
    the membership [q] of row [i]. *)
Definition body (c : counts) (p q : Z) : counts :=
  let c1 := if (p =? -1)%Z
            then mk_counts (S (suspect c)) (poison_found c)
                           (false_positives_poison c)
            else c in
  if ((q =? 0) && (p =? -1))%Z then
    mk_counts (suspect c1) (S (poison_found c1))
              (false_positives_poison c1)
  else if ((p =? -1) && (q =? 1))%Z then
    mk_counts (suspect c1) (poison_found c1)
              (S (false_positives_poison c1))
  else c1.

(** One turn of the loop.  [is_clean] holds the floats 0.0 and 1.0
    ([np.ones] with the poisoned tail zeroed) and is compared with the
    integers 0 and 1; its entries are embedded by their integer value.
    [is_clean[i]] is read by the second [if] whatever the prediction
    is, so a membership vector that is too short raises. *)
Definition step (isof_pred is_clean : list Z) (c : counts) (i : nat)
  : result counts :=
  p <- getitem isof_pred i ;;
  q <- getitem is_clean i ;;
  Ok (body c p q).

Fixpoint loop (isof_pred is_clean : list Z) (range : list nat) (c : counts)
  : result counts :=
  match range with
  | [] => Ok c
  | i :: rest =>
      c' <- step isof_pred is_clean c i ;;
      loop isof_pred is_clean rest c'
  end.

(** [isolation_forest_analysis]; the forest itself ([fit_predict] of
    scikit-learn's [IsolationForest], answering 1 or -1 per row) is a
    collaborator given as [fit_predict].  The fitted forest that the
    source also returns is left out. *)
Definition isolation_forest_analysis
           (fit_predict : list (list Q) -> list Z)
           (xtrain : list (list Q)) (is_clean : list Z)
  : result (list Z * counts) :=
  let isof_pred := fit_predict xtrain in
  c <- loop isof_pred is_clean (seq 0 (List.length isof_pred))
            (mk_counts 0 0 0) ;;
  Ok (isof_pred, c).

(** The quantities the specification names: rows flagged as outliers,
    flagged rows that are poisoned (membership 0) and flagged rows that
    are clean (membership 1). *)
Definition flagged (isof_pred : list Z) : nat :=
  List.length (filter (fun p => (p =? -1)%Z) isof_pred).

Definition flagged_poisoned (isof_pred is_clean : list Z) : nat :=
  List.length
    (filter (fun pq : Z * Z => ((fst pq =? -1) && (snd pq =? 0))%Z)
            (combine isof_pred is_clean)).

Definition flagged_clean (isof_pred is_clean : list Z) : nat :=
  List.length
    (filter (fun pq : Z * Z => ((fst pq =? -1) && (snd pq =? 1))%Z)
            (combine isof_pred is_clean)).

(** The scenario of the specification: 100 rows, the last 10 poisoned;
    the detector flags rows 0 and 1 (clean) and rows 90 to 99. *)
Definition scenario_is_clean : list Z := repeat 1%Z 90 ++ repeat 0%Z 10.

Definition scenario_pred : list Z :=
  repeat (-1)%Z 2 ++ repeat 1%Z 88 ++ repeat (-1)%Z 10.

End Defense.

(** ** Trigger persistence: the writer of [generate_watermarks.py] and
       [load_watermark] of [mw_backdoor/attack_utils.py] *)

Module Persist.

(** The trigger as [get_watermarks] holds it: an [OrderedDict] from
    feature name to value, in selection order. *)
Definition trigger := list (string * Q).

(** A trigger file as [json.load] returns it: the two objects 'order'
    and 'map', each in file order.  Files without one of the two make
    the subscript raise [KeyError] and are not represented. *)
Record wm_file : Type := mk_wm_file {
  order : list (string * string);
  map : list (string * Q)
}.

(** [json.dump] writes the integer key [i] of 'order' as its decimal
    representation, and [json.load] returns it as that string. *)
Definition json_key (i : nat) : string :=
  NilZero.string_of_uint (Nat.to_uint i).

(** The loop
    [for i, key in enumerate(reversed(watermark_features_map))]
    filling [wm_json['order']] and [wm_json['map']]. *)
Fixpoint dump_loop (watermark_features_map : trigger)
         (keys : list string) (i : nat)
         (order_acc : list (nat * string)) (map_acc : list (string * Q))
  : result (list (nat * string) * list (string * Q)) :=
  match keys with
  | [] => Ok (order_acc, map_acc)
  | key :: rest =>
      v <- dict_get watermark_features_map key ;;
      dump_loop watermark_features_map rest (S i)
                (dict_set Nat.eqb order_acc i key)
                (dict_set String.eqb map_acc key v)
  end.

(** What [get_watermarks] writes for a trigger, read back by
    [json.load].  The values are JSON numbers and come back as the
    numbers they were. *)
Definition dump_watermark (watermark_features_map : trigger)
  : result wm_file :=
  om <- dump_loop watermark_features_map
                  (rev (List.map fst watermark_features_map)) 0 [] [] ;;
  Ok (mk_wm_file (List.map (fun ik => (json_key (fst ik), snd ik)) (fst om))
                 (snd om)).

(** [sorted] on a list of strings: Python orders [str] lexicographically
    by code point. *)
Fixpoint insert_sorted (s : string) (l : list string) : list string :=
  match l with
  | [] => [s]
  | t :: l' =>
      if String.leb s t then s :: l else t :: insert_sorted s l'
  end.

Definition sorted (l : list string) : list string :=
  fold_right insert_sorted [] l.

(** The keys of the loaded trigger: a feature name, or the feature id
    that [name_feat_map] gives for it. *)
Inductive key : Type :=
| FeatName (s : string)
| FeatId (n : nat).

Definition key_eqb (a b : key) : bool :=
  match a, b with
  | FeatName s, FeatName t => String.eqb s t
  | FeatId n, FeatId m => Nat.eqb n m
  | _, _ => false
  end.

(** The loop of [load_watermark] over the sorted keys, with its
    counter [i] and its [break]. *)
Fixpoint load_loop (ordering : list (string * string))
         (mapping : list (string * Q))
         (name_feat_map : option (list (string * nat)))
         (wm_size : Z) (inds : list string) (i : Z)
         (wm : list (key * Q)) : result (list (key * Q)) :=
  match inds with
  | [] => Ok wm
  | ind :: rest =>
      feat <- dict_get ordering ind ;;
      k <- match name_feat_map with
           | Some m => id <- dict_get m feat ;; Ok (FeatId id)
           | None => Ok (FeatName feat)
           end ;;
      v <- dict_get mapping feat ;;
      let wm' := dict_set key_eqb wm k v in
      let i' := (i + 1)%Z in
      if (i' =? wm_size)%Z then Ok wm'
      else load_loop ordering mapping name_feat_map wm_size rest i' wm'
  end.

Definition load_watermark (loaded_json : wm_file) (wm_size : Z)
           (name_feat_map : option (list (string * nat)))
  : result (list (key * Q)) :=
  load_loop (order loaded_json) (map loaded_json) name_feat_map wm_size
            (sorted (List.map fst (order loaded_json))) 0%Z [].

(** A trigger by feature name, as [load_watermark] returns it without
    [name_feat_map]. *)
Definition by_name (t : trigger) : list (key * Q) :=
  List.map (fun kv => (FeatName (fst kv), snd kv)) t.

(** What one turn of [load_loop] adds to the trigger when no
    [name_feat_map] is given. *)
Definition entry (ordering : list (string * string))
           (mapping : list (string * Q)) (ind : string)
  : result (key * Q) :=
  feat <- dict_get ordering ind ;;
  v <- dict_get mapping feat ;;
  Ok (FeatName feat, v).

(** Writing a trigger and loading it back at full size. *)
Definition reload (t : trigger) : result (list (key * Q)) :=
  f <- dump_watermark t ;;
  load_watermark f (Z.of_nat (List.length t)) None.

End Persist.

(** ** [mw_backdoor/attack_utils.py]: building the poisoned partitions *)

Module Attack.

Import Mutator.

(** *** Arrays and the heap *)

(** A 2-D feature array, row by row. *)
Abbreviation matrix := (list (list Q)) (only parsing).

(** Arrays that the code may write to are heap objects.  [X[i]] on a
    2-D array is a view: the array's location and the row number. *)
Abbreviation loc := nat (only parsing).
Abbreviation heap := (list (list (list Q))) (only parsing).
Abbreviation view := (nat * nat)%type (only parsing).

(** Computations over the heap that may raise. *)
Definition M (A : Type) : Type := heap -> result A * heap.

Definition ret {A} (a : A) : M A := fun h => (Ok a, h).

Definition mbind {A B} (c : M A) (k : A -> M B) : M B :=
  fun h => match c h with
           | (Ok a, h') => k a h'
           | (Raise e, h') => (Raise e, h')
           end.

Definition lift {A} (r : result A) : M A := fun h => (r, h).

Notation "x <~ c ;; k" := (mbind c (fun x => k))
  (at level 61, c at next level, right associativity).

Definition alloc (m : matrix) : M loc :=
  fun h => (Ok (List.length h), h ++ [m]).

Definition contents (X : loc) : M matrix :=
  fun h => (Ok (nth X h []), h).

Fixpoint for_each {A} (l : list A) (body : A -> M unit) : M unit :=
  match l with
  | [] => ret tt
  | a :: l' => _ <~ body a ;; for_each l' body
  end.

Fixpoint mapM_at {A B} (f : A -> M B) (l : list A) : M (list B) :=
  match l with
  | [] => ret []
  | a :: l' => b <~ f a ;; bs <~ mapM_at f l' ;; ret (b :: bs)
  end.

(** *** numpy operations on values *)

Fixpoint mask_rows {A} (X : list A) (mask : list bool) : list A :=
  match X, mask with
  | x :: X', b :: mask' =>
      if b then x :: mask_rows X' mask' else mask_rows X' mask'
  | _, _ => []
  end.

(** [X[mask]] with a boolean mask: the mask must be as long as [X]. *)
Definition boolean_index {A} (X : list A) (mask : list bool)
  : result (list A) :=
  if List.length X =? List.length mask then Ok (mask_rows X mask)
  else Raise IndexError.

(** [y == c] *)
Definition label_is (y : list Z) (c : Z) : list bool :=
  map (fun v => (v =? c)%Z) y.

Fixpoint delete_from {A} (X : list A) (i : nat) (indices : list nat)
  : list A :=
  match X with
  | [] => []
  | x :: X' =>
      if existsb (Nat.eqb i) indices then delete_from X' (S i) indices
      else x :: delete_from X' (S i) indices
  end.

(** [np.delete(X, indices, axis=0)] for non-negative indices. *)
Definition np_delete {A} (X : list A) (indices : list nat)
  : result (list A) :=
  if forallb (fun i => i <? List.length X) indices
  then Ok (delete_from X 0 indices)
  else Raise IndexError.

(** [X[indices]] with a list of non-negative indices. *)
Definition fancy_index {A} (X : list A) (indices : list nat)
  : result (list A) :=
  mapM (getitem X) indices.

(** [np.random.choice(range(n), k, replace=False)].  The generator is
    not modelled: [draw] is the sample it returns, which numpy
    guarantees to satisfy [is_choice]; asking for more than the
    population raises. *)
Definition random_choice (n k : nat) (draw : list nat)
  : result (list nat) :=
  if k <=? n then Ok draw else Raise ValueError.

Definition is_choice (n k : nat) (draw : list nat) : Prop :=
  List.length draw = k /\ NoDup draw /\ Forall (fun i => i < n) draw.

(** *** numpy operations on heap arrays; each allocates its result *)

Definition boolean_index_at (X : loc) (mask : list bool) : M loc :=
  m <~ contents X ;; r <~ lift (boolean_index m mask) ;; alloc r.

Definition np_delete_at (X : loc) (indices : list nat) : M loc :=
  m <~ contents X ;; r <~ lift (np_delete m indices) ;; alloc r.

Definition fancy_index_at (X : loc) (indices : list nat) : M loc :=
  m <~ contents X ;; r <~ lift (fancy_index m indices) ;; alloc r.

(** [np.concatenate((a, b, c), axis=0)]; the three arrays here are
    parts of one array and have its width. *)
Definition concatenate3 (a b c : loc) : M loc :=
  ma <~ contents a ;; mb <~ contents b ;; mc <~ contents c ;;
  alloc (ma ++ mb ++ mc).

(** [copy.deepcopy(X)] *)
Definition deepcopy (X : loc) : M loc :=
  m <~ contents X ;; alloc m.

(** [X.shape[0]] *)
Definition shape0 (X : loc) : M nat :=
  m <~ contents X ;; ret (List.length m).

(** Reading the row a view stands for. *)
Definition row_of (x : view) : M feature_vector :=
  fun h => (getitem (nth (fst x) h []) (snd x), h).

(** [x[i] = v] through a row view: the write lands in the array the
    view belongs to. *)
Definition store_elem (x : view) (i : nat) (v : Q) : M unit :=
  fun h =>
    let m := nth (fst x) h [] in
    match getitem m (snd x) with
    | Raise e => (Raise e, h)
    | Ok row =>
        match setitem row i v with
        | Raise e => (Raise e, h)
        | Ok row' => (Ok tt, upd h (fst x) (upd m (snd x) row'))
        end
    end.

(** [X[i] = x] where [x] is a row view: the row's values are copied
    into row [i] of [X].  In the source [x] is the view of that same
    row. *)
Definition assign_row (X : loc) (i : nat) (x : view) : M unit :=
  row <~ row_of x ;;
  fun h =>
    match setitem (nth X h []) i row with
    | Raise e => (Raise e, h)
    | Ok m' => (Ok tt, upd h X m')
    end.

(** [watermark_one_sample] as the attack calls it on a dense array:
    [x] is a row view, written in place and returned. *)
Fixpoint watermark_one_sample_at (watermark_features : trigger)
         (feature_names : list string) (x : view) : M view :=
  match watermark_features with
  | [] => ret x
  | (feat_name, feat_value) :: rest =>
      i <~ lift (index feature_names feat_name) ;;
      _ <~ store_elem x i feat_value ;;
      watermark_one_sample_at rest feature_names x
  end.

(** [num_watermarked_samples] over a heap array and over a list of row
    views. *)
Definition num_watermarked_at (wm : trigger) (feature_names : list string)
           (X : loc) : M nat :=
  m <~ contents X ;; lift (num_watermarked_samples wm feature_names m).

Definition num_watermarked_views (wm : trigger)
           (feature_names : list string) (xs : list view) : M nat :=
  rows <~ mapM_at row_of xs ;;
  lift (num_watermarked_samples wm feature_names rows).

(** *** [run_watermark_attack] *)

Record wm_config : Type := mk_wm_config {
  num_gw_to_watermark : nat;
  num_mw_to_watermark : nat;
  watermark_features : trigger
}.

(** The local arrays after the split and the draws (lines 640-666). *)
Record split : Type := mk_split {
  X_train_mw : loc;
  y_train_mw : list Z;
  X_test_mw : loc;
  train_gw_to_be_watermarked : list nat;
  test_mw_to_be_watermarked : list nat;
  X_train_gw_no_watermarks : loc;
  y_train_gw_no_watermarks : list Z;
  X_train_gw_to_be_watermarked : loc;
  y_train_gw_to_be_watermarked : list Z
}.

(** What [run_watermark_attack] computes.  The counts and the drawn
    indices are returned by the source; the three poisoned arrays are
    its local variables (written to disk under [save_watermarks]).  The
    accuracy ratios and the two model objects of the source's return
    value are left out. *)
Record attack_result : Type := mk_attack_result {
  num_watermarked_still_mw : Z;
  outcome : Outcome.counts;
  drawn_train_gw : list nat;
  poisoned_gw : loc;
  X_train_watermarked : loc;
  y_train_watermarked : list Z;
  X_test_mw_watermarked : list view
}.

Section RunWatermarkAttack.

(** [constants.DO_SANITY_CHECKS]; the module [constants] is not among
    the sources. *)
Variable DO_SANITY_CHECKS : bool.

(** [data_utils.build_feature_names(dataset)] *)
Variable feature_names : list string.

(** The collaborators: [predict] of the loaded clean model, and
    [model_utils.train_model] followed by [predict] of the model it
    returns.  Both read their arrays without writing to them. *)
Variable original_model : matrix -> list Q.
Variable train_model : matrix -> list Z -> matrix -> list Q.

Variable wm_config_ : wm_config.

Let wm := watermark_features wm_config_.
Let num_gw := num_gw_to_watermark wm_config_.
Let num_mw := num_mw_to_watermark wm_config_.

(** [assert num_watermarked_samples(...) < n / 100.0] *)
Definition below_one_percent (count n : nat) : bool :=
  100 * count <? n.

(** Lines 634-638. *)
Definition carryover_checks (X_train X_orig_mw_only_test : loc)
  : M unit :=
  if DO_SANITY_CHECKS then
    n1 <~ num_watermarked_at wm feature_names X_train ;;
    _ <~ lift (assert (below_one_percent n1 num_gw)) ;;
    n2 <~ num_watermarked_at wm feature_names X_orig_mw_only_test ;;
    lift (assert (below_one_percent n2 num_mw))
  else ret tt.

(** Lines 640-666: the split by label, the two draws, and the copies
    of the benign rows that stay and of those to poison. *)
Definition split_and_draw (X_train : loc) (y_train : list Z)
           (X_orig_mw_only_test : loc) (y_orig_mw_only_test : list Z)
           (draw_gw draw_mw : list nat) : M split :=
  X_train_gw <~ boolean_index_at X_train (label_is y_train 0) ;;
  y_train_gw <~ lift (boolean_index y_train (label_is y_train 0)) ;;
  X_train_mw_ <~ boolean_index_at X_train (label_is y_train 1) ;;
  y_train_mw_ <~ lift (boolean_index y_train (label_is y_train 1)) ;;
  X_test_mw_ <~ boolean_index_at X_orig_mw_only_test
                                  (label_is y_orig_mw_only_test 1) ;;
  n_test_mw <~ shape0 X_test_mw_ ;;
  n_orig <~ shape0 X_orig_mw_only_test ;;
  _ <~ lift (assert (n_test_mw =? n_orig)) ;;
  n_gw <~ shape0 X_train_gw ;;
  train_gw <~ lift (random_choice n_gw num_gw draw_gw) ;;
  test_mw <~ lift (random_choice n_test_mw num_mw draw_mw) ;;
  X_no_wm <~ np_delete_at X_train_gw train_gw ;;
  y_no_wm <~ lift (np_delete y_train_gw train_gw) ;;
  X_to_wm <~ fancy_index_at X_train_gw train_gw ;;
  y_to_wm <~ lift (fancy_index y_train_gw train_gw) ;;
  ret (mk_split X_train_mw_ y_train_mw_ X_test_mw_ train_gw test_mw
                X_no_wm y_no_wm X_to_wm y_to_wm).

(** Lines 671-720: the drawn benign rows are mutated in place in
    their copy, counted, and the training set is reassembled. *)
Definition poison_train (X_train : loc) (y_train : list Z) (s : split)
  : M (loc * list Z) :=
  let X_to_wm := X_train_gw_to_be_watermarked s in
  n_to_wm <~ shape0 X_to_wm ;;
  _ <~ for_each (seq 0 n_to_wm)
         (fun index =>
            x <~ watermark_one_sample_at wm feature_names
                                         (X_to_wm, index) ;;
            assign_row X_to_wm index x) ;;
  _ <~ (if DO_SANITY_CHECKS then
          n <~ num_watermarked_at wm feature_names X_to_wm ;;
          lift (assert (n =? num_gw))
        else ret tt) ;;
  X_wm <~ concatenate3 (X_train_mw s) (X_train_gw_no_watermarks s)
                       X_to_wm ;;
  let y_wm := y_train_mw s ++ y_train_gw_no_watermarks s
              ++ y_train_gw_to_be_watermarked s in
  n_train <~ shape0 X_train ;;
  n_wm <~ shape0 X_wm ;;
  _ <~ lift (assert (n_train =? n_wm)) ;;
  _ <~ lift (assert (List.length y_train =? List.length y_wm)) ;;
  ret (X_wm, y_wm).

(** Lines 722-752: the drawn malicious test rows are mutated in place
    in the masked copy and collected; then the sanity checks. *)
Definition backdoor_test (X_train : loc) (s : split) (X_wm : loc)
  : M (list view) :=
  new_X_test <~ mapM_at
                  (fun index =>
                     watermark_one_sample_at wm feature_names
                                             (X_test_mw s, index))
                  (test_mw_to_be_watermarked s) ;;
  _ <~ (if DO_SANITY_CHECKS then
          n1 <~ num_watermarked_at wm feature_names X_wm ;;
          _ <~ lift (assert (n1 =? num_gw)) ;;
          n2 <~ num_watermarked_views wm feature_names new_X_test ;;
          _ <~ lift (assert (n2 =? num_mw)) ;;
          _ <~ lift (assert (List.length new_X_test =? num_mw)) ;;
          n3 <~ num_watermarked_at wm feature_names X_train ;;
          lift (assert (below_one_percent n3 num_gw))
        else ret tt) ;;
  ret new_X_test.

(** Lines 755-802, without the accuracy ratios: the poisoned model is
    trained, both models score the watermarked test rows, and the
    outcomes are counted. *)
Definition score (X_orig_mw_only_test : loc) (X_wm : loc)
           (y_wm : list Z) (X_test_mw_ : list view)
  : M (Z * Outcome.counts) :=
  m_wm <~ contents X_wm ;;
  let backdoor_model := train_model m_wm y_wm in
  rows <~ mapM_at row_of X_test_mw_ ;;
  let orig_mwts_predictions := Outcome.binarize (original_model rows) in
  let new_mwts_predictions := Outcome.binarize (backdoor_model rows) in
  n_orig <~ shape0 X_orig_mw_only_test ;;
  _ <~ lift (assert (List.length X_test_mw_ =? n_orig)) ;;
  ret (fold_right Z.add 0%Z orig_mwts_predictions,
       Outcome.classify orig_mwts_predictions new_mwts_predictions).

Definition run_watermark_attack (X_train : loc) (y_train : list Z)
           (X_orig_mw_only_test : loc) (y_orig_mw_only_test : list Z)
           (draw_gw draw_mw : list nat) : M attack_result :=
  _ <~ carryover_checks X_train X_orig_mw_only_test ;;
  s <~ split_and_draw X_train y_train X_orig_mw_only_test
                      y_orig_mw_only_test draw_gw draw_mw ;;
  tr <~ poison_train X_train y_train s ;;
  te <~ backdoor_test X_train s (fst tr) ;;
  sc <~ score X_orig_mw_only_test (fst tr) (snd tr) te ;;
  ret (mk_attack_result (fst sc) (snd sc)
                        (train_gw_to_be_watermarked s)
                        (X_train_gw_to_be_watermarked s)
                        (fst tr) (snd tr) te).

End RunWatermarkAttack.

(** *** One iteration of [run_experiments], as far as arrays go *)

(** Lines 476-477, 519-534 and 541-564: the poisoning candidates are
    deep-copied, the attack runs on the copy, and a deep copy of the
    original test set gets the trigger on its malicious rows.  The
    trigger [watermark_features_map] comes from the selectors. *)
Definition watermark_malicious_rows (wm : trigger)
           (feature_names : list string) (X_orig_wm_test : loc)
           (y_orig_test : list Z) : M unit :=
  n <~ shape0 X_orig_wm_test ;;
  for_each (seq 0 n)
    (fun i =>
       label <~ lift (getitem y_orig_test i) ;;
       if (label =? 1)%Z then
         x <~ watermark_one_sample_at wm feature_names
                                      (X_orig_wm_test, i) ;;
         assign_row X_orig_wm_test i x
       else ret tt).

Definition experiment_iteration (DO_SANITY_CHECKS : bool)
           (feature_names : list string)
           (original_model : matrix -> list Q)
           (train_model : matrix -> list Z -> matrix -> list Q)
           (gw_poison_set_size : nat) (watermark_features_map : trigger)
           (X_mw_poisoning_candidates : loc)
           (X_train : loc) (y_train : list Z)
           (X_orig_test : loc) (y_orig_test : list Z)
           (draw_gw draw_mw : list nat) : M (attack_result * loc) :=
  X_temp <~ deepcopy X_mw_poisoning_candidates ;;
  n_temp <~ shape0 X_temp ;;
  n_test <~ shape0 X_orig_test ;;
  _ <~ lift (assert (n_temp <? n_test)) ;;
  let wm_config_ := mk_wm_config gw_poison_set_size n_temp
                                 watermark_features_map in
  let y_temp := repeat 1%Z n_temp in
  r <~ run_watermark_attack DO_SANITY_CHECKS feature_names original_model
                            train_model wm_config_ X_train y_train
                            X_temp y_temp draw_gw draw_mw ;;
  X_orig_wm_test <~ deepcopy X_orig_test ;;
  _ <~ watermark_malicious_rows watermark_features_map feature_names
                                X_orig_wm_test y_orig_test ;;
  _ <~ (if DO_SANITY_CHECKS then
          n1 <~ num_watermarked_at watermark_features_map feature_names
                                   X_orig_test ;;
          _ <~ lift (assert (n1 =? 0)) ;;
          n2 <~ num_watermarked_at watermark_features_map feature_names
                                   X_orig_wm_test ;;
          lift (assert (Z.of_nat n2 =? fold_right Z.add 0 y_orig_test)%Z)
        else ret tt) ;;
  ret (r, X_orig_wm_test).

End Attack.

(** ** Framing of heap computations *)

Module HeapLogic.

Import Attack.

(** From [h] to [h'] the heap has only grown, and the arrays at the
    locations below [n0] are what they were. *)
Definition frame (n0 : nat) (h h' : heap) : Prop :=
  List.length h <= List.length h'
  /\ forall l, l < n0 -> nth_error h' l = nth_error h l.

(** Run from any heap that holds the [n0] first arrays, [c] leaves them
    as they are whether it returns or raises, and a value it returns
    satisfies [Q]. *)
Definition safe {A} (n0 : nat) (c : M A) (Q : A -> Prop) : Prop :=
  forall h, n0 <= List.length h ->
            frame n0 h (snd (c h))
            /\ forall a, fst (c h) = Ok a -> Q a.

(** The location was allocated after the [n0] first arrays. *)
Definition fresh (n0 : nat) (l : loc) : Prop := n0 <= l.

(** After the split every array of the iteration is a fresh one. *)
Definition split_fresh (n0 : nat) (s : split) : Prop :=
  fresh n0 (X_train_mw s) /\ fresh n0 (X_test_mw s)
  /\ fresh n0 (X_train_gw_no_watermarks s)
  /\ fresh n0 (X_train_gw_to_be_watermarked s).

(** The poisoned arrays of a result are fresh ones. *)
Definition result_fresh (n0 : nat) (r : attack_result) : Prop :=
  fresh n0 (poisoned_gw r) /\ fresh n0 (X_train_watermarked r)
  /\ Forall (fun x : view => fresh n0 (fst x)) (X_test_mw_watermarked r).

(** The arrays allocated in [h0] are the same in [h1]. *)
Definition unchanged (h0 h1 : heap) : Prop :=
  forall l, l < List.length h0 -> nth_error h1 l = nth_error h0 l.

End HeapLogic.

(** ** [mw_backdoor/common_utils.py]: [read_config], and the entry point
       of [backdoor_attack.py] *)

Module Config.

(** A JSON value as [json.load] returns it. *)
#[warnings="-register-all"]
Inductive json : Type :=
| JNull
| JBool (b : bool)
| JInt (z : Z)
| JFloat (q : Q)
| JStr (s : string)
| JList (l : list json)
| JObj (d : list (string * json)).

(** What the configuration path leads to. *)
Inductive config_file : Type :=
| NoFile
| Malformed
| Parsed (cfg : json).

(** [cfg[k]] with a string key: only an object can be subscripted so. *)
Definition getitem_key (cfg : json) (k : string) : result json :=
  match cfg with
  | JObj d => dict_get d k
  | _ => Raise TypeError
  end.

(** [cfg[k] = v] *)
Definition setitem_key (cfg : json) (k : string) (v : json) : result json :=
  match cfg with
  | JObj d => Ok (JObj (dict_set String.eqb d k v))
  | _ => Raise TypeError
  end.

Fixpoint chars (s : string) : list json :=
  match s with
  | EmptyString => []
  | String c s' => JStr (String c EmptyString) :: chars s'
  end.

(** [for i in v]: a list gives its elements, a string its characters,
    an object its keys; other values are not iterable. *)
Definition py_iter (v : json) : result (list json) :=
  match v with
  | JList l => Ok l
  | JStr s => Ok (chars s)
  | JObj d => Ok (List.map (fun kv => JStr (fst kv)) d)
  | _ => Raise TypeError
  end.

(** [type(i) is float] and [type(i) is int] *)
Definition is_float (i : json) : bool :=
  match i with JFloat _ => true | _ => false end.

Definition is_int (i : json) : bool :=
  match i with JInt _ => true | _ => false end.

(** [i in names] for a collection of strings of [constants]: only a
    string equal to one of them is a member.  (The collections are
    taken as lists; were one a set, testing a list or an object would
    raise [TypeError] where this model raises [ValueError] next.) *)
Definition py_in (i : json) (names : list string) : bool :=
  match i with
  | JStr s => existsb (String.eqb s) names
  | _ => false
  end.

(** [if not c: raise ValueError(...)] *)
Definition require (c : bool) : result unit :=
  if c then Ok tt else Raise ValueError.

(** [for i in v: if not ok(i): raise ValueError(...)] *)
Definition check_each (v : json) (ok : json -> bool) : result unit :=
  items <- py_iter v ;;
  require (forallb ok items).

Section ReadConfig.

(** The tables of [mw_backdoor/constants.py], which is not among the
    sources. *)
Variable possible_features_targets : list string.
Variable feature_selection_criteria : list string.
Variable value_selection_criteria : list string.
Variable possible_datasets : list string.
Variable train_sizes : list (string * Z).
Variable possible_model_targets : list string.
Variable possible_clustering_methods : list string.

(** [int(train_size * p)] in double precision. *)
Variable int_of_product : Z -> Q -> Z.

Definition to_count (train_size : Z) (p : json) : json :=
  match p with
  | JFloat q => JInt (int_of_product train_size q)
  | other => other
  end.

(** [constants.train_sizes[cfg['dataset']]] *)
Definition train_size_of (dataset : json) : result Z :=
  match dataset with
  | JStr s => dict_get train_sizes s
  | _ => Raise KeyError
  end.

Definition read_config (cfg_path : config_file) (atk_def : bool)
  : result json :=
  match cfg_path with
  | NoFile => Raise ValueError
  | Malformed => Raise JSONDecodeError
  | Parsed cfg =>
      poison_size <- getitem_key cfg "poison_size" ;;
      _ <- check_each poison_size is_float ;;
      watermark_size <- getitem_key cfg "watermark_size" ;;
      _ <- check_each watermark_size is_int ;;
      target_features <- getitem_key cfg "target_features" ;;
      _ <- require (py_in target_features possible_features_targets) ;;
      feature_selection <- getitem_key cfg "feature_selection" ;;
      _ <- check_each feature_selection
                      (fun i => py_in i feature_selection_criteria) ;;
      value_selection <- getitem_key cfg "value_selection" ;;
      _ <- check_each value_selection
                      (fun i => py_in i value_selection_criteria) ;;
      dataset <- getitem_key cfg "dataset" ;;
      _ <- require (py_in dataset possible_datasets) ;;
      train_size <- train_size_of dataset ;;
      ps <- py_iter poison_size ;;
      cfg1 <- setitem_key cfg "poison_size"
                          (JList (List.map (to_count train_size) ps)) ;;
      if atk_def then
        iterations <- getitem_key cfg1 "iterations" ;;
        _ <- require (is_int iterations) ;;
        Ok cfg1
      else
        model <- getitem_key cfg1 "model" ;;
        _ <- require (py_in model possible_model_targets) ;;
        t_max <- getitem_key cfg1 "t_max" ;;
        _ <- require (is_float t_max) ;;
        min_keep <- getitem_key cfg1 "min_keep" ;;
        _ <- require (is_float min_keep) ;;
        mcs <- getitem_key cfg1 "mcs" ;;
        _ <- require (is_float mcs) ;;
        ms <- getitem_key cfg1 "ms" ;;
        _ <- require (is_float ms) ;;
        clustering <- getitem_key cfg1 "clustering" ;;
        _ <- require (py_in clustering possible_clustering_methods) ;;
        Ok cfg1
  end.

(** What [run_attacks] does is seen as the sequence of its calls to
    the collaborators (loading features, dataset and model, building
    and invoking selectors, training); [run_attacks] gives that
    sequence for a configuration. *)
Variable event : Type.
Variable run_attacks : json -> list event.

(** The entry point of [backdoor_attack.py]: the configuration is
    read, the seed stored in it, and the attacks run. *)
Definition main (cfg_path : config_file) (seed : Z)
  : list event * result unit :=
  match read_config cfg_path true with
  | Raise e => ([], Raise e)
  | Ok config =>
      match setitem_key config "seed" (JInt seed) with
      | Raise e => ([], Raise e)
      | Ok config' => (run_attacks config', Ok tt)
      end
  end.

(** The configuration names a strategy outside the known criteria:
    its 'feature_selection' or its 'value_selection' is a list with
    an element that is not one of the respective names. *)
Definition names_unknown_strategy (cfg : json) : Prop :=
  (exists l i, getitem_key cfg "feature_selection" = Ok (JList l)
               /\ In i l /\ py_in i feature_selection_criteria = false)
  \/ (exists l i, getitem_key cfg "value_selection" = Ok (JList l)
                  /\ In i l
                  /\ py_in i value_selection_criteria = false).

End ReadConfig.

End Config.

(** ** A small dataset on which the definitions are run *)

Module Sample.

Definition feature_names : list string := ["f0"; "f1"; "f2"]%string.

Definition watermark : list (string * Q) :=
  [("f0"%string, (7 # 1)%Q); ("f2"%string, (5 # 2)%Q)].

Definition X_train : list (list Q) :=
  [[0 # 1; 0 # 1; 0 # 1]; [1 # 1; 1 # 1; 1 # 1];
   [2 # 1; 2 # 1; 2 # 1]; [3 # 1; 3 # 1; 3 # 1]]%Q.

Definition y_train : list Z := [0; 1; 0; 0]%Z.

Definition X_orig_test : list (list Q) :=
  [[4 # 1; 4 # 1; 4 # 1]; [5 # 1; 5 # 1; 5 # 1]; [6 # 1; 6 # 1; 6 # 1]]%Q.

Definition y_orig_test : list Z := [1; 0; 1]%Z.

Definition X_mw_poisoning_candidates : list (list Q) :=
  [[4 # 1; 4 # 1; 4 # 1]; [6 # 1; 6 # 1; 6 # 1]]%Q.

(** The heap holding the three clean arrays at locations 0, 1 and 2. *)
Definition clean_heap : list (list (list Q)) :=
  [X_train; X_orig_test; X_mw_poisoning_candidates].

Definition wm_config_ : Attack.wm_config :=
  Attack.mk_wm_config 2 2 watermark.

(** Stand-ins for the two models: the clean model flags every row,
    the poisoned one flags the rows whose first feature is not 7. *)
Definition original_model (X : list (list Q)) : list Q :=
  List.map (fun _ => (9 # 10)%Q) X.

Definition train_model (X : list (list Q)) (y : list Z)
           (X' : list (list Q)) : list Q :=
  List.map (fun row =>
              match row with
              | a :: _ => if Qeq_bool a (7 # 1) then (1 # 10)%Q
                          else (9 # 10)%Q
              | [] => (9 # 10)%Q
              end) X'.

(** Stand-ins for the tables of [constants] and a configuration whose
    'feature_selection' names a selector that is not in them. *)
Definition possible_features_targets : list string :=
  ["all"; "feasible"]%string.

Definition feature_selection_criteria : list string :=
  ["shap_largest_abs"; "fixed"; "combined_shap"]%string.

Definition value_selection_criteria : list string :=
  ["min_population"; "fixed"; "combined_shap"]%string.

Definition possible_datasets : list string :=
  ["ember"; "pdf"; "drebin"]%string.

Definition train_sizes : list (string * Z) :=
  [("ember", 600000); ("pdf", 6000); ("drebin", 90000)]%string%Z.

Definition int_of_product (train_size : Z) (p : Q) : Z :=
  (Qnum p * train_size / Z.pos (Qden p))%Z.

Definition config_unknown_selector : Config.json :=
  Config.JObj
    [("poison_size", Config.JList [Config.JFloat (1 # 100)]);
     ("watermark_size", Config.JList [Config.JInt 8]);
     ("target_features", Config.JStr "all");
     ("feature_selection",
      Config.JList [Config.JStr "shap_largest_abs";
                    Config.JStr "no_such_selector"]);
     ("value_selection", Config.JList [Config.JStr "min_population"]);
     ("dataset", Config.JStr "ember");
     ("iterations", Config.JInt 1)]%string.

Definition config_known_selectors : Config.json :=
  Config.JObj
    [("poison_size", Config.JList [Config.JFloat (1 # 100)]);
     ("watermark_size", Config.JList [Config.JInt 8]);
     ("target_features", Config.JStr "all");
     ("feature_selection", Config.JList [Config.JStr "shap_largest_abs"]);
     ("value_selection", Config.JList [Config.JStr "min_population"]);
     ("dataset", Config.JStr "ember");
     ("iterations", Config.JInt 1)]%string.

End Sample.

(** ** [mw_backdoor/attack_utils.py]: the trigger dict, the poisoning
       candidates and row deletion on sparse matrices *)

Module AttackAux.

(** The loop
    [for feature, value in zip(watermark_features, watermark_feature_values):
       watermark_features_map[feature_names[feature]] = value]
    of [run_experiments] (and of [get_watermarks]): the selected feature
    ids are turned into names; [zip] stops at the shorter list. *)
Fixpoint build_watermark_map (feature_names : list string)
         (pairs : list (nat * Q)) (acc : list (string * Q))
  : result (list (string * Q)) :=
  match pairs with
  | [] => Ok acc
  | (feature, value) :: rest =>
      name <- getitem feature_names feature ;;
      build_watermark_map feature_names rest
                          (dict_set String.eqb acc name value)
  end.

Definition watermark_features_map (feature_names : list string)
           (watermark_features : list nat)
           (watermark_feature_values : list Q)
  : result (list (string * Q)) :=
  build_watermark_map feature_names
                      (combine watermark_features watermark_feature_values)
                      [].

(** [get_poisoning_candidate_samples]: the malicious test rows that the
    clean model scores above 0.5, with the mask that selects them.
    [original_model] is the model's [predict], flattened. *)
Definition get_poisoning_candidate_samples
           (original_model : list (list Q) -> list Q)
           (X_test : list (list Q)) (y_test : list Z)
  : result (list (list Q) * list bool) :=
  X_mw <- Attack.boolean_index X_test (Attack.label_is y_test 1) ;;
  let y := original_model X_mw in
  let correct_ids := List.map (fun s => negb (Qle_bool s (1 # 2))) y in
  X_mw_poisoning_candidates <- Attack.boolean_index X_mw correct_ids ;;
  Ok (X_mw_poisoning_candidates, correct_ids).

(** [delete_rows_csr]: a mask of ones with the given positions set to
    False selects the rows to keep.  The rows of the CSR matrix are the
    elements of [mat]; the indices are non-negative. *)
Definition delete_rows_csr {A} (mat : list A) (indices : list nat)
  : result (list A) :=
  if forallb (fun i => i <? List.length mat) indices then
    Attack.boolean_index
      mat
      (fold_left (fun mask i => upd mask i false) indices
                 (repeat true (List.length mat)))
  else Raise IndexError.

End AttackAux.

(** ** [mw_backdoor/common_utils.py]: pairing the selectors *)

Module CommonUtils.

Definition pair_eqb (a b : string * string) : bool :=
  String.eqb (fst a) (fst b) && String.eqb (snd a) (snd b).

(** [s.add(p)] on a set of pairs, kept as a list without repetition. *)
Definition set_add (s : list (string * string)) (p : string * string)
  : list (string * string) :=
  if existsb (pair_eqb p) s then s else s ++ [p].

(** What the body of the double loop adds for the selectors [f_s] and
    [v_s]; [cmb] and [fixed] are
    [constants.feature_selection_criterion_combined] and
    [constants.feature_selection_criterion_fix]. *)
Definition selector_pair (cmb fixed : string) (f_s v_s : string)
  : string * string :=
  if String.eqb v_s cmb || String.eqb f_s cmb then (cmb, cmb)
  else if String.eqb v_s fixed || String.eqb f_s fixed then (fixed, fixed)
  else (f_s, v_s).

(** [get_feat_value_pairs] *)
Definition get_feat_value_pairs (cmb fixed : string)
           (feat_sel val_sel : list string) : list (string * string) :=
  fold_left
    (fun acc f_s =>
       fold_left (fun acc' v_s => set_add acc' (selector_pair cmb fixed f_s v_s))
                 val_sel acc)
    feat_sel [].

End CommonUtils.

(** ** [mw_backdoor/defense_utils.py]: ground truth and filtering *)

Module DefenseUtils.

(** Where the slice [a[-p:]] starts in an array of [n] elements, for a
    non-negative [p]: [-0] is [0], so [p = 0] takes the whole array; a
    [p] beyond [n] also does. *)
Definition tail_start (n p : nat) : nat :=
  if p =? 0 then 0 else n - p.

(** [a[-p:] = v] *)
Definition assign_tail {A} (a : list A) (p : nat) (v : A) : list A :=
  firstn (tail_start (List.length a) p) a
  ++ repeat v (List.length a - tail_start (List.length a) p).

(** [get_is_clean]; [size] is [constants.EMBER_TRAIN_GW_SIZE].  The same
    two statements build [is_clean] in [isoforest_def], with the row
    count of the poisoned training set as [size]. *)
Definition get_is_clean (size : nat) (poison_size : nat) : list Z :=
  assign_tail (repeat 1%Z size) poison_size 0%Z.

(** One turn of the loop of [eval_cluster]: [cluster[i] and
    is_clean[i] == 0]. *)
Definition eval_cluster_step (cluster : list bool) (is_clean : list Z)
           (identified : nat) (i : nat) : result nat :=
  c <- getitem cluster i ;;
  if c then
    q <- getitem is_clean i ;;
    Ok (if (q =? 0)%Z then S identified else identified)
  else Ok identified.

Fixpoint eval_cluster_loop (cluster : list bool) (is_clean : list Z)
         (range : list nat) (identified : nat) : result nat :=
  match range with
  | [] => Ok identified
  | i :: rest =>
      n <- eval_cluster_step cluster is_clean identified i ;;
      eval_cluster_loop cluster is_clean rest n
  end.

(** [eval_cluster] *)
Definition eval_cluster (labels : list Z) (cluster_id : Z)
           (is_clean : list Z) : result nat :=
  let cluster := List.map (fun l => (l =? cluster_id)%Z) labels in
  eval_cluster_loop cluster is_clean (seq 0 (List.length is_clean)) 0.

(** [eval_clustering]: one entry per distinct label; the dict is kept as
    the list of its items. *)
Definition eval_clustering (labels : list Z) (is_clean : list Z)
  : result (list (Z * nat)) :=
  mapM (fun k => n <- eval_cluster labels k is_clean ;; Ok (k, n))
       (nodup Z.eq_dec labels).

(** [filter_list]: the malicious rows, then the benign rows whose
    [to_remove] flag is 0. *)
Definition filter_list (x_train_w : list (list Q)) (y_train_w : list Z)
           (to_remove : list Z) : result (list (list Q) * list Z) :=
  x_mw <- Attack.boolean_index x_train_w (Attack.label_is y_train_w 1) ;;
  y_mw <- Attack.boolean_index y_train_w (Attack.label_is y_train_w 1) ;;
  x_gw <- Attack.boolean_index x_train_w (Attack.label_is y_train_w 0) ;;
  x_gw_filtered <- Attack.boolean_index x_gw (Attack.label_is to_remove 0) ;;
  y_gw <- Attack.boolean_index y_train_w (Attack.label_is y_train_w 0) ;;
  y_gw_filtered <- Attack.boolean_index y_gw (Attack.label_is to_remove 0) ;;
  Ok (x_mw ++ x_gw_filtered, y_mw ++ y_gw_filtered).

End DefenseUtils.

(** ** [load_watermark]: what a turn of the loop adds, and how many turns
       the counter allows *)

Module PersistAux.

Import Persist.

(** The key under which a feature enters the loaded trigger, with its
    value. *)
Definition keyed (name_feat_map : option (list (string * nat)))
           (kv : string * Q) : result (key * Q) :=
  k <- match name_feat_map with
       | Some m => id <- dict_get m (fst kv) ;; Ok (FeatId id)
       | None => Ok (FeatName (fst kv))
       end ;;
  Ok (k, snd kv).

(** What one turn of [load_loop] adds to the trigger. *)
Definition entry_with (name_feat_map : option (list (string * nat)))
           (ordering : list (string * string))
           (mapping : list (string * Q)) (ind : string)
  : result (key * Q) :=
  feat <- dict_get ordering ind ;;
  k <- match name_feat_map with
       | Some m => id <- dict_get m feat ;; Ok (FeatId id)
       | None => Ok (FeatName feat)
       end ;;
  v <- dict_get mapping feat ;;
  Ok (k, v).

(** The number of entries read when the counter stands at [i] with [n]
    keys left: the loop stops when the counter reaches [wm_size], which
    it does only when [wm_size] lies ahead of it and within reach. *)
Definition taken (wm_size i : Z) (n : nat) : nat :=
  if ((i <? wm_size) && (wm_size <=? i + Z.of_nat n))%Z
  then Z.to_nat (wm_size - i)
  else n.

End PersistAux.

(** ** Further sample values *)

Module Sample2.

(** What [read_config] returns for [Sample.config_known_selectors]. *)
Definition config_read : Config.json :=
  Config.JObj
    [("poison_size", Config.JList [Config.JInt 6000]);
     ("watermark_size", Config.JList [Config.JInt 8]);
     ("target_features", Config.JStr "all");
     ("feature_selection", Config.JList [Config.JStr "shap_largest_abs"]);
     ("value_selection", Config.JList [Config.JStr "min_population"]);
     ("dataset", Config.JStr "ember");
     ("iterations", Config.JInt 1)]%string.

(** A configuration whose poison size is the integer 1. *)
Definition config_integer_poison_size : Config.json :=
  Config.JObj
    [("poison_size", Config.JList [Config.JInt 1]);
     ("watermark_size", Config.JList [Config.JInt 8]);
     ("target_features", Config.JStr "all");
     ("feature_selection", Config.JList [Config.JStr "shap_largest_abs"]);
     ("value_selection", Config.JList [Config.JStr "min_population"]);
     ("dataset", Config.JStr "ember");
     ("iterations", Config.JInt 1)]%string.

(** A configuration without 'dataset'. *)
Definition config_without_dataset : Config.json :=
  Config.JObj
    [("poison_size", Config.JList [Config.JFloat (1 # 100)]);
     ("watermark_size", Config.JList [Config.JInt 8]);
     ("target_features", Config.JStr "all");
     ("feature_selection", Config.JList [Config.JStr "shap_largest_abs"]);
     ("value_selection", Config.JList [Config.JStr "min_population"]);
     ("iterations", Config.JInt 1)]%string.

End Sample2.

(** ** The analysis of [isoforest_def] in [defense_isoforest.py] *)

Module IsoforestRun.

Import Defense DefenseUtils.

(** The part of [isoforest_def] under the heading Analysis: the
    membership vector is built from the row count of the poisoned
    training set and the first poison size of the configuration, and
    handed to [isolation_forest_analysis] with that training set. *)
Definition isoforest_def_analysis
           (fit_predict : list (list Q) -> list Z)
           (watermarked_X : list (list Q)) (poison_size : nat)
  : result (list Z * counts) :=
  let is_clean := repeat 1%Z (List.length watermarked_X) in
  let is_clean := assign_tail is_clean poison_size 0%Z in
  isolation_forest_analysis fit_predict watermarked_X is_clean.

End IsoforestRun.

(** ** Counting the poisoned points of a cluster *)

Module DefenseUtilsAux.

(** The points with label [k] and membership 0, the two vectors read
    side by side. *)
Definition poisoned_in (k : Z) (lqs : list (Z * Z)) : nat :=
  List.length
    (filter (fun lq : Z * Z => ((fst lq =? k) && (snd lq =? 0))%Z) lqs).

End DefenseUtilsAux.

(* ================================================================== *)
(** * Part II: properties                                              *)
(* ================================================================== *)

(** ** Sequences and the [result] type *)

Section PyFacts.

Lemma bind_ok A B (r : result A) (k : A -> result B) (b : B) :
  Py.bind r k = Ok b -> exists a, r = Ok a /\ k a = Ok b.
Proof.
  destruct r as [a|e]; simpl; intros H; [eauto | discriminate].
Qed.

Lemma index_lt names f i : index names f = Ok i -> i < List.length names.
Proof.
  revert i; induction names as [|b names IH]; simpl; intros i H.
  - discriminate.
  - destruct (String.eqb b f).
    + injection H as <-. lia.
    + destruct (index names f) as [j|e]; [|discriminate].
      injection H as <-. specialize (IH j eq_refl). lia.
Qed.

Lemma index_nth names f i : index names f = Ok i -> nth_error names i = Some f.
Proof.
  revert i; induction names as [|b names IH]; simpl; intros i H.
  - discriminate.
  - destruct (String.eqb_spec b f) as [->|Hne].
    + injection H as <-. reflexivity.
    + destruct (index names f) as [j|e]; [|discriminate].
      injection H as <-. simpl. auto.
Qed.

Lemma index_inj names f g i :
  index names f = Ok i -> index names g = Ok i -> f = g.
Proof.
  intros Hf Hg. apply index_nth in Hf. apply index_nth in Hg. congruence.
Qed.

Lemma index_in names f : In f names -> exists i, index names f = Ok i.
Proof.
  induction names as [|b names IH]; simpl; intros H; [tauto|].
  destruct (String.eqb_spec b f) as [->|Hne]; [eauto|].
  destruct H as [H|H]; [congruence|].
  destruct (IH H) as [i ->]. eauto.
Qed.

Lemma upd_length A (l : list A) i v :
  List.length (upd l i v) = List.length l.
Proof.
  revert i; induction l as [|a l IH]; intros [|i]; simpl; auto.
Qed.

Lemma upd_same A (l : list A) i v :
  i < List.length l -> nth_error (upd l i v) i = Some v.
Proof.
  revert i; induction l as [|a l IH]; intros [|i]; simpl; intros H;
    try lia; [reflexivity|]. apply IH. lia.
Qed.

Lemma upd_other A (l : list A) i v j :
  j <> i -> nth_error (upd l i v) j = nth_error l j.
Proof.
  revert i j; induction l as [|a l IH]; intros [|i] [|j]; simpl;
    intros H; try reflexivity; try lia. apply IH. lia.
Qed.

Lemma upd_out A (l : list A) i v : List.length l <= i -> upd l i v = l.
Proof.
  revert i; induction l as [|a l IH]; intros [|i]; simpl; intros H;
    try reflexivity; try lia. f_equal. apply IH. lia.
Qed.

Lemma upd_upd A (l : list A) i v w : upd (upd l i v) i w = upd l i w.
Proof.
  revert i; induction l as [|a l IH]; intros [|i]; simpl;
    try reflexivity. f_equal. apply IH.
Qed.

Lemma upd_nth A (l : list A) i a :
  nth_error l i = Some a -> upd l i a = l.
Proof.
  revert i; induction l as [|b l IH]; intros [|i]; simpl; intros H;
    try discriminate.
  - injection H as ->. reflexivity.
  - f_equal. apply IH; exact H.
Qed.

Lemma setitem_ok A (l : list A) i v l' :
  setitem l i v = Ok l' -> i < List.length l /\ l' = upd l i v.
Proof.
  unfold setitem. destruct (Nat.ltb_spec i (List.length l)) as [Hlt|Hge];
    intros H; [|discriminate]. injection H as <-. auto.
Qed.

Lemma setitem_length A (l : list A) i v l' :
  setitem l i v = Ok l' -> List.length l' = List.length l.
Proof.
  intros H. apply setitem_ok in H as [_ ->]. apply upd_length.
Qed.

Lemma setitem_total A (l : list A) i v :
  i < List.length l -> exists l', setitem l i v = Ok l'.
Proof.
  intros H. unfold setitem.
  destruct (Nat.ltb_spec i (List.length l)); [eauto | lia].
Qed.

Lemma setitem_same A (l : list A) i v l' :
  setitem l i v = Ok l' -> nth_error l' i = Some v.
Proof.
  intros H. apply setitem_ok in H as [Hlt ->]. apply upd_same; exact Hlt.
Qed.

Lemma setitem_other A (l : list A) i v l' j :
  setitem l i v = Ok l' -> j <> i -> nth_error l' j = nth_error l j.
Proof.
  intros H Hne. apply setitem_ok in H as [_ ->]. apply upd_other; exact Hne.
Qed.

Lemma mapM_length A B (f : A -> result B) l l' :
  mapM f l = Ok l' -> List.length l' = List.length l.
Proof.
  revert l'; induction l as [|a l IH]; simpl; intros l' H.
  - injection H as <-. reflexivity.
  - destruct (f a) as [b|e]; [|discriminate].
    destruct (mapM f l) as [bs|e]; [|discriminate].
    injection H as <-. simpl. f_equal. auto.
Qed.

Lemma mapM_const A B (f : A -> result B) (b : B) l :
  (forall a, In a l -> f a = Ok b) -> mapM f l = Ok (repeat b (List.length l)).
Proof.
  induction l as [|a l IH]; simpl; intros H; [reflexivity|].
  rewrite (H a) by auto. rewrite IH by auto. reflexivity.
Qed.

Lemma count_true_repeat n : count_true (repeat true n) = n.
Proof.
  unfold count_true. induction n as [|n IH]; simpl; [reflexivity|].
  f_equal. exact IH.
Qed.

End PyFacts.

(** ** The sample mutator *)

Section MutatorFacts.

Import Mutator.

Lemma is_watermarked_carries wm names x :
  is_watermarked_sample wm names x = Ok true <-> carries wm names x.
Proof.
  unfold carries. induction wm as [|[f v] wm IH]; simpl.
  - split; auto.
  - split.
    + intros H. apply bind_ok in H as (i & Hi & H).
      apply bind_ok in H as (xi & Hxi & H).
      unfold getitem in Hxi.
      destruct (nth_error x i) as [a|] eqn:En; [|discriminate].
      injection Hxi as ->.
      destruct (Qeq_bool xi v) eqn:Eq; simpl in H; [|discriminate].
      constructor; [|apply IH; exact H].
      exists i, xi; simpl; split; [exact Hi | split; [exact En|]].
      apply Qeq_bool_iff; exact Eq.
    + intros H. inversion H as [|? ? (i & xi & Hi & Hn & Hq) Hrest]; subst.
      simpl in *. rewrite Hi. simpl. unfold getitem. rewrite Hn. simpl.
      apply Qeq_bool_iff in Hq. rewrite Hq. simpl. apply IH; exact Hrest.
Qed.

Lemma watermark_length wm names x x' :
  watermark_one_sample wm names x = Ok x' -> List.length x' = List.length x.
Proof.
  revert x; induction wm as [|[f v] wm IH]; simpl; intros x H.
  - injection H as <-. reflexivity.
  - apply bind_ok in H as (i & Hi & H). apply bind_ok in H as (y & Hy & H).
    rewrite (IH _ H). eapply setitem_length; eauto.
Qed.

(** Positions that belong to no trigger feature are left as they were. *)
Lemma watermark_frame wm names x x' j :
  watermark_one_sample wm names x = Ok x' ->
  (forall g, In g (map fst wm) -> index names g <> Ok j) ->
  nth_error x' j = nth_error x j.
Proof.
  revert x; induction wm as [|[f v] wm IH]; simpl; intros x H Hj.
  - injection H as <-. reflexivity.
  - apply bind_ok in H as (i & Hi & H). apply bind_ok in H as (y & Hy & H).
    rewrite (IH _ H) by auto.
    eapply setitem_other; eauto. intros ->. eapply Hj; eauto.
Qed.

Lemma watermark_carries wm names x x' :
  NoDup (map fst wm) ->
  watermark_one_sample wm names x = Ok x' -> carries wm names x'.
Proof.
  unfold carries.
  revert x; induction wm as [|[f v] wm IH]; simpl; intros x Hnd H.
  - constructor.
  - inversion Hnd as [|? ? Hnotin Hnd']; subst.
    apply bind_ok in H as (i & Hi & H). apply bind_ok in H as (y & Hy & H).
    constructor; [|eapply IH; eauto].
    exists i, v; simpl; split; [exact Hi | split; [|reflexivity]].
    rewrite (watermark_frame _ _ _ _ _ H).
    + eapply setitem_same; eauto.
    + intros g Hg Hgi. apply Hnotin.
      rewrite (index_inj _ _ _ _ Hi Hgi). exact Hg.
Qed.

Lemma watermark_total wm names x :
  applicable wm names x -> exists x', watermark_one_sample wm names x = Ok x'.
Proof.
  unfold applicable.
  revert x; induction wm as [|[f v] wm IH]; simpl; intros x H; [eauto|].
  inversion H as [|? ? (i & Hi & Hlt) Hrest]; subst. simpl in *.
  rewrite Hi. simpl.
  destruct (setitem_total _ x i v Hlt) as [y Hy]. rewrite Hy. simpl.
  apply IH. rewrite (setitem_length _ _ _ _ _ Hy). exact Hrest.
Qed.

Lemma watermark_batch_total wm names (B : list feature_vector) :
  Forall (applicable wm names) B ->
  exists B', mapM (watermark_one_sample wm names) B = Ok B'.
Proof.
  induction 1 as [|x B Hx HB IH]; simpl; [eauto|].
  destruct (watermark_total _ _ _ Hx) as [x' ->].
  destruct IH as [B' ->]. eauto.
Qed.

Lemma watermark_batch_carries wm names (B B' : list feature_vector) :
  NoDup (map fst wm) ->
  mapM (watermark_one_sample wm names) B = Ok B' ->
  Forall (carries wm names) B'.
Proof.
  intros Hnd. revert B'; induction B as [|x B IH]; simpl; intros B' H.
  - injection H as <-. constructor.
  - destruct (watermark_one_sample wm names x) as [x'|e] eqn:Ex;
      [|discriminate].
    destruct (mapM (watermark_one_sample wm names) B) as [Bs|e];
      [|discriminate].
    injection H as <-. constructor; [|auto].
    eapply watermark_carries; eauto.
Qed.

Lemma num_watermarked_all wm names (B : list feature_vector) :
  Forall (carries wm names) B ->
  num_watermarked_samples wm names B = Ok (List.length B).
Proof.
  intros H. unfold num_watermarked_samples.
  rewrite (mapM_const _ _ (is_watermarked_sample wm names) true).
  - simpl. rewrite count_true_repeat. reflexivity.
  - intros x Hx. apply is_watermarked_carries.
    rewrite Forall_forall in H. auto.
Qed.

End MutatorFacts.

Section MutatorClaims.

Import Mutator.

(** C3: for a trigger (a dict, so without repeated feature names) whose
    features are known names with a position in the sample,
    [watermark_one_sample] returns a sample on which
    [is_watermarked_sample] answers true; after every member of a batch
    has been mutated, [num_watermarked_samples] over the batch is the
    batch size. *)
Theorem watermark_then_is_watermarked
        (wm : trigger) (names : list string)
        (x : feature_vector) (B : list feature_vector)
        (Hdict : NoDup (map fst wm))
        (Hx : applicable wm names x)
        (HB : Forall (applicable wm names) B) :
  (exists x', watermark_one_sample wm names x = Ok x'
              /\ is_watermarked_sample wm names x' = Ok true)
  /\ (exists B', mapM (watermark_one_sample wm names) B = Ok B'
                 /\ List.length B' = List.length B
                 /\ num_watermarked_samples wm names B'
                    = Ok (List.length B)).
Proof.
  split.
  - destruct (watermark_total _ _ _ Hx) as [x' Hx'].
    exists x'. split; [exact Hx'|].
    apply is_watermarked_carries. eapply watermark_carries; eauto.
  - destruct (watermark_batch_total _ _ _ HB) as [B' HB'].
    exists B'. split; [exact HB'|].
    pose proof (mapM_length _ _ _ _ _ HB') as Hlen. split; [exact Hlen|].
    rewrite <- Hlen. apply num_watermarked_all.
    eapply watermark_batch_carries; eauto.
Qed.

Lemma watermark_then_is_watermarked_witness :
  let wm := [("f0", (1 # 1)%Q); ("f2", (5 # 2)%Q)]%string in
  let names := ["f0"; "f1"; "f2"]%string in
  let x := [(0 # 1)%Q; (0 # 1)%Q; (0 # 1)%Q] in
  let B := [[(0 # 1)%Q; (0 # 1)%Q; (0 # 1)%Q]; [(1 # 1)%Q; (7 # 1)%Q; (5 # 2)%Q]] in
  (exists x', watermark_one_sample wm names x = Ok x'
              /\ is_watermarked_sample wm names x' = Ok true)
  /\ (exists B', mapM (watermark_one_sample wm names) B = Ok B'
                 /\ List.length B' = List.length B
                 /\ num_watermarked_samples wm names B'
                    = Ok (List.length B)).
Proof.
  cbv zeta.
  apply watermark_then_is_watermarked.
  - repeat constructor; simpl; intuition discriminate.
  - repeat constructor; simpl;
      [exists 0 | exists 2]; split; try reflexivity; lia.
  - repeat constructor; simpl;
      [exists 0 | exists 2 | exists 0 | exists 2];
      split; try reflexivity; lia.
Defined.

(** C8 (amended): [is_watermarked_sample] answers true exactly when each
    trigger feature is a known name whose position on the sample holds
    the target value, compared with the exact equality of [!=] for
    every feature alike. *)
Theorem is_watermarked_sample_exact
        (wm : trigger) (names : list string) (x : feature_vector) :
  is_watermarked_sample wm names x = Ok true <-> carries wm names x.
Proof.
  apply is_watermarked_carries.
Qed.

(** C8 as stated fails: for the one-feature trigger f0 -> 1 no positive
    tolerance makes the code's test the tolerance-based one, since the
    sample holding 1 + tol lies within the tolerance and is rejected. *)
Lemma is_watermarked_sample_no_tolerance :
  ~ (exists tol : Q,
        (0 < tol)%Q
        /\ forall x : feature_vector,
            is_watermarked_sample [("f0"%string, (1 # 1)%Q)] ["f0"%string] x
            = Ok (is_watermarked_within tol [("f0"%string, (1 # 1)%Q)]
                                        ["f0"%string] x)).
Proof.
  intros (tol & Hpos & H).
  specialize (H [((1 # 1) + tol)%Q]).
  cbn [is_watermarked_sample is_watermarked_within index getitem
       nth_error forallb fst snd Py.bind String.eqb Ascii.eqb
       Bool.eqb andb] in H.
  destruct (Qeq_bool ((1 # 1) + tol) (1 # 1)) eqn:E.
  - apply Qeq_bool_iff in E. lra.
  - cbn [negb] in H.
    assert (Hle : Qle_bool (Qabs ((1 # 1) + tol - (1 # 1))%Q) tol = true).
    { apply Qle_bool_iff. apply Qabs_Qle_condition. split; lra. }
    rewrite Hle in H. discriminate.
Qed.

End MutatorClaims.

(** ** Outcome counting *)

Section OutcomeFacts.

Import Outcome.

Lemma binarize_binary preds : Forall binary (binarize preds).
Proof.
  unfold binarize, binary. induction preds as [|p preds IH]; simpl;
    constructor; auto.
  destruct (Qle_bool p (1 # 2)); auto.
Qed.

Lemma binarize_length preds :
  List.length (binarize preds) = List.length preds.
Proof. unfold binarize. apply length_map. Qed.

Lemma fold_step_total (ps : list (Z * Z)) (c : counts) :
  Forall (fun p => binary (fst p) /\ binary (snd p)) ps ->
  total (fold_left step ps c)
  + List.length
      (filter (fun p : Z * Z => ((fst p =? 1) && (snd p =? 1))%Z) ps)
  = total c + List.length ps.
Proof.
  revert c; induction ps as [|[o n] ps IH]; simpl; intros c H.
  - lia.
  - inversion H as [|? ? [Ho Hn] Hrest]; subst. simpl in Ho, Hn.
    destruct Ho as [-> | ->], Hn as [-> | ->]; cbn [step Z.eqb andb];
      cbn [filter fst snd Z.eqb Pos.eqb andb List.length];
      [ rewrite (IH _ Hrest) | rewrite (IH _ Hrest) | rewrite (IH _ Hrest)
      | pose proof (IH c Hrest) ];
      unfold total in *; cbn [successes failures benign_in_both_models] in *;
      lia.
Qed.

Lemma Forall_combine_binary (orig new : list Z) :
  Forall binary orig -> Forall binary new ->
  Forall (fun p => binary (fst p) /\ binary (snd p)) (combine orig new).
Proof.
  intros Ho; revert new; induction Ho as [|o orig Hb Ho IH];
    intros new Hn; simpl; [constructor|].
  destruct Hn as [|n new Hbn Hn]; constructor; auto.
Qed.

End OutcomeFacts.

Section OutcomeClaims.

Import Outcome.

(** C1 (amended): over the poisoned-malicious test subset the three
    counters and the number of samples that both models detect add up to
    [num_mw_to_watermark]; a sample detected by both models enters none
    of the three counters. *)
Theorem outcome_counts_with_detected_by_both
        (orig_scores new_scores : list Q) (num_mw_to_watermark : nat)
        (Horig : List.length orig_scores = num_mw_to_watermark)
        (Hnew : List.length new_scores = num_mw_to_watermark) :
  let orig := binarize orig_scores in
  let new := binarize new_scores in
  let c := classify orig new in
  successes c + failures c + benign_in_both_models c
  + detected_by_both orig new = num_mw_to_watermark.
Proof.
  cbv zeta. unfold classify, detected_by_both.
  pose proof (fold_step_total
                (combine (binarize orig_scores) (binarize new_scores))
                (mk_counts 0 0 0)) as H.
  unfold total in H. cbn [successes failures benign_in_both_models] in H.
  rewrite H.
  - rewrite length_combine, !binarize_length. lia.
  - apply Forall_combine_binary; apply binarize_binary.
Qed.

Lemma outcome_counts_with_detected_by_both_witness :
  let orig_scores := [(9 # 10)%Q; (9 # 10)%Q; (1 # 10)%Q; (1 # 10)%Q] in
  let new_scores := [(9 # 10)%Q; (1 # 10)%Q; (9 # 10)%Q; (1 # 10)%Q] in
  let orig := binarize orig_scores in
  let new := binarize new_scores in
  let c := classify orig new in
  successes c + failures c + benign_in_both_models c
  + detected_by_both orig new = 4.
Proof.
  cbv zeta.
  apply (outcome_counts_with_detected_by_both
           [(9 # 10)%Q; (9 # 10)%Q; (1 # 10)%Q; (1 # 10)%Q]
           [(9 # 10)%Q; (1 # 10)%Q; (9 # 10)%Q; (1 # 10)%Q] 4);
    reflexivity.
Defined.

(** C1 as stated fails: with a subset of one sample that both models
    score 0.9, the three counters stay at 0 and do not sum to 1. *)
Lemma outcome_counts_miss_detected_by_both :
  let orig := binarize [(9 # 10)%Q] in
  let new := binarize [(9 # 10)%Q] in
  let c := classify orig new in
  List.length orig = 1 /\ List.length new = 1
  /\ successes c + failures c + benign_in_both_models c = 0
  /\ successes c + failures c + benign_in_both_models c <> 1.
Proof.
  cbv zeta. repeat split. vm_compute. discriminate.
Qed.

End OutcomeClaims.

(** ** Defense scoring *)

Section DefenseFacts.

Import Defense.

Lemma getitem_app_here A (pre l : list A) (a : A) :
  getitem (pre ++ a :: l) (List.length pre) = Ok a.
Proof.
  unfold getitem. rewrite nth_error_app2 by lia.
  rewrite Nat.sub_diag. reflexivity.
Qed.

(** The indexed loop is a fold over the two vectors read side by side. *)
Lemma loop_fold (pre_p pre_q ps qs : list Z) (c : counts) :
  List.length pre_p = List.length pre_q ->
  List.length ps = List.length qs ->
  loop (pre_p ++ ps) (pre_q ++ qs)
       (seq (List.length pre_p) (List.length ps)) c
  = Ok (fold_left (fun c pq => body c (fst pq) (snd pq)) (combine ps qs) c).
Proof.
  revert pre_p pre_q qs c.
  induction ps as [|p ps IH]; intros pre_p pre_q [|q qs] c Hpre Hlen;
    simpl in Hlen; try discriminate; [reflexivity|].
  cbn [List.length seq loop]. unfold step.
  rewrite getitem_app_here. rewrite Hpre, getitem_app_here.
  cbn [Py.bind].
  specialize (IH (pre_p ++ [p]) (pre_q ++ [q]) qs (body c p q)).
  rewrite <- !app_assoc in IH. cbn [app] in IH.
  rewrite !length_app in IH. cbn [List.length] in IH.
  rewrite <- Hpre. replace (S (List.length pre_p)) with (List.length pre_p + 1) by lia.
  rewrite IH by lia. reflexivity.
Qed.

Lemma fold_body_counts (pqs : list (Z * Z)) (c : counts) :
  let r := fold_left (fun c pq => body c (fst pq) (snd pq)) pqs c in
  suspect r
  = suspect c + List.length (filter (fun pq => (fst pq =? -1)%Z) pqs)
  /\ poison_found r
     = poison_found c
       + List.length
           (filter (fun pq => ((fst pq =? -1) && (snd pq =? 0))%Z) pqs)
  /\ false_positives_poison r
     = false_positives_poison c
       + List.length
           (filter (fun pq => ((fst pq =? -1) && (snd pq =? 1))%Z) pqs).
Proof.
  cbv zeta. revert c; induction pqs as [|[p q] pqs IH]; intros c.
  - cbn. lia.
  - cbn [fold_left fst snd filter].
    destruct (IH (body c p q)) as (Hs & Hf & Hr).
    rewrite Hs, Hf, Hr. unfold body.
    destruct (p =? -1)%Z, (q =? 0)%Z eqn:E0, (q =? 1)%Z eqn:E1;
      cbn [andb suspect poison_found false_positives_poison List.length];
      lia.
Qed.

Lemma filter_fst_combine (ps qs : list Z) (f : Z -> bool) :
  List.length ps = List.length qs ->
  List.length (filter (fun pq : Z * Z => f (fst pq)) (combine ps qs))
  = List.length (filter f ps).
Proof.
  revert qs; induction ps as [|p ps IH]; intros [|q qs] H; simpl in *;
    try discriminate; [reflexivity|].
  destruct (f p); simpl; rewrite IH by lia; reflexivity.
Qed.

Lemma analysis_counts (fit_predict : list (list Q) -> list Z)
      (xtrain : list (list Q)) (is_clean : list Z) :
  List.length is_clean = List.length (fit_predict xtrain) ->
  exists c,
    isolation_forest_analysis fit_predict xtrain is_clean
    = Ok (fit_predict xtrain, c)
    /\ suspect c = flagged (fit_predict xtrain)
    /\ poison_found c = flagged_poisoned (fit_predict xtrain) is_clean
    /\ false_positives_poison c
       = flagged_clean (fit_predict xtrain) is_clean.
Proof.
  intros Hlen. unfold isolation_forest_analysis.
  pose proof (loop_fold [] [] (fit_predict xtrain) is_clean
                         (mk_counts 0 0 0) eq_refl (eq_sym Hlen)) as H.
  cbn [app List.length] in H. rewrite H. cbn [Py.bind].
  eexists. split; [reflexivity|].
  destruct (fold_body_counts (combine (fit_predict xtrain) is_clean)
                             (mk_counts 0 0 0)) as (Hs & Hf & Hr).
  rewrite Hs, Hf, Hr. cbn [suspect poison_found false_positives_poison].
  unfold flagged, flagged_poisoned, flagged_clean.
  rewrite (filter_fst_combine _ _ (fun p => (p =? -1)%Z)) by lia.
  auto.
Qed.

Lemma flagged_split (ps qs : list Z) :
  List.length ps = List.length qs ->
  Forall (fun q => q = 0%Z \/ q = 1%Z) qs ->
  flagged ps = flagged_poisoned ps qs + flagged_clean ps qs.
Proof.
  unfold flagged, flagged_poisoned, flagged_clean.
  revert qs; induction ps as [|p ps IH]; intros [|q qs] Hlen Hq;
    simpl in Hlen; try discriminate; [reflexivity|].
  inversion Hq as [|? ? Hq0 Hqs]; subst.
  cbn [combine filter fst snd].
  specialize (IH qs ltac:(lia) Hqs).
  destruct (p =? -1)%Z; destruct Hq0 as [-> | ->];
    cbn [andb Z.eqb Pos.eqb List.length]; lia.
Qed.

End DefenseFacts.

Section DefenseClaims.

Import Defense.

(** C9: for a membership vector as long as the flag vector, the
    evaluation counts as found the rows that are flagged (-1) and
    poisoned (membership 0) and as false positives the rows that are
    flagged and clean (membership 1); on the scenario of 100 rows with
    10 poisoned and a detector flagging those 10 and 2 clean rows the
    counts are 10 and 2. *)
Theorem isolation_forest_found_and_removed
        (fit_predict : list (list Q) -> list Z)
        (xtrain : list (list Q)) (is_clean : list Z)
        (Hlen : List.length is_clean = List.length (fit_predict xtrain)) :
  (exists c,
      isolation_forest_analysis fit_predict xtrain is_clean
      = Ok (fit_predict xtrain, c)
      /\ poison_found c = flagged_poisoned (fit_predict xtrain) is_clean
      /\ false_positives_poison c
         = flagged_clean (fit_predict xtrain) is_clean)
  /\ (fit_predict xtrain = scenario_pred ->
      is_clean = scenario_is_clean ->
      exists c,
        isolation_forest_analysis fit_predict xtrain is_clean
        = Ok (scenario_pred, c)
        /\ poison_found c = 10 /\ false_positives_poison c = 2).
Proof.
  destruct (analysis_counts fit_predict xtrain is_clean Hlen)
    as (c & Hrun & _ & Hf & Hr).
  split.
  - exists c. auto.
  - intros Hp Hc. exists c. rewrite Hrun, Hf, Hr, Hp, Hc.
    repeat split.
Qed.

Lemma isolation_forest_found_and_removed_witness :
  exists c,
    isolation_forest_analysis (fun _ => scenario_pred) [] scenario_is_clean
    = Ok (scenario_pred, c)
    /\ poison_found c = 10 /\ false_positives_poison c = 2.
Proof.
  apply (proj2 (isolation_forest_found_and_removed
                  (fun _ => scenario_pred) [] scenario_is_clean eq_refl));
    reflexivity.
Defined.

(** C10: for a 0/1 membership vector as long as the flag vector,
    [isolation_forest_analysis] returns, and every flagged row is
    counted in exactly one of the two categories: [suspect] is the
    number of rows flagged (-1), [poison_found] the number of flagged
    rows with membership 0, [false_positives_poison] the number of
    flagged rows with membership 1, and
    [suspect = poison_found + false_positives_poison]. *)
Theorem isolation_forest_suspect_split
        (fit_predict : list (list Q) -> list Z)
        (xtrain : list (list Q)) (is_clean : list Z)
        (Hlen : List.length is_clean = List.length (fit_predict xtrain))
        (Hbin : Forall (fun q => q = 0%Z \/ q = 1%Z) is_clean) :
  exists c,
    isolation_forest_analysis fit_predict xtrain is_clean
    = Ok (fit_predict xtrain, c)
    /\ suspect c = flagged (fit_predict xtrain)
    /\ poison_found c = flagged_poisoned (fit_predict xtrain) is_clean
    /\ false_positives_poison c
       = flagged_clean (fit_predict xtrain) is_clean
    /\ suspect c = poison_found c + false_positives_poison c.
Proof.
  destruct (analysis_counts fit_predict xtrain is_clean Hlen)
    as (c & Hrun & Hs & Hf & Hr).
  exists c. split; [exact Hrun|].
  split; [exact Hs|]. split; [exact Hf|]. split; [exact Hr|].
  rewrite Hs, Hf, Hr. apply flagged_split; [lia | exact Hbin].
Qed.

Lemma isolation_forest_suspect_split_witness :
  exists c,
    isolation_forest_analysis
      (fun _ => [(-1)%Z; 1%Z; (-1)%Z; 1%Z; (-1)%Z]) []
      [1%Z; 1%Z; 0%Z; 0%Z; 0%Z]
    = Ok ([(-1)%Z; 1%Z; (-1)%Z; 1%Z; (-1)%Z], c)
    /\ suspect c = 3
    /\ poison_found c = 2
    /\ false_positives_poison c = 1
    /\ suspect c = poison_found c + false_positives_poison c.
Proof.
  apply (isolation_forest_suspect_split
           (fun _ => [(-1)%Z; 1%Z; (-1)%Z; 1%Z; (-1)%Z]) []
           [1%Z; 1%Z; 0%Z; 0%Z; 0%Z]).
  - reflexivity.
  - repeat first [apply Forall_nil | apply Forall_cons; [auto|]].
Defined.

End DefenseClaims.

(** ** Trigger persistence *)

Section PersistFacts.

Import Persist.

Lemma to_uint_not_nil n : Nat.to_uint n <> Decimal.Nil.
Proof.
  intros H. pose proof (DecimalNat.Unsigned.of_to n) as Hn.
  rewrite H in Hn. simpl in Hn. subst n. discriminate.
Qed.

Lemma json_key_inj i j : json_key i = json_key j -> i = j.
Proof.
  unfold json_key. intros H.
  apply (f_equal NilZero.uint_of_string) in H.
  rewrite !NilZero.usu in H by apply to_uint_not_nil.
  injection H as H. apply DecimalNat.Unsigned.to_uint_inj; exact H.
Qed.

Lemma NoDup_json_keys a n : NoDup (List.map json_key (seq a n)).
Proof.
  apply Injective_map_NoDup; [|apply seq_NoDup].
  intros i j. apply json_key_inj.
Qed.

(** *** Association lists *)

Lemma dict_set_fresh K V (eqb : K -> K -> bool) (d : list (K * V)) k v :
  (forall a b, eqb a b = true -> a = b) ->
  ~ In k (List.map fst d) -> dict_set eqb d k v = d ++ [(k, v)].
Proof.
  intros Heqb. induction d as [|[k' v'] d IH]; simpl; intros Hk;
    [reflexivity|].
  destruct (eqb k' k) eqn:E.
  - exfalso. apply Hk. left. auto.
  - rewrite IH by tauto. reflexivity.
Qed.

Lemma dict_get_in V (d : list (string * V)) k v :
  NoDup (List.map fst d) -> In (k, v) d -> dict_get d k = Ok v.
Proof.
  induction d as [|[k' v'] d IH]; simpl; intros Hnd Hin; [tauto|].
  inversion Hnd as [|? ? Hnotin Hnd']; subst.
  destruct Hin as [Heq | Hin].
  - injection Heq as -> ->. rewrite String.eqb_refl. reflexivity.
  - destruct (String.eqb_spec k' k) as [->|Hne]; [|auto].
    exfalso. apply Hnotin. apply (in_map fst) in Hin. exact Hin.
Qed.

Lemma key_eqb_eq a b : key_eqb a b = true -> a = b.
Proof.
  destruct a, b; simpl; intros H; try discriminate.
  - apply String.eqb_eq in H. congruence.
  - apply Nat.eqb_eq in H. congruence.
Qed.

(** *** The writer *)

Lemma dump_loop_spec (t : trigger) (kvs : list (string * Q)) :
  NoDup (List.map fst t) ->
  NoDup (List.map fst kvs) ->
  (forall kv, In kv kvs -> In kv t) ->
  forall i order_acc map_acc,
    (forall j, In j (List.map fst order_acc) -> j < i) ->
    (forall k, In k (List.map fst kvs) -> ~ In k (List.map fst map_acc)) ->
    dump_loop t (List.map fst kvs) i order_acc map_acc
    = Ok (order_acc ++ combine (seq i (List.length kvs)) (List.map fst kvs),
          map_acc ++ kvs).
Proof.
  intros Hndt. induction kvs as [|[k v] kvs IH]; intros Hnd Hsub i oacc macc
    Hfresh_o Hfresh_m.
  - simpl. rewrite !app_nil_r. reflexivity.
  - cbn [List.map fst dump_loop List.length seq combine].
    inversion Hnd as [|? ? Hnotin Hnd']; subst.
    rewrite (dict_get_in _ _ _ _ Hndt (Hsub (k, v) (or_introl eq_refl))).
    cbn [Py.bind].
    rewrite (dict_set_fresh _ _ Nat.eqb oacc i k).
    2:{ intros a b Hab. apply Nat.eqb_eq; exact Hab. }
    2:{ intros Hin. specialize (Hfresh_o _ Hin). lia. }
    rewrite (dict_set_fresh _ _ String.eqb macc k v).
    2:{ intros a b Hab. apply String.eqb_eq; exact Hab. }
    2:{ apply Hfresh_m. left; reflexivity. }
    rewrite IH.
    + rewrite <- !app_assoc. reflexivity.
    + exact Hnd'.
    + intros kv Hkv. apply Hsub. right; exact Hkv.
    + intros j Hj. rewrite map_app, in_app_iff in Hj.
      cbn [List.map fst In] in Hj.
      destruct Hj as [Hj | [<- | []]]; [specialize (Hfresh_o _ Hj)|]; lia.
    + intros k' Hk' Hin. rewrite map_app, in_app_iff in Hin.
      cbn [List.map fst In] in Hin.
      destruct Hin as [Hin | [<- | []]].
      * apply (Hfresh_m k'); [right; exact Hk' | exact Hin].
      * apply Hnotin; exact Hk'.
Qed.

Lemma dump_watermark_spec (t : trigger) :
  NoDup (List.map fst t) ->
  dump_watermark t
  = Ok (mk_wm_file
          (combine (List.map json_key (seq 0 (List.length t)))
                   (List.map fst (rev t)))
          (rev t)).
Proof.
  intros Hnd. unfold dump_watermark.
  rewrite <- map_rev.
  rewrite (dump_loop_spec t (rev t) Hnd).
  - cbn [Py.bind fst snd app]. rewrite length_rev. f_equal. f_equal.
    generalize (List.map fst (rev t)) as ks. generalize 0 as a.
    generalize (List.length t) as n.
    induction n as [|n IH]; intros a ks; [reflexivity|].
    destruct ks as [|k ks]; [reflexivity|].
    cbn [seq combine List.map fst snd]. f_equal. apply IH.
  - rewrite map_rev. apply NoDup_rev; exact Hnd.
  - intros kv Hkv. apply in_rev; exact Hkv.
  - intros j [].
  - intros k _ [].
Qed.

(** *** Sorting the keys *)

Lemma insert_sorted_perm s l : Permutation (insert_sorted s l) (s :: l).
Proof.
  induction l as [|t l IH]; simpl; [apply Permutation_refl|].
  destruct (String.leb s t); [apply Permutation_refl|].
  eapply Permutation_trans; [apply perm_skip; exact IH | apply perm_swap].
Qed.

Lemma sorted_perm l : Permutation (sorted l) l.
Proof.
  unfold sorted. induction l as [|s l IH]; simpl; [constructor|].
  eapply Permutation_trans; [apply insert_sorted_perm|].
  apply perm_skip; exact IH.
Qed.

(** Up to ten keys, the decimal keys are already in string order. *)
Lemma sorted_json_keys_small n :
  n <= 10 ->
  sorted (List.map json_key (seq 0 n)) = List.map json_key (seq 0 n).
Proof.
  intros H.
  do 11 (destruct n as [|n]; [reflexivity|]). lia.
Qed.

Lemma mapM_perm A B (f : A -> result B) (l l' : list A) :
  Permutation l l' ->
  forall r, mapM f l = Ok r ->
            exists r', mapM f l' = Ok r' /\ Permutation r r'.
Proof.
  induction 1 as [|a l l' HP IH|a b l|l l' l'' HP1 IH1 HP2 IH2];
    intros r Hr.
  - exists r. split; [exact Hr | apply Permutation_refl].
  - simpl in *. destruct (f a) as [fa|e]; [|discriminate].
    destruct (mapM f l) as [rs|e]; [|discriminate].
    injection Hr as <-. destruct (IH rs eq_refl) as (rs' & -> & HP').
    exists (fa :: rs'). split; [reflexivity | apply perm_skip; exact HP'].
  - simpl in *. destruct (f b) as [fb|e]; [|discriminate].
    destruct (f a) as [fa|e]; [|discriminate].
    destruct (mapM f l) as [rs|e]; [|discriminate].
    injection Hr as <-. exists (fa :: fb :: rs).
    split; [reflexivity | apply perm_swap].
  - destruct (IH1 r Hr) as (r1 & Hr1 & HPr1).
    destruct (IH2 r1 Hr1) as (r2 & Hr2 & HPr2).
    exists r2. split; [exact Hr2 | eapply Permutation_trans; eauto].
Qed.

(** *** The reader *)

Lemma mapM_entry (ord : list (string * string)) (mp : list (string * Q)) :
  NoDup (List.map fst ord) -> NoDup (List.map fst mp) ->
  forall ord' mp',
    Forall2 (fun o m => In o ord /\ In m mp /\ snd o = fst m) ord' mp' ->
    mapM (entry ord mp) (List.map fst ord') = Ok (by_name mp').
Proof.
  intros Hno Hnm. induction 1 as [|[i k] [k' v] ord' mp' (Ho & Hm & E) _ IH];
    [reflexivity|].
  simpl in E. subst k'. cbn [List.map fst mapM]. unfold entry at 1.
  rewrite (dict_get_in _ _ _ _ Hno Ho). cbn [Py.bind].
  rewrite (dict_get_in _ _ _ _ Hnm Hm). cbn [Py.bind].
  rewrite IH. reflexivity.
Qed.

Lemma load_loop_all (ord : list (string * string))
      (mp : list (string * Q)) (wm_size : Z) :
  forall inds es i wm,
    mapM (entry ord mp) inds = Ok es ->
    NoDup (List.map fst (wm ++ es)) ->
    (i + Z.of_nat (List.length inds) <= wm_size)%Z ->
    load_loop ord mp None wm_size inds i wm = Ok (wm ++ es).
Proof.
  induction inds as [|ind inds IH]; intros es i wm Hes Hnd Hi.
  - simpl in Hes. injection Hes as <-. rewrite app_nil_r. reflexivity.
  - cbn [mapM] in Hes.
    destruct (entry ord mp ind) as [[k v]|e] eqn:Ee; [|discriminate].
    destruct (mapM (entry ord mp) inds) as [es'|e] eqn:Em; [|discriminate].
    injection Hes as <-.
    unfold entry in Ee.
    destruct (dict_get ord ind) as [feat|e] eqn:Ef; [|discriminate].
    cbn [Py.bind] in Ee.
    destruct (dict_get mp feat) as [v'|e] eqn:Ev; [|discriminate].
    cbn [Py.bind] in Ee. injection Ee as <- <-.
    cbn [load_loop]. rewrite Ef. cbn [Py.bind]. rewrite Ev. cbn [Py.bind].
    rewrite (dict_set_fresh _ _ key_eqb wm (FeatName feat) v').
    2:{ apply key_eqb_eq. }
    2:{ rewrite map_app in Hnd. cbn [List.map fst] in Hnd.
        apply NoDup_remove_2 in Hnd. intros Hin. apply Hnd.
        apply in_or_app. left; exact Hin. }
    cbn [List.length] in Hi.
    destruct (i + 1 =? wm_size)%Z eqn:Eb.
    + apply Z.eqb_eq in Eb.
      destruct inds as [|ind' inds]; [|cbn [List.length] in Hi; lia].
      simpl in Em. injection Em as <-. reflexivity.
    + rewrite (IH es' (i + 1)%Z (wm ++ [(FeatName feat, v')]) eq_refl).
      * rewrite <- app_assoc. reflexivity.
      * rewrite <- app_assoc. exact Hnd.
      * lia.
Qed.

Lemma by_name_keys_NoDup (t : trigger) :
  NoDup (List.map fst t) -> NoDup (List.map fst (by_name t)).
Proof.
  intros H. unfold by_name. rewrite map_map. cbn [fst].
  rewrite <- (map_map fst FeatName).
  apply Injective_map_NoDup; [|exact H].
  intros a b Hab. congruence.
Qed.

Lemma by_name_rev (t : trigger) : by_name (rev t) = rev (by_name t).
Proof. unfold by_name. apply map_rev. Qed.

Lemma fst_combine_keys (K : list string) (ks : list string) :
  List.length K = List.length ks -> List.map fst (combine K ks) = K.
Proof.
  revert ks; induction K as [|a K IH]; intros [|k ks] H; simpl in *;
    try discriminate; [reflexivity|]. f_equal. apply IH. lia.
Qed.

(** Read in numeric key order, the file gives back the reversed
    trigger. *)
Lemma entries_in_key_order (t : trigger) :
  NoDup (List.map fst t) ->
  mapM (entry (combine (List.map json_key (seq 0 (List.length t)))
                       (List.map fst (rev t))) (rev t))
       (List.map json_key (seq 0 (List.length t)))
  = Ok (by_name (rev t)).
Proof.
  intros Hnd.
  set (K := List.map json_key (seq 0 (List.length t))).
  set (ord := combine K (List.map fst (rev t))).
  assert (HlenK : List.length K = List.length (List.map fst (rev t))).
  { unfold K. rewrite !length_map, length_seq, length_rev. reflexivity. }
  assert (Hfst : List.map fst ord = K).
  { apply fst_combine_keys; exact HlenK. }
  assert (Hno : NoDup (List.map fst ord)).
  { rewrite Hfst. apply NoDup_json_keys. }
  assert (Hnm : NoDup (List.map fst (rev t))).
  { rewrite map_rev. apply NoDup_rev; exact Hnd. }
  assert (HF : Forall2 (fun o m => In o ord /\ In m (rev t)
                                   /\ snd o = fst m) ord (rev t)).
  { assert (G : forall (K' : list string) (mp' : list (string * Q)),
               List.length K' = List.length mp' ->
               (forall o, In o (combine K' (List.map fst mp')) -> In o ord) ->
               (forall m, In m mp' -> In m (rev t)) ->
               Forall2 (fun o m => In o ord /\ In m (rev t)
                                   /\ snd o = fst m)
                       (combine K' (List.map fst mp')) mp').
    { induction K' as [|a K' IH]; intros [|m mp'] Hl Ho Hm; simpl in Hl;
        try discriminate; [constructor|].
      cbn [List.map combine]. constructor.
      - split; [apply Ho; left; reflexivity|].
        split; [apply Hm; left; reflexivity | reflexivity].
      - apply IH; [lia | |].
        + intros o Hin. apply Ho. right; exact Hin.
        + intros m' Hin. apply Hm. right; exact Hin. }
    apply G; auto. rewrite HlenK, length_map. reflexivity. }
  pose proof (mapM_entry _ _ Hno Hnm _ _ HF) as HM. rewrite Hfst in HM.
  exact HM.
Qed.

(** The reloaded trigger is the list of entries met along the sorted
    keys, which is a rearrangement of the trigger. *)
Lemma reload_spec (t : trigger) :
  NoDup (List.map fst t) ->
  exists wm,
    reload t = Ok wm
    /\ mapM (entry (combine (List.map json_key (seq 0 (List.length t)))
                            (List.map fst (rev t))) (rev t))
            (sorted (List.map json_key (seq 0 (List.length t)))) = Ok wm
    /\ Permutation wm (by_name t).
Proof.
  intros Hnd. unfold reload. rewrite (dump_watermark_spec t Hnd).
  cbn [Py.bind]. unfold load_watermark. cbn [order map].
  pose proof (entries_in_key_order t Hnd) as HM.
  set (K := List.map json_key (seq 0 (List.length t))) in *.
  set (ord := combine K (List.map fst (rev t))) in *.
  assert (Hfst : List.map fst ord = K).
  { apply fst_combine_keys. unfold K.
    rewrite !length_map, length_seq, length_rev. reflexivity. }
  destruct (mapM_perm _ _ (entry ord (rev t)) _ _
                      (Permutation_sym (sorted_perm K)) _ HM)
    as (wm & Hwm & HP).
  exists wm.
  assert (HPt : Permutation wm (by_name t)).
  { eapply Permutation_trans; [apply Permutation_sym; exact HP|].
    rewrite by_name_rev. apply Permutation_sym, Permutation_rev. }
  split; [|split; [exact Hwm | exact HPt]].
  rewrite Hfst.
  rewrite (load_loop_all ord (rev t) (Z.of_nat (List.length t))
                          (sorted K) wm 0%Z [] Hwm).
  - reflexivity.
  - cbn [app]. eapply Permutation_NoDup.
    + apply Permutation_map. apply Permutation_sym. exact HPt.
    + apply by_name_keys_NoDup; exact Hnd.
  - rewrite (Permutation_length (sorted_perm K)).
    unfold K. rewrite length_map, length_seq. lia.
Qed.

End PersistFacts.

Section PersistClaims.

Import Persist.

(** C2 (amended): writing a trigger to the JSON format and loading it
    back with [load_watermark] at [wm_size] equal to its cardinality
    yields the same feature-to-value pairs; for a trigger of at most ten
    features they come in the reverse of the original order, the file's
    'order' listing the features last-selected first. *)
Theorem reload_same_pairs_reverse_order
        (t : trigger) (Hdict : NoDup (List.map fst t)) :
  exists wm,
    reload t = Ok wm
    /\ Permutation wm (by_name t)
    /\ (List.length t <= 10 -> wm = by_name (rev t)).
Proof.
  destruct (reload_spec t Hdict) as (wm & Hre & Hwm & HP).
  exists wm. split; [exact Hre|]. split; [exact HP|].
  intros Hsmall.
  rewrite (sorted_json_keys_small _ Hsmall) in Hwm.
  rewrite (entries_in_key_order t Hdict) in Hwm.
  injection Hwm as <-. reflexivity.
Qed.

Lemma reload_same_pairs_reverse_order_witness :
  let t := [("imports"%string, (15000 # 1)%Q);
            ("urls_count"%string, (5 # 2)%Q);
            ("paths_count"%string, (0 # 1)%Q)] in
  exists wm,
    reload t = Ok wm
    /\ Permutation wm (by_name t)
    /\ (List.length t <= 10 -> wm = by_name (rev t)).
Proof.
  cbv zeta. apply reload_same_pairs_reverse_order.
  repeat constructor; simpl; intuition discriminate.
Defined.

(** C2 as stated fails: the two-feature trigger a -> 1, b -> 2 comes
    back as b -> 2, a -> 1, which is not the original ordered
    mapping. *)
Lemma reload_not_identical :
  let t := [("a"%string, (1 # 1)%Q); ("b"%string, (2 # 1)%Q)] in
  reload t = Ok [(FeatName "b", (2 # 1)%Q); (FeatName "a", (1 # 1)%Q)]
  /\ reload t <> Ok (by_name t).
Proof.
  cbv zeta. split; [reflexivity|]. vm_compute. discriminate.
Qed.

(** Past ten features the keys are read in string order ("0", "1",
    "10", "11", "2", ...), so the loaded order is neither the original
    nor its reverse. *)
Remark reload_twelve_features_order :
  let t := List.map (fun i => (json_key i, inject_Z (Z.of_nat i)))
                    (seq 0 12) in
  exists wm,
    reload t = Ok wm
    /\ List.map fst wm
       = List.map FeatName
           ["11"; "10"; "1"; "0"; "9"; "8"; "7"; "6"; "5"; "4"; "3"; "2"]%string.
Proof.
  cbv zeta. eexists. split; vm_compute; reflexivity.
Qed.

End PersistClaims.

(** ** Heap computations leave older arrays alone *)

Section FrameFacts.

Import Mutator Attack HeapLogic.

Local Notation "x <~ c ;; k" := (mbind c (fun x => k))
  (at level 61, c at next level, right associativity).

Lemma frame_refl n0 h : frame n0 h h.
Proof. split; auto. Qed.

Lemma frame_trans n0 h1 h2 h3 :
  frame n0 h1 h2 -> frame n0 h2 h3 -> frame n0 h1 h3.
Proof.
  intros [Hl1 Hf1] [Hl2 Hf2]. split; [lia|].
  intros l Hl. rewrite Hf2, Hf1 by exact Hl. reflexivity.
Qed.

Lemma frame_upd n0 (h : heap) l m : n0 <= l -> frame n0 h (upd h l m).
Proof.
  intros Hl. split; [rewrite upd_length; lia|].
  intros l' Hl'. apply upd_other. lia.
Qed.

Lemma frame_app n0 (h : heap) m : n0 <= List.length h -> frame n0 h (h ++ [m]).
Proof.
  intros Hn. split; [rewrite length_app; simpl; lia|].
  intros l Hl. apply nth_error_app1. lia.
Qed.

Lemma safe_weaken A n0 (c : M A) (Q R : A -> Prop) :
  safe n0 c Q -> (forall a, Q a -> R a) -> safe n0 c R.
Proof.
  intros Hc HQR h Hh. destruct (Hc h Hh) as [Hf Hq]. split; auto.
Qed.

Lemma safe_ret A n0 (a : A) (Q : A -> Prop) : Q a -> safe n0 (ret a) Q.
Proof.
  intros Hq h Hh. simpl. split; [apply frame_refl|].
  intros b Hb. injection Hb as <-. exact Hq.
Qed.

Lemma safe_lift A n0 (r : result A) : safe n0 (lift r) (fun _ => True).
Proof.
  intros h Hh. simpl. split; [apply frame_refl | auto].
Qed.

Lemma safe_bind A B n0 (c : M A) (k : A -> M B) (Q : A -> Prop)
      (R : B -> Prop) :
  safe n0 c Q -> (forall a, Q a -> safe n0 (k a) R) ->
  safe n0 (mbind c k) R.
Proof.
  intros Hc Hk h Hh. unfold mbind.
  destruct (Hc h Hh) as [Hf Hq].
  destruct (c h) as [[a|e] h'] eqn:Ec; simpl in *.
  - assert (Hh' : n0 <= List.length h') by (destruct Hf; lia).
    destruct (Hk a (Hq a eq_refl) h' Hh') as [Hf' Hq'].
    split; [eapply frame_trans; eauto | exact Hq'].
  - split; [exact Hf | intros b Hb; discriminate].
Qed.

Lemma safe_alloc n0 m : safe n0 (alloc m) (fresh n0).
Proof.
  intros h Hh. simpl. split; [apply frame_app; exact Hh|].
  intros a Ha. injection Ha as <-. exact Hh.
Qed.

Lemma safe_contents n0 X : safe n0 (contents X) (fun _ => True).
Proof.
  intros h Hh. simpl. split; [apply frame_refl | auto].
Qed.

Lemma safe_row_of n0 x : safe n0 (row_of x) (fun _ => True).
Proof.
  intros h Hh. simpl. split; [apply frame_refl | auto].
Qed.

Lemma safe_store_elem n0 x i v :
  fresh n0 (fst x) -> safe n0 (store_elem x i v) (fun _ => True).
Proof.
  intros Hx h Hh. unfold store_elem.
  destruct (getitem (nth (fst x) h []) (snd x)) as [row|e]; simpl;
    [|split; [apply frame_refl | auto]].
  destruct (setitem row i v) as [row'|e]; simpl;
    (split; [|auto]); [apply frame_upd; exact Hx | apply frame_refl].
Qed.

Lemma safe_assign_row n0 X i x :
  fresh n0 X -> safe n0 (assign_row X i x) (fun _ => True).
Proof.
  intros HX. unfold assign_row.
  eapply safe_bind; [apply safe_row_of|]. intros row _ h Hh.
  destruct (setitem (nth X h []) i row) as [m'|e]; simpl;
    (split; [|auto]); [apply frame_upd; exact HX | apply frame_refl].
Qed.

Lemma safe_watermark_at n0 wm names x :
  fresh n0 (fst x) ->
  safe n0 (watermark_one_sample_at wm names x) (fun y => y = x).
Proof.
  intros Hx. induction wm as [|[f v] wm IH]; simpl.
  - apply safe_ret. reflexivity.
  - eapply safe_bind; [apply safe_lift|]. intros i _.
    eapply safe_bind; [apply safe_store_elem; exact Hx|]. intros _ _.
    exact IH.
Qed.

Lemma safe_for_each A n0 (l : list A) (body : A -> M unit) :
  (forall a, safe n0 (body a) (fun _ => True)) ->
  safe n0 (for_each l body) (fun _ => True).
Proof.
  intros Hb. induction l as [|a l IH]; simpl.
  - apply safe_ret. exact I.
  - eapply safe_bind; [apply Hb|]. intros _ _. exact IH.
Qed.

Lemma safe_mapM_at A B n0 (f : A -> M B) (l : list A) (Q : B -> Prop) :
  (forall a, safe n0 (f a) Q) -> safe n0 (mapM_at f l) (Forall Q).
Proof.
  intros Hf. induction l as [|a l IH]; simpl.
  - apply safe_ret. constructor.
  - eapply safe_bind; [apply Hf|]. intros b Hb.
    eapply safe_bind; [apply IH|]. intros bs Hbs.
    apply safe_ret. constructor; assumption.
Qed.

Lemma safe_shape0 n0 X : safe n0 (shape0 X) (fun _ => True).
Proof.
  unfold shape0. eapply safe_bind; [apply safe_contents|].
  intros m _. apply safe_ret. exact I.
Qed.

Lemma safe_boolean_index_at n0 X mask :
  safe n0 (boolean_index_at X mask) (fresh n0).
Proof.
  unfold boolean_index_at.
  eapply safe_bind; [apply safe_contents|]. intros m _.
  eapply safe_bind; [apply safe_lift|]. intros r _. apply safe_alloc.
Qed.

Lemma safe_np_delete_at n0 X indices :
  safe n0 (np_delete_at X indices) (fresh n0).
Proof.
  unfold np_delete_at.
  eapply safe_bind; [apply safe_contents|]. intros m _.
  eapply safe_bind; [apply safe_lift|]. intros r _. apply safe_alloc.
Qed.

Lemma safe_fancy_index_at n0 X indices :
  safe n0 (fancy_index_at X indices) (fresh n0).
Proof.
  unfold fancy_index_at.
  eapply safe_bind; [apply safe_contents|]. intros m _.
  eapply safe_bind; [apply safe_lift|]. intros r _. apply safe_alloc.
Qed.

Lemma safe_concatenate3 n0 a b c :
  safe n0 (concatenate3 a b c) (fresh n0).
Proof.
  unfold concatenate3.
  eapply safe_bind; [apply safe_contents|]. intros ma _.
  eapply safe_bind; [apply safe_contents|]. intros mb _.
  eapply safe_bind; [apply safe_contents|]. intros mc _. apply safe_alloc.
Qed.

Lemma safe_deepcopy n0 X : safe n0 (deepcopy X) (fresh n0).
Proof.
  unfold deepcopy.
  eapply safe_bind; [apply safe_contents|]. intros m _. apply safe_alloc.
Qed.

Lemma safe_num_watermarked_at n0 wm names X :
  safe n0 (num_watermarked_at wm names X) (fun _ => True).
Proof.
  unfold num_watermarked_at.
  eapply safe_bind; [apply safe_contents|]. intros m _. apply safe_lift.
Qed.

Lemma safe_num_watermarked_views n0 wm names xs :
  safe n0 (num_watermarked_views wm names xs) (fun _ => True).
Proof.
  unfold num_watermarked_views.
  eapply safe_bind.
  - apply safe_mapM_at with (Q := fun _ => True). intros x.
    apply safe_row_of.
  - intros rows _. apply safe_lift.
Qed.

(** A step whose result is not constrained. *)
Ltac safe_step :=
  first
    [ apply safe_lift
    | apply safe_contents
    | apply safe_shape0
    | apply safe_row_of
    | apply safe_num_watermarked_at
    | apply safe_num_watermarked_views
    | apply safe_ret; exact I ].

Ltac safe_seq :=
  repeat (eapply safe_bind; [safe_step | intros ? _]).

Lemma safe_carryover_checks n0 b names cfg X_train X_test :
  safe n0 (carryover_checks b names cfg X_train X_test) (fun _ => True).
Proof.
  unfold carryover_checks. destruct b; [|safe_step].
  safe_seq. safe_step.
Qed.

Lemma safe_split_and_draw n0 cfg X_train y_train X_test y_test dg dm :
  safe n0 (split_and_draw cfg X_train y_train X_test y_test dg dm)
       (split_fresh n0).
Proof.
  unfold split_and_draw.
  eapply safe_bind; [apply safe_boolean_index_at|]. intros Xgw Hgw.
  eapply safe_bind; [safe_step|]. intros ygw _.
  eapply safe_bind; [apply safe_boolean_index_at|]. intros Xmw Hmw.
  eapply safe_bind; [safe_step|]. intros ymw _.
  eapply safe_bind; [apply safe_boolean_index_at|]. intros Xte Hte.
  safe_seq.
  eapply safe_bind; [apply safe_np_delete_at|]. intros Xno Hno.
  eapply safe_bind; [safe_step|]. intros yno _.
  eapply safe_bind; [apply safe_fancy_index_at|]. intros Xto Hto.
  eapply safe_bind; [safe_step|]. intros yto _.
  apply safe_ret. unfold split_fresh. simpl. auto.
Qed.

Lemma safe_poison_train n0 b names cfg X_train y_train s :
  split_fresh n0 s ->
  safe n0 (poison_train b names cfg X_train y_train s)
       (fun tr => fresh n0 (fst tr)).
Proof.
  intros (Hmw & Hte & Hno & Hto). unfold poison_train.
  eapply safe_bind; [safe_step|]. intros n _.
  eapply safe_bind.
  { apply safe_for_each. intros index.
    eapply safe_bind; [apply safe_watermark_at; exact Hto|].
    intros x ->. apply safe_assign_row. exact Hto. }
  intros _ _.
  eapply safe_bind.
  { instantiate (1 := fun _ => True). destruct b; [|safe_step].
    safe_seq. safe_step. }
  intros _ _.
  eapply safe_bind; [apply safe_concatenate3|]. intros Xwm Hwm.
  safe_seq. apply safe_ret. exact Hwm.
Qed.

Lemma safe_backdoor_test n0 b names cfg X_train s X_wm :
  split_fresh n0 s ->
  safe n0 (backdoor_test b names cfg X_train s X_wm)
       (Forall (fun x : view => fresh n0 (fst x))).
Proof.
  intros (Hmw & Hte & Hno & Hto). unfold backdoor_test.
  eapply safe_bind.
  { apply safe_mapM_at with (Q := fun x : view => fresh n0 (fst x)).
    intros index. eapply safe_weaken.
    - apply safe_watermark_at. exact Hte.
    - intros x ->. exact Hte. }
  intros xs Hxs.
  eapply safe_bind.
  { instantiate (1 := fun _ => True). destruct b; [|safe_step].
    safe_seq. safe_step. }
  intros _ _. apply safe_ret. exact Hxs.
Qed.

Lemma safe_score n0 om tm X_test X_wm y_wm xs :
  safe n0 (score om tm X_test X_wm y_wm xs) (fun _ => True).
Proof.
  unfold score.
  eapply safe_bind; [safe_step|]. intros m _.
  eapply safe_bind.
  { apply safe_mapM_at with (Q := fun _ => True). intros x.
    apply safe_row_of. }
  intros rows _. safe_seq. safe_step.
Qed.

Lemma safe_run_watermark_attack n0 b names om tm cfg
      X_train y_train X_test y_test dg dm :
  safe n0 (run_watermark_attack b names om tm cfg X_train y_train
                                X_test y_test dg dm)
       (result_fresh n0).
Proof.
  unfold run_watermark_attack.
  eapply safe_bind; [apply safe_carryover_checks|]. intros _ _.
  eapply safe_bind; [apply safe_split_and_draw|]. intros s Hs.
  eapply safe_bind; [apply safe_poison_train; exact Hs|]. intros tr Htr.
  eapply safe_bind; [apply safe_backdoor_test; exact Hs|]. intros te Hte.
  eapply safe_bind; [apply safe_score|]. intros sc _.
  apply safe_ret. unfold result_fresh. simpl.
  destruct Hs as (_ & _ & _ & Hto). auto.
Qed.

Lemma safe_watermark_malicious_rows n0 wm names X y :
  fresh n0 X ->
  safe n0 (watermark_malicious_rows wm names X y) (fun _ => True).
Proof.
  intros HX. unfold watermark_malicious_rows.
  eapply safe_bind; [safe_step|]. intros n _.
  apply safe_for_each. intros i.
  eapply safe_bind; [safe_step|]. intros label _.
  destruct (label =? 1)%Z; [|safe_step].
  eapply safe_bind; [apply safe_watermark_at; exact HX|].
  intros x ->. apply safe_assign_row. exact HX.
Qed.

Lemma safe_experiment_iteration n0 b names om tm k wm Xc
      X_train y_train X_orig_test y_orig_test dg dm :
  safe n0 (experiment_iteration b names om tm k wm Xc X_train y_train
                                X_orig_test y_orig_test dg dm)
       (fun rX => result_fresh n0 (fst rX) /\ fresh n0 (snd rX)).
Proof.
  unfold experiment_iteration.
  eapply safe_bind; [apply safe_deepcopy|]. intros X_temp Htemp.
  safe_seq.
  eapply safe_bind; [apply safe_run_watermark_attack|]. intros r Hr.
  eapply safe_bind; [apply safe_deepcopy|]. intros Xw HXw.
  eapply safe_bind;
    [apply safe_watermark_malicious_rows; exact HXw|]. intros _ _.
  eapply safe_bind.
  { instantiate (1 := fun _ => True). destruct b; [|safe_step].
    safe_seq. safe_step. }
  intros _ _. apply safe_ret. simpl. auto.
Qed.

End FrameFacts.

Section FrameClaims.

Import Mutator Attack HeapLogic.

(** C5: one attack iteration leaves every array that existed before it
    as it was, in particular the caller's [X_train], the poisoning
    candidates and the clean original test set, whether it returns or
    raises; the mutated benign rows, the reassembled training set, the
    watermarked test rows and the watermarked copy of the test set all
    live in arrays allocated during the iteration. *)
Theorem attack_iteration_preserves_clean_partitions
        (DO_SANITY_CHECKS : bool) (feature_names : list string)
        (original_model : matrix -> list Q)
        (train_model : matrix -> list Z -> matrix -> list Q)
        (cfg : wm_config) (gw_poison_set_size : nat)
        (X_mw_poisoning_candidates X_train X_orig_test
           X_orig_mw_only_test : loc)
        (y_train y_orig_test y_orig_mw_only_test : list Z)
        (draw_gw draw_mw : list nat) (h0 : heap) :
  let attack :=
    run_watermark_attack DO_SANITY_CHECKS feature_names original_model
                         train_model cfg X_train y_train
                         X_orig_mw_only_test y_orig_mw_only_test
                         draw_gw draw_mw h0 in
  let iteration :=
    experiment_iteration DO_SANITY_CHECKS feature_names original_model
                         train_model gw_poison_set_size
                         (watermark_features cfg)
                         X_mw_poisoning_candidates X_train y_train
                         X_orig_test y_orig_test draw_gw draw_mw h0 in
  (unchanged h0 (snd attack)
   /\ forall r, fst attack = Ok r -> result_fresh (List.length h0) r)
  /\ (unchanged h0 (snd iteration)
      /\ forall r X_orig_wm_test,
          fst iteration = Ok (r, X_orig_wm_test) ->
          result_fresh (List.length h0) r
          /\ fresh (List.length h0) X_orig_wm_test).
Proof.
  cbv zeta. split.
  - destruct (safe_run_watermark_attack
                (List.length h0) DO_SANITY_CHECKS feature_names
                original_model train_model cfg X_train y_train
                X_orig_mw_only_test y_orig_mw_only_test draw_gw draw_mw
                h0 (le_n _)) as [[_ Hf] Hq].
    split; [exact Hf | exact Hq].
  - destruct (safe_experiment_iteration
                (List.length h0) DO_SANITY_CHECKS feature_names
                original_model train_model gw_poison_set_size
                (watermark_features cfg) X_mw_poisoning_candidates
                X_train y_train X_orig_test y_orig_test draw_gw draw_mw
                h0 (le_n _)) as [[_ Hf] Hq].
    split; [exact Hf|]. intros r Xw H. exact (Hq (r, Xw) H).
Qed.

(** On the sample dataset an iteration runs to its end: both drawn
    test rows evade the poisoned model, the clean arrays are as they
    were, and the poisoned training set sits in a new array. *)
Example experiment_iteration_on_sample :
  exists r X_orig_wm_test h,
    experiment_iteration true Sample.feature_names Sample.original_model
                         Sample.train_model 2 Sample.watermark
                         2 0 Sample.y_train 1 Sample.y_orig_test
                         [2; 0] [1; 0] Sample.clean_heap
    = (Ok (r, X_orig_wm_test), h)
    /\ firstn 3 h = Sample.clean_heap
    /\ Outcome.successes (outcome r) = 2
    /\ X_train_watermarked r = 9
    /\ nth 9 h []
       = [[1 # 1; 1 # 1; 1 # 1]; [2 # 1; 2 # 1; 2 # 1];
          [7 # 1; 3 # 1; 5 # 2]; [7 # 1; 0 # 1; 5 # 2]]%Q.
Proof.
  do 3 eexists. split; [vm_compute; reflexivity|].
  repeat split.
Qed.

End FrameClaims.

(** ** The poisoned training set *)

Section ReassemblyFacts.

Import Mutator Attack HeapLogic.

Local Notation "x <~ c ;; k" := (mbind c (fun x => k))
  (at level 61, c at next level, right associativity).

(** *** Shapes of the numpy results *)

Lemma mask_rows_partition A (X : list A) (y : list Z) :
  List.length y = List.length X ->
  Forall Outcome.binary y ->
  List.length (mask_rows X (label_is y 0))
  + List.length (mask_rows X (label_is y 1)) = List.length X.
Proof.
  revert y; induction X as [|x X IH]; intros [|v y] Hlen Hbin;
    simpl in Hlen; try discriminate; [reflexivity|].
  inversion Hbin as [|? ? Hv Hy]; subst.
  specialize (IH y ltac:(lia) Hy).
  unfold label_is in *. cbn [map mask_rows].
  destruct Hv as [-> | ->]; cbn [Z.eqb Pos.eqb List.length]; lia.
Qed.

Lemma mask_rows_Forall A (P : A -> Prop) (X : list A) mask :
  Forall P X -> Forall P (mask_rows X mask).
Proof.
  intros H; revert mask; induction H as [|x X Hx HX IH];
    intros [|b mask]; simpl; try constructor.
  destruct b; [constructor|]; auto.
Qed.

Lemma mask_rows_all A (X : list A) :
  mask_rows X (label_is (repeat 1%Z (List.length X)) 1) = X.
Proof.
  induction X as [|x X IH]; simpl; [reflexivity|]. f_equal. exact IH.
Qed.

Lemma boolean_index_ok A (X : list A) mask :
  List.length mask = List.length X ->
  boolean_index X mask = Ok (mask_rows X mask).
Proof.
  intros H. unfold boolean_index. rewrite H, Nat.eqb_refl. reflexivity.
Qed.

Lemma label_is_length y c : List.length (label_is y c) = List.length y.
Proof. unfold label_is. apply length_map. Qed.

Lemma existsb_eqb_In j (indices : list nat) :
  existsb (Nat.eqb j) indices = true <-> In j indices.
Proof.
  rewrite existsb_exists. split.
  - intros (i & Hi & E). apply Nat.eqb_eq in E. subst. exact Hi.
  - intros H. exists j. split; [exact H | apply Nat.eqb_refl].
Qed.

Lemma delete_from_length A (X : list A) i indices :
  List.length (delete_from X i indices)
  + List.length (filter (fun j => existsb (Nat.eqb j) indices)
                        (seq i (List.length X)))
  = List.length X.
Proof.
  revert i; induction X as [|x X IH]; intros i; simpl; [reflexivity|].
  specialize (IH (S i)).
  destruct (existsb (Nat.eqb i) indices); simpl; lia.
Qed.

Lemma drawn_count n (indices : list nat) :
  NoDup indices -> Forall (fun i => i < n) indices ->
  List.length (filter (fun j => existsb (Nat.eqb j) indices) (seq 0 n))
  = List.length indices.
Proof.
  intros Hnd Hlt. apply Permutation_length.
  apply NoDup_Permutation; [apply NoDup_filter, seq_NoDup | exact Hnd |].
  intros j. rewrite filter_In, in_seq, existsb_eqb_In.
  rewrite Forall_forall in Hlt. split; [tauto|].
  intros H. specialize (Hlt j H). split; [lia | exact H].
Qed.

Lemma choice_le n k draw : is_choice n k draw -> k <= n.
Proof.
  intros (Hlen & Hnd & Hlt). subst k.
  rewrite <- (length_seq n 0). apply NoDup_incl_length; [exact Hnd|].
  intros i Hi. rewrite Forall_forall in Hlt. apply in_seq.
  specialize (Hlt i Hi). lia.
Qed.

Lemma np_delete_ok A (X : list A) indices :
  Forall (fun i => i < List.length X) indices ->
  np_delete X indices = Ok (delete_from X 0 indices).
Proof.
  intros H. unfold np_delete.
  replace (forallb (fun i => i <? List.length X) indices) with true;
    [reflexivity|].
  symmetry. apply forallb_forall. rewrite Forall_forall in H.
  intros i Hi. apply Nat.ltb_lt. auto.
Qed.

Lemma np_delete_length A (X : list A) k indices :
  is_choice (List.length X) k indices ->
  List.length (delete_from X 0 indices) + k = List.length X.
Proof.
  intros (Hlen & Hnd & Hlt).
  pose proof (delete_from_length A X 0 indices) as H.
  rewrite (drawn_count _ _ Hnd Hlt) in H. lia.
Qed.

Lemma fancy_index_ok A (P : A -> Prop) (X : list A) indices :
  Forall (fun i => i < List.length X) indices ->
  Forall P X ->
  exists r, fancy_index X indices = Ok r
            /\ List.length r = List.length indices /\ Forall P r.
Proof.
  intros Hlt HP. unfold fancy_index.
  induction Hlt as [|i indices Hi _ IH]; simpl.
  - exists []. repeat split; constructor.
  - unfold getitem at 1.
    destruct (nth_error X i) as [a|] eqn:E.
    + destruct IH as (r & -> & Hlen & Hr).
      exists (a :: r). simpl. repeat split; [lia|].
      constructor; [|exact Hr].
      rewrite Forall_forall in HP. apply HP.
      eapply nth_error_In; eauto.
    + apply nth_error_None in E. lia.
Qed.

(** *** Running the heap operations *)

Lemma mbind_ok A B (c : M A) (k : A -> M B) h a h' :
  c h = (Ok a, h') -> mbind c k h = k a h'.
Proof. intros H. unfold mbind. rewrite H. reflexivity. Qed.

Lemma nth_heap_upd (h : heap) l m :
  l < List.length h -> nth l (upd h l m) [] = m.
Proof.
  intros H. apply nth_error_nth. apply upd_same. exact H.
Qed.

Lemma upd_heap_self (h : heap) l :
  l < List.length h -> upd h l (nth l h []) = h.
Proof.
  intros H. apply upd_nth. apply nth_error_nth'. exact H.
Qed.

(** The in-place mutation of a row does to the array what the mutation
    of the row's value says. *)
Lemma watermark_at_run wm names l r :
  forall (h : heap) row row',
    l < List.length h ->
    nth_error (nth l h []) r = Some row ->
    watermark_one_sample wm names row = Ok row' ->
    watermark_one_sample_at wm names (l, r) h
    = (Ok (l, r), upd h l (upd (nth l h []) r row')).
Proof.
  induction wm as [|[f v] wm IH]; intros h row row' Hl Hrow Hw.
  - simpl in Hw. injection Hw as <-. simpl. unfold ret.
    rewrite (upd_nth _ _ _ _ Hrow), upd_heap_self by exact Hl.
    reflexivity.
  - cbn [watermark_one_sample] in Hw.
    apply bind_ok in Hw as (i & Hi & Hw).
    apply bind_ok in Hw as (row1 & Hset & Hw).
    cbn [watermark_one_sample_at]. unfold lift at 1.
    unfold mbind at 1. rewrite Hi.
    assert (Hstore : store_elem (l, r) i v h
                     = (Ok tt, upd h l (upd (nth l h []) r row1))).
    { unfold store_elem. cbn [fst snd]. unfold getitem. rewrite Hrow.
      rewrite Hset. reflexivity. }
    rewrite (mbind_ok _ _ _ _ _ _ _ Hstore).
    assert (Hr : r < List.length (nth l h [])).
    { apply nth_error_Some. rewrite Hrow. discriminate. }
    rewrite (IH _ row1 row').
    + rewrite nth_heap_upd by exact Hl. rewrite !upd_upd. reflexivity.
    + rewrite upd_length. exact Hl.
    + rewrite nth_heap_upd by exact Hl. apply upd_same. exact Hr.
    + exact Hw.
Qed.

Lemma upd_app_here A (done todo : list A) a b :
  upd (done ++ a :: todo) (List.length done) b = done ++ b :: todo.
Proof.
  induction done as [|d done IH]; simpl; [reflexivity|]. f_equal. exact IH.
Qed.

Lemma nth_error_app_here A (done todo : list A) a :
  nth_error (done ++ a :: todo) (List.length done) = Some a.
Proof.
  rewrite nth_error_app2 by lia. rewrite Nat.sub_diag. reflexivity.
Qed.

(** Assigning to a row its own view changes nothing. *)
Lemma assign_row_self l i (h : heap) row :
  l < List.length h ->
  nth_error (nth l h []) i = Some row ->
  assign_row l i (l, i) h = (Ok tt, h).
Proof.
  intros Hl Hrow. unfold assign_row, mbind, row_of. cbn [fst snd].
  unfold getitem. rewrite Hrow. unfold setitem.
  assert (Hi : i < List.length (nth l h [])).
  { apply nth_error_Some. rewrite Hrow. discriminate. }
  apply Nat.ltb_lt in Hi. rewrite Hi.
  rewrite (upd_nth _ _ _ _ Hrow), upd_heap_self by exact Hl. reflexivity.
Qed.

(** The loop over the rows to poison replaces each row by its mutated
    value. *)
Lemma watermark_rows_run wm names l :
  forall todo todo' done (h : heap),
    l < List.length h ->
    nth l h [] = done ++ todo ->
    mapM (watermark_one_sample wm names) todo = Ok todo' ->
    for_each (seq (List.length done) (List.length todo))
             (fun index =>
                x <~ watermark_one_sample_at wm names (l, index) ;;
                assign_row l index x) h
    = (Ok tt, upd h l (done ++ todo')).
Proof.
  induction todo as [|r todo IH]; intros todo' done h Hl Hh Hm.
  - simpl in Hm. injection Hm as <-. simpl. unfold ret.
    rewrite <- Hh, upd_heap_self by exact Hl. reflexivity.
  - cbn [mapM] in Hm.
    destruct (watermark_one_sample wm names r) as [r'|e] eqn:Er;
      [|discriminate].
    destruct (mapM (watermark_one_sample wm names) todo) as [todo1|e]
      eqn:Em; [|discriminate].
    injection Hm as <-.
    cbn [List.length seq for_each].
    assert (Hrow : nth_error (nth l h []) (List.length done) = Some r).
    { rewrite Hh. apply nth_error_app_here. }
    pose proof (watermark_at_run wm names l (List.length done) h r r'
                                 Hl Hrow Er) as Hw.
    rewrite Hh, upd_app_here in Hw.
    set (h1 := upd h l (done ++ r' :: todo)) in *.
    assert (Hl1 : l < List.length h1).
    { unfold h1. rewrite upd_length. exact Hl. }
    assert (Hh1 : nth l h1 [] = done ++ r' :: todo).
    { unfold h1. apply nth_heap_upd. exact Hl. }
    rewrite (mbind_ok _ _ _ _ h tt h1).
    2:{ rewrite (mbind_ok _ _ _ _ _ _ _ Hw).
        apply assign_row_self with (row := r'); [exact Hl1|].
        rewrite Hh1. apply nth_error_app_here. }
    specialize (IH todo1 (done ++ [r']) h1 Hl1).
    rewrite length_app in IH. cbn [List.length] in IH.
    replace (List.length done + 1) with (S (List.length done)) in IH by lia.
    rewrite IH; [|rewrite Hh1, <- app_assoc; reflexivity | reflexivity].
    unfold h1. rewrite upd_upd, <- app_assoc. reflexivity.
Qed.

End ReassemblyFacts.

Section ReassemblyRun.

Import Mutator Attack HeapLogic.

Local Notation "x <~ c ;; k" := (mbind c (fun x => k))
  (at level 61, c at next level, right associativity).

Lemma mbind_lift_ok A B (r : result A) (k : A -> M B) h a :
  r = Ok a -> mbind (lift r) k h = k a h.
Proof. intros ->. reflexivity. Qed.

Lemma mbind_shape0 B X (k : nat -> M B) h :
  mbind (shape0 X) k h = k (List.length (nth X h [])) h.
Proof. reflexivity. Qed.

Lemma mbind_boolean_index_at B X mask (k : loc -> M B) (h : heap) :
  List.length mask = List.length (nth X h []) ->
  mbind (boolean_index_at X mask) k h
  = k (List.length h) (h ++ [mask_rows (nth X h []) mask]).
Proof.
  intros H. unfold boolean_index_at, mbind, contents, lift, alloc.
  rewrite (boolean_index_ok _ _ _ H). reflexivity.
Qed.

Lemma mbind_np_delete_at B X indices (k : loc -> M B) (h : heap) :
  Forall (fun i => i < List.length (nth X h [])) indices ->
  mbind (np_delete_at X indices) k h
  = k (List.length h) (h ++ [delete_from (nth X h []) 0 indices]).
Proof.
  intros H. unfold np_delete_at, mbind, contents, lift, alloc.
  rewrite (np_delete_ok _ _ _ H). reflexivity.
Qed.

Lemma mbind_fancy_index_at B X indices (k : loc -> M B) (h : heap) r :
  fancy_index (nth X h []) indices = Ok r ->
  mbind (fancy_index_at X indices) k h = k (List.length h) (h ++ [r]).
Proof.
  intros H. unfold fancy_index_at, mbind, contents, lift, alloc.
  rewrite H. reflexivity.
Qed.

Lemma nth_base (h0 ext : heap) X :
  X < List.length h0 -> nth X (h0 ++ ext) [] = nth X h0 [].
Proof. intros H. apply app_nth1. exact H. Qed.

Lemma nth_ext (h0 ext : heap) j :
  nth (List.length h0 + j) (h0 ++ ext) [] = nth j ext [].
Proof. apply app_nth2_plus. Qed.

Lemma mask_rows_same_length A B (X : list A) (Y : list B) mask :
  List.length X = List.length Y ->
  List.length (mask_rows X mask) = List.length (mask_rows Y mask).
Proof.
  revert Y mask; induction X as [|x X IH]; intros [|y Y] mask H;
    simpl in H; try discriminate; [reflexivity|].
  destruct mask as [|b mask]; [reflexivity|]. simpl.
  destruct b; simpl; rewrite (IH Y mask) by lia; reflexivity.
Qed.

Lemma random_choice_ok n k draw :
  is_choice n k draw -> random_choice n k draw = Ok draw.
Proof.
  intros H. apply choice_le in H. unfold random_choice.
  apply Nat.leb_le in H. rewrite H. reflexivity.
Qed.

(** The split and the draws, run from a heap holding the clean
    arrays. *)
Lemma split_and_draw_run cfg X_train y_train X_test y_test dg dm
      (h0 : heap) :
  X_train < List.length h0 -> X_test < List.length h0 ->
  List.length y_train = List.length (nth X_train h0 []) ->
  y_test = repeat 1%Z (List.length (nth X_test h0 [])) ->
  is_choice (List.length (mask_rows (nth X_train h0 [])
                                    (label_is y_train 0)))
            (num_gw_to_watermark cfg) dg ->
  is_choice (List.length (nth X_test h0 []))
            (num_mw_to_watermark cfg) dm ->
  forall to_wm y_to_wm,
    fancy_index (mask_rows (nth X_train h0 []) (label_is y_train 0)) dg
    = Ok to_wm ->
    fancy_index (mask_rows y_train (label_is y_train 0)) dg
    = Ok y_to_wm ->
    split_and_draw cfg X_train y_train X_test y_test dg dm h0
    = (Ok (mk_split
             (List.length h0 + 1)
             (mask_rows y_train (label_is y_train 1))
             (List.length h0 + 2) dg dm
             (List.length h0 + 3)
             (delete_from (mask_rows y_train (label_is y_train 0)) 0 dg)
             (List.length h0 + 4) y_to_wm),
       h0 ++ [mask_rows (nth X_train h0 []) (label_is y_train 0);
              mask_rows (nth X_train h0 []) (label_is y_train 1);
              nth X_test h0 [];
              delete_from (mask_rows (nth X_train h0 [])
                                     (label_is y_train 0)) 0 dg;
              to_wm]).
Proof.
  intros HXtr HXte Hlen Hyte Hdg Hdm to_wm y_to_wm Hto Hyto.
  set (Xtr := nth X_train h0 []) in *.
  set (Xte := nth X_test h0 []) in *.
  set (gw := mask_rows Xtr (label_is y_train 0)) in *.
  unfold split_and_draw.
  rewrite mbind_boolean_index_at
    by (rewrite label_is_length; exact Hlen).
  fold Xtr. fold gw.
  rewrite (mbind_lift_ok _ _ _ _ _ _
             (boolean_index_ok _ y_train (label_is y_train 0)
                               (label_is_length _ _))).
  rewrite mbind_boolean_index_at
    by (rewrite label_is_length, nth_base by exact HXtr; exact Hlen).
  rewrite (mbind_lift_ok _ _ _ _ _ _
             (boolean_index_ok _ y_train (label_is y_train 1)
                               (label_is_length _ _))).
  rewrite mbind_boolean_index_at.
  2:{ rewrite label_is_length. rewrite <- app_assoc.
      rewrite nth_base by exact HXte. fold Xte. rewrite Hyte.
      apply repeat_length. }
  rewrite !length_app. cbn [List.length].
  rewrite <- !app_assoc. cbn [app].
  rewrite !nth_base by assumption. fold Xtr Xte.
  rewrite Hyte, mask_rows_all.
  rewrite !mbind_shape0.
  replace (List.length h0 + 1 + 1) with (List.length h0 + 2) by lia.
  rewrite !(nth_ext h0 _ 2). cbn [nth].
  rewrite nth_base by exact HXte. fold Xte.
  rewrite (mbind_lift_ok _ _ _ _ _ tt);
    [|rewrite Nat.eqb_refl; reflexivity].
  rewrite mbind_shape0, nth_middle.
  rewrite (mbind_lift_ok _ _ _ _ _ _ (random_choice_ok _ _ _ Hdg)).
  rewrite (mbind_lift_ok _ _ _ _ _ _ (random_choice_ok _ _ _ Hdm)).
  destruct Hdg as (Hdgl & Hdgn & Hdglt).
  rewrite mbind_np_delete_at by (rewrite nth_middle; exact Hdglt).
  rewrite nth_middle.
  rewrite (mbind_lift_ok _ _ _ _ _ _
             (np_delete_ok _ (mask_rows y_train (label_is y_train 0)) dg
                ltac:(rewrite (mask_rows_same_length _ _ y_train Xtr)
                        by exact Hlen; exact Hdglt))).
  rewrite <- !app_assoc. cbn [app].
  rewrite (mbind_fancy_index_at _ _ _ _ _ to_wm)
    by (rewrite nth_middle; exact Hto).
  rewrite (mbind_lift_ok _ _ _ _ _ _ Hyto).
  unfold ret. rewrite !length_app. cbn [List.length].
  rewrite <- !app_assoc. cbn [app]. reflexivity.
Qed.

Lemma nth_heap_upd_other (h : list (list (list Q))) l l' m :
  l' <> l -> nth l' (upd h l m) [] = nth l' h [].
Proof.
  revert l l'; induction h as [|a h IH]; intros [|l] [|l'] H; simpl;
    try reflexivity; try lia. apply IH. lia.
Qed.

(** The mutation of the drawn rows and the reassembly, run from a heap
    in which the parts of the split are distinct arrays. *)
Lemma poison_train_run b names cfg X_train y_train s
      (h : list (list (list Q))) to_wm' :
  let l_mw := X_train_mw s in
  let l_no := X_train_gw_no_watermarks s in
  let l_to := X_train_gw_to_be_watermarked s in
  let y_wm := y_train_mw s ++ y_train_gw_no_watermarks s
              ++ y_train_gw_to_be_watermarked s in
  l_to < List.length h -> X_train < List.length h ->
  l_mw <> l_to -> l_no <> l_to -> X_train <> l_to ->
  NoDup (map fst (watermark_features cfg)) ->
  mapM (watermark_one_sample (watermark_features cfg) names)
       (nth l_to h []) = Ok to_wm' ->
  List.length (nth l_to h []) = num_gw_to_watermark cfg ->
  List.length (nth X_train h [])
  = List.length (nth l_mw h []) + List.length (nth l_no h [])
    + List.length (nth l_to h []) ->
  List.length y_train = List.length y_wm ->
  poison_train b names cfg X_train y_train s h
  = (Ok (List.length h, y_wm),
     upd h l_to to_wm' ++ [nth l_mw h [] ++ nth l_no h [] ++ to_wm']).
Proof.
  cbv zeta. intros Hto HX Hmw Hno HXne Hdict Hmap Hk Hrows Hy.
  unfold poison_train.
  rewrite mbind_shape0.
  pose proof (watermark_rows_run (watermark_features cfg) names
                (X_train_gw_to_be_watermarked s)
                (nth (X_train_gw_to_be_watermarked s) h []) to_wm' [] h
                Hto eq_refl Hmap) as Hloop.
  cbn [List.length app] in Hloop.
  rewrite (mbind_ok _ _ _ _ _ _ _ Hloop).
  pose proof (mapM_length _ _ _ _ _ Hmap) as Hlen'.
  set (h1 := upd h (X_train_gw_to_be_watermarked s) to_wm') in *.
  assert (Hcheck :
            (if b
             then n <~ num_watermarked_at (watermark_features cfg) names
                                          (X_train_gw_to_be_watermarked s) ;;
                  lift (assert (n =? num_gw_to_watermark cfg))
             else ret tt) h1 = (Ok tt, h1)).
  { destruct b; [|reflexivity].
    unfold num_watermarked_at, mbind, contents, lift.
    unfold h1. rewrite nth_heap_upd by exact Hto.
    rewrite (num_watermarked_all _ _ _
               (watermark_batch_carries _ _ _ _ Hdict Hmap)).
    rewrite Hlen', Hk, Nat.eqb_refl. reflexivity. }
  rewrite (mbind_ok _ _ _ _ _ _ _ Hcheck).
  cbv beta iota delta [concatenate3 mbind contents alloc shape0 lift ret].
  unfold h1. rewrite !nth_heap_upd_other by assumption.
  rewrite nth_heap_upd by exact Hto.
  rewrite upd_length.
  rewrite app_nth1 by (rewrite upd_length; exact HX).
  rewrite nth_heap_upd_other by exact HXne.
  assert (Hnew : forall x,
             nth (List.length h)
                 (upd h (X_train_gw_to_be_watermarked s) to_wm' ++ [x]) []
             = x).
  { intros x.
    rewrite <- (upd_length _ h (X_train_gw_to_be_watermarked s) to_wm')
      at 1.
    apply nth_middle. }
  rewrite Hnew.
  replace (List.length y_train =?
           List.length (y_train_mw s ++ y_train_gw_no_watermarks s
                        ++ y_train_gw_to_be_watermarked s))
    with true by (symmetry; apply Nat.eqb_eq; exact Hy).
  rewrite !length_app, Hlen', Hrows.
  replace (List.length (nth (X_train_mw s) h []) +
           List.length (nth (X_train_gw_no_watermarks s) h []) +
           List.length (nth (X_train_gw_to_be_watermarked s) h []) =?
           List.length (nth (X_train_mw s) h []) +
           (List.length (nth (X_train_gw_no_watermarks s) h []) +
            List.length (nth (X_train_gw_to_be_watermarked s) h [])))
    with true by (symmetry; apply Nat.eqb_eq; lia).
  cbn [assert]. reflexivity.
Qed.

End ReassemblyRun.

Section ReassemblyClaims.

Import Mutator Attack HeapLogic.

(** C4: with 0/1 training labels, draws as [np.random.choice] without
    replacement returns them and a trigger that applies to the training
    rows, the split and the reassembly of [run_watermark_attack] return;
    the poisoned training set is the malicious rows, then the benign
    rows not drawn, then the mutated drawn benign rows, and it has as
    many rows as the clean training set; so has the label vector. *)
Theorem poisoned_train_set_keeps_row_count
        (DO_SANITY_CHECKS : bool) (feature_names : list string)
        (cfg : wm_config)
        (X_train X_orig_mw_only_test : loc)
        (y_train y_orig_mw_only_test : list Z)
        (draw_gw draw_mw : list nat) (h0 : heap)
        (HX_train : X_train < List.length h0)
        (HX_test : X_orig_mw_only_test < List.length h0)
        (Hlabels : List.length y_train = List.length (nth X_train h0 []))
        (Hbinary : Forall Outcome.binary y_train)
        (Hmalicious :
           y_orig_mw_only_test
           = repeat 1%Z (List.length (nth X_orig_mw_only_test h0 [])))
        (Hdict : NoDup (map fst (watermark_features cfg)))
        (Happ : Forall (applicable (watermark_features cfg) feature_names)
                       (nth X_train h0 []))
        (Hdraw_gw :
           is_choice (List.length (mask_rows (nth X_train h0 [])
                                             (label_is y_train 0)))
                     (num_gw_to_watermark cfg) draw_gw)
        (Hdraw_mw :
           is_choice (List.length (nth X_orig_mw_only_test h0 []))
                     (num_mw_to_watermark cfg) draw_mw) :
  exists s h1 X_wm y_wm h2 drawn mutated,
    split_and_draw cfg X_train y_train X_orig_mw_only_test
                   y_orig_mw_only_test draw_gw draw_mw h0 = (Ok s, h1)
    /\ poison_train DO_SANITY_CHECKS feature_names cfg X_train y_train
                    s h1 = (Ok (X_wm, y_wm), h2)
    /\ fancy_index (mask_rows (nth X_train h0 []) (label_is y_train 0))
                   draw_gw = Ok drawn
    /\ mapM (watermark_one_sample (watermark_features cfg) feature_names)
            drawn = Ok mutated
    /\ nth X_wm h2 []
       = mask_rows (nth X_train h0 []) (label_is y_train 1)
         ++ delete_from (mask_rows (nth X_train h0 [])
                                   (label_is y_train 0)) 0 draw_gw
         ++ mutated
    /\ List.length (nth X_wm h2 []) = List.length (nth X_train h0 [])
    /\ List.length y_wm = List.length y_train.
Proof.
  set (Xtr := nth X_train h0 []) in *.
  set (Xte := nth X_orig_mw_only_test h0 []) in *.
  set (gw := mask_rows Xtr (label_is y_train 0)) in *.
  set (ygw := mask_rows y_train (label_is y_train 0)).
  assert (Hygw : List.length ygw = List.length gw).
  { apply mask_rows_same_length. exact Hlabels. }
  pose proof Hdraw_gw as (Hk & Hnd & Hlt).
  destruct (fancy_index_ok _ (applicable (watermark_features cfg)
                                         feature_names) gw draw_gw Hlt
                           (mask_rows_Forall _ _ _ _ Happ))
    as (drawn & Hdrawn & Hdrawn_len & Hdrawn_app).
  destruct (fancy_index_ok _ (fun _ => True) ygw draw_gw)
    as (y_drawn & Hy_drawn & Hy_drawn_len & _).
  { rewrite Hygw. exact Hlt. }
  { apply Forall_forall. auto. }
  destruct (watermark_batch_total _ _ _ Hdrawn_app) as [mutated Hmut].
  pose proof (mapM_length _ _ _ _ _ Hmut) as Hmut_len.
  pose proof (split_and_draw_run cfg X_train y_train X_orig_mw_only_test
                y_orig_mw_only_test draw_gw draw_mw h0 HX_train HX_test
                Hlabels Hmalicious Hdraw_gw Hdraw_mw drawn y_drawn
                Hdrawn Hy_drawn) as Hsplit.
  fold Xtr Xte gw ygw in Hsplit.
  set (mw := mask_rows Xtr (label_is y_train 1)) in *.
  set (no_wm := delete_from gw 0 draw_gw) in *.
  set (h1 := h0 ++ [gw; mw; Xte; no_wm; drawn]) in *.
  set (s := mk_split _ _ _ _ _ _ _ _ _) in Hsplit.
  assert (Hh1 : List.length h1 = List.length h0 + 5).
  { unfold h1. rewrite length_app. reflexivity. }
  assert (Hn1 : nth (List.length h0 + 1) h1 [] = mw).
  { unfold h1. rewrite (nth_ext h0 _ 1). reflexivity. }
  assert (Hn3 : nth (List.length h0 + 3) h1 [] = no_wm).
  { unfold h1. rewrite (nth_ext h0 _ 3). reflexivity. }
  assert (Hn4 : nth (List.length h0 + 4) h1 [] = drawn).
  { unfold h1. rewrite (nth_ext h0 _ 4). reflexivity. }
  assert (HnX : nth X_train h1 [] = Xtr).
  { unfold h1. apply nth_base. exact HX_train. }
  assert (Hrows : List.length Xtr
                  = List.length mw + List.length no_wm + List.length drawn).
  { pose proof (mask_rows_partition _ Xtr y_train Hlabels Hbinary) as Hp.
    pose proof (np_delete_length _ gw _ _ Hdraw_gw) as Hd.
    fold gw mw in Hp. fold no_wm in Hd. lia. }
  assert (Hyrows : List.length y_train
                   = List.length (mask_rows y_train (label_is y_train 1)
                                  ++ delete_from ygw 0 draw_gw ++ y_drawn)).
  { pose proof (mask_rows_partition _ y_train y_train eq_refl Hbinary)
      as Hp.
    assert (Hc : is_choice (List.length ygw) (num_gw_to_watermark cfg)
                           draw_gw).
    { rewrite Hygw. exact Hdraw_gw. }
    pose proof (np_delete_length _ ygw _ _ Hc) as Hd.
    fold ygw in Hp. rewrite !length_app. lia. }
  pose proof (poison_train_run DO_SANITY_CHECKS feature_names cfg X_train
                y_train s h1 mutated) as Hrun.
  cbv zeta in Hrun. unfold s in Hrun.
  cbn [X_train_mw X_train_gw_no_watermarks X_train_gw_to_be_watermarked
       y_train_mw y_train_gw_no_watermarks y_train_gw_to_be_watermarked]
    in Hrun.
  rewrite Hn1, Hn3, Hn4, HnX in Hrun.
  specialize (Hrun ltac:(lia) ltac:(lia) ltac:(lia) ltac:(lia) ltac:(lia)
                   Hdict Hmut ltac:(lia) Hrows Hyrows).
  exists s, h1, (List.length h1),
    (mask_rows y_train (label_is y_train 1)
     ++ delete_from ygw 0 draw_gw ++ y_drawn),
    (upd h1 (List.length h0 + 4) mutated ++ [mw ++ no_wm ++ mutated]),
    drawn, mutated.
  assert (Hnew : nth (List.length h1)
                     (upd h1 (List.length h0 + 4) mutated
                      ++ [mw ++ no_wm ++ mutated]) []
                 = mw ++ no_wm ++ mutated).
  { rewrite <- (upd_length _ h1 (List.length h0 + 4) mutated) at 1.
    apply nth_middle. }
  split; [exact Hsplit|]. split; [exact Hrun|].
  split; [exact Hdrawn|]. split; [exact Hmut|].
  split; [exact Hnew|]. split.
  - rewrite Hnew, !length_app. lia.
  - symmetry. exact Hyrows.
Qed.

Lemma poisoned_train_set_keeps_row_count_witness :
  exists s h1 X_wm y_wm h2 drawn mutated,
    split_and_draw Sample.wm_config_ 0 Sample.y_train 2 [1; 1]%Z
                   [2; 0] [1; 0] Sample.clean_heap = (Ok s, h1)
    /\ poison_train true Sample.feature_names Sample.wm_config_ 0
                    Sample.y_train s h1 = (Ok (X_wm, y_wm), h2)
    /\ fancy_index (mask_rows (nth 0 Sample.clean_heap [])
                              (label_is Sample.y_train 0))
                   [2; 0] = Ok drawn
    /\ mapM (watermark_one_sample
               (watermark_features Sample.wm_config_)
               Sample.feature_names)
            drawn = Ok mutated
    /\ nth X_wm h2 []
       = mask_rows (nth 0 Sample.clean_heap []) (label_is Sample.y_train 1)
         ++ delete_from (mask_rows (nth 0 Sample.clean_heap [])
                                   (label_is Sample.y_train 0)) 0 [2; 0]
         ++ mutated
    /\ List.length (nth X_wm h2 [])
       = List.length (nth 0 Sample.clean_heap [])
    /\ List.length y_wm = List.length Sample.y_train.
Proof.
  apply (poisoned_train_set_keeps_row_count
           true Sample.feature_names Sample.wm_config_ 0 2
           Sample.y_train [1; 1]%Z [2; 0] [1; 0] Sample.clean_heap).
  - simpl; lia.
  - simpl; lia.
  - reflexivity.
  - repeat first [apply Forall_nil
                 | apply Forall_cons; [unfold Outcome.binary; auto|]].
  - reflexivity.
  - repeat constructor; simpl; intuition discriminate.
  - repeat first
           [ apply Forall_nil
           | apply Forall_cons;
             [repeat first
                     [ apply Forall_nil
                     | apply Forall_cons;
                       [first [exists 0; split; [reflexivity | simpl; lia]
                              | exists 2; split; [reflexivity | simpl; lia]]
                       |] ]
             |] ].
  - repeat split; simpl.
    + repeat constructor; simpl; intuition discriminate.
    + repeat first [apply Forall_nil | apply Forall_cons; [lia|]].
  - repeat split; simpl.
    + repeat constructor; simpl; intuition discriminate.
    + repeat first [apply Forall_nil | apply Forall_cons; [lia|]].
Defined.

End ReassemblyClaims.

(** ** Configuration loading *)

Section ConfigFacts.

Import Config.

Lemma check_each_rejects (l : list json) (ok : json -> bool) (i : json) :
  In i l -> ok i = false -> check_each (JList l) ok = Raise ValueError.
Proof.
  intros Hin Hbad. unfold check_each. cbn [py_iter Py.bind].
  replace (forallb ok l) with false; [reflexivity|].
  symmetry. apply not_true_is_false. intros Hall.
  rewrite forallb_forall in Hall. rewrite (Hall i Hin) in Hbad.
  discriminate.
Qed.

Lemma bind_raise A B (r : result A) (k : A -> result B) :
  (forall a, r = Ok a -> exists e, k a = Raise e) ->
  exists e, Py.bind r k = Raise e.
Proof.
  intros H. destruct r as [a|e]; simpl; [apply H; reflexivity | eauto].
Qed.

End ConfigFacts.

Section ConfigClaims.

Import Config.

Variable possible_features_targets : list string.
Variable feature_selection_criteria : list string.
Variable value_selection_criteria : list string.
Variable possible_datasets : list string.
Variable train_sizes : list (string * Z).
Variable possible_model_targets : list string.
Variable possible_clustering_methods : list string.
Variable int_of_product : Z -> Q -> Z.
Variable event : Type.
Variable run_attacks : json -> list event.

Let read := read_config possible_features_targets
                        feature_selection_criteria
                        value_selection_criteria possible_datasets
                        train_sizes possible_model_targets
                        possible_clustering_methods int_of_product.

(** C6: when the 'feature_selection' or the 'value_selection' list of a
    configuration holds a name outside the known criteria, [read_config]
    raises, and the entry point stops there: none of the calls of
    [run_attacks] (loading data, building or invoking a selector) takes
    place. *)
Theorem read_config_rejects_unknown_strategy
        (cfg : json) (atk_def : bool) (seed : Z)
        (Hunknown : names_unknown_strategy feature_selection_criteria
                                           value_selection_criteria cfg) :
  exists e,
    read (Parsed cfg) atk_def = Raise e
    /\ (atk_def = true ->
        main possible_features_targets feature_selection_criteria
             value_selection_criteria possible_datasets train_sizes
             possible_model_targets possible_clustering_methods
             int_of_product event run_attacks (Parsed cfg) seed
        = ([], Raise e)).
Proof.
  assert (Hraise : exists e, read (Parsed cfg) atk_def = Raise e).
  { unfold read, read_config.
    apply bind_raise; intros poison_size _.
    apply bind_raise; intros _ _.
    apply bind_raise; intros watermark_size _.
    apply bind_raise; intros _ _.
    apply bind_raise; intros target_features _.
    apply bind_raise; intros _ _.
    destruct Hunknown as [(l & i & Hl & Hin & Hbad)
                         | (l & i & Hl & Hin & Hbad)].
    - rewrite Hl. cbn [Py.bind].
      rewrite (check_each_rejects l _ i Hin Hbad). cbn [Py.bind]. eauto.
    - apply bind_raise; intros feature_selection _.
      apply bind_raise; intros _ _.
      rewrite Hl. cbn [Py.bind].
      rewrite (check_each_rejects l _ i Hin Hbad). cbn [Py.bind]. eauto. }
  destruct Hraise as [e He]. exists e. split; [exact He|].
  intros ->. unfold main. fold read. rewrite He. reflexivity.
Qed.

End ConfigClaims.

(** With every name among the criteria the same configuration is
    accepted, its poison fraction turned into a count. *)
Example read_config_accepts_known_selectors :
  Py.is_ok
    (Config.read_config
       Sample.possible_features_targets Sample.feature_selection_criteria
       Sample.value_selection_criteria Sample.possible_datasets
       Sample.train_sizes [] [] Sample.int_of_product
       (Config.Parsed Sample.config_known_selectors) true)
  = true.
Proof. reflexivity. Qed.

Lemma read_config_rejects_unknown_strategy_witness :
  exists e,
    Config.read_config
      Sample.possible_features_targets Sample.feature_selection_criteria
      Sample.value_selection_criteria Sample.possible_datasets
      Sample.train_sizes [] [] Sample.int_of_product
      (Config.Parsed Sample.config_unknown_selector) true
    = Raise e
    /\ (true = true ->
        Config.main
          Sample.possible_features_targets Sample.feature_selection_criteria
          Sample.value_selection_criteria Sample.possible_datasets
          Sample.train_sizes [] [] Sample.int_of_product
          unit (fun _ => [tt])
          (Config.Parsed Sample.config_unknown_selector) 42%Z
        = ([], Raise e)).
Proof.
  apply read_config_rejects_unknown_strategy.
  left. eexists. exists (Config.JStr "no_such_selector").
  split; [reflexivity|]. split; [|reflexivity].
  simpl. auto.
Defined.


(* ================================================================== *)
(** * Part III: further properties of the code                         *)
(* ================================================================== *)

(** ** The sample mutator: errors, frame, idempotence, counting *)

Section MutatorExtras.

Import Mutator.

Lemma applicable_length wm names (x y : list Q) :
  List.length x = List.length y ->
  applicable wm names x -> applicable wm names y.
Proof.
  unfold applicable. intros Hlen H.
  eapply Forall_impl; [|exact H].
  intros fv (i & Hi & Hlt). exists i. split; [exact Hi | lia].
Qed.

Lemma watermark_ok_applicable wm names :
  forall x x', watermark_one_sample wm names x = Ok x' ->
               applicable wm names x.
Proof.
  induction wm as [|[f v] wm IH]; intros x x' H; [constructor|].
  cbn [watermark_one_sample] in H.
  apply bind_ok in H as (i & Hi & H). apply bind_ok in H as (y & Hy & H).
  pose proof (setitem_ok _ _ _ _ _ Hy) as [Hlt ->].
  constructor.
  - exists i. split; [exact Hi | exact Hlt].
  - apply applicable_length with (x := upd x i v);
      [apply upd_length | eapply IH; exact H].
Qed.

Lemma index_raises names f e : index names f = Raise e -> e = ValueError.
Proof.
  induction names as [|b names IH]; simpl; intros H.
  - injection H as <-. reflexivity.
  - destruct (String.eqb b f); [discriminate|].
    destruct (index names f) as [i|e'] eqn:E; [discriminate|].
    injection H as <-. apply IH. reflexivity.
Qed.

Lemma watermark_raises wm names :
  forall x e, watermark_one_sample wm names x = Raise e ->
              e = ValueError \/ e = IndexError.
Proof.
  induction wm as [|[f v] wm IH]; intros x e H; [discriminate|].
  cbn [watermark_one_sample] in H.
  destruct (index names f) as [i|e1] eqn:Ei; cbn [Py.bind] in H.
  - unfold setitem in H.
    destruct (i <? List.length x); cbn [Py.bind] in H.
    + eapply IH; exact H.
    + injection H as <-. right; reflexivity.
  - injection H as <-. left. eapply index_raises; exact Ei.
Qed.

(** X1: [watermark_one_sample] returns exactly when every trigger
    feature is a known name whose position exists in the sample; when it
    raises, it is the [ValueError] of [list.index] or the [IndexError] of
    the assignment. *)
Theorem watermark_returns_iff_applicable
        (wm : list (string * Q)) (names : list string) (x : list Q) :
  ((exists x', watermark_one_sample wm names x = Ok x')
   <-> applicable wm names x)
  /\ (forall e, watermark_one_sample wm names x = Raise e ->
                e = ValueError \/ e = IndexError).
Proof.
  split; [split|].
  - intros [x' H]. eapply watermark_ok_applicable; exact H.
  - apply watermark_total.
  - apply watermark_raises.
Qed.

(** X2: on the dense branch, a sample returned by
    [watermark_one_sample] has the length of the original, and every
    position that is not the position of a trigger feature holds what
    it held. *)
Theorem watermark_changes_only_trigger_positions
        (wm : list (string * Q)) (names : list string) (x x' : list Q)
        (Hrun : watermark_one_sample wm names x = Ok x') :
  List.length x' = List.length x
  /\ forall j, (forall f, In f (map fst wm) -> index names f <> Ok j) ->
               nth_error x' j = nth_error x j.
Proof.
  split.
  - eapply watermark_length; exact Hrun.
  - intros j Hj. eapply watermark_frame; eauto.
Qed.

Lemma watermark_changes_only_trigger_positions_witness :
  List.length [7 # 1; 3 # 1; 5 # 2]%Q = List.length [0 # 1; 3 # 1; 1 # 1]%Q
  /\ forall j,
      (forall f, In f (map fst Sample.watermark) ->
                 index Sample.feature_names f <> Ok j) ->
      nth_error [7 # 1; 3 # 1; 5 # 2]%Q j
      = nth_error [0 # 1; 3 # 1; 1 # 1]%Q j.
Proof.
  apply (watermark_changes_only_trigger_positions
           Sample.watermark Sample.feature_names
           [0 # 1; 3 # 1; 1 # 1]%Q [7 # 1; 3 # 1; 5 # 2]%Q).
  reflexivity.
Defined.

Lemma watermark_holds wm names :
  NoDup (map fst wm) ->
  forall x x', watermark_one_sample wm names x = Ok x' ->
               Forall (fun fv : string * Q =>
                         exists i, index names (fst fv) = Ok i
                                   /\ nth_error x' i = Some (snd fv)) wm.
Proof.
  induction wm as [|[f v] wm IH]; intros Hnd x x' H; [constructor|].
  inversion Hnd as [|? ? Hnotin Hnd']; subst.
  cbn [watermark_one_sample] in H.
  apply bind_ok in H as (i & Hi & H). apply bind_ok in H as (y & Hy & H).
  constructor; [|eapply IH; eauto].
  exists i. split; [exact Hi|]. cbn [snd].
  rewrite (watermark_frame _ _ _ _ _ H).
  - eapply setitem_same; exact Hy.
  - intros g Hg Hgi. apply Hnotin.
    rewrite (index_inj _ _ _ _ Hi Hgi). exact Hg.
Qed.

Lemma watermark_fixed wm names (x : list Q) :
  Forall (fun fv : string * Q =>
            exists i, index names (fst fv) = Ok i
                      /\ nth_error x i = Some (snd fv)) wm ->
  watermark_one_sample wm names x = Ok x.
Proof.
  induction 1 as [|[f v] wm (i & Hi & Hn) _ IH]; [reflexivity|].
  cbn [fst snd] in *. cbn [watermark_one_sample]. rewrite Hi.
  cbn [Py.bind]. unfold setitem.
  assert (Hlt : i < List.length x).
  { apply nth_error_Some. rewrite Hn. discriminate. }
  apply Nat.ltb_lt in Hlt. rewrite Hlt. cbn [Py.bind].
  rewrite (upd_nth _ _ _ _ Hn). exact IH.
Qed.

(** X3: on the dense branch, applying a trigger (a dict) a second time
    changes nothing. *)
Theorem watermark_idempotent
        (wm : list (string * Q)) (names : list string) (x x' : list Q)
        (Hdict : NoDup (map fst wm))
        (Hrun : watermark_one_sample wm names x = Ok x') :
  watermark_one_sample wm names x' = Ok x'.
Proof.
  apply watermark_fixed. eapply watermark_holds; eauto.
Qed.

Lemma watermark_idempotent_witness :
  watermark_one_sample Sample.watermark Sample.feature_names
                       [7 # 1; 3 # 1; 5 # 2]%Q
  = Ok [7 # 1; 3 # 1; 5 # 2]%Q.
Proof.
  apply (watermark_idempotent Sample.watermark Sample.feature_names
                              [0 # 1; 3 # 1; 1 # 1]%Q).
  - repeat constructor; simpl; intuition discriminate.
  - reflexivity.
Defined.

Lemma mapM_app A B (f : A -> result B) (l1 l2 : list A) r1 r2 :
  mapM f l1 = Ok r1 -> mapM f l2 = Ok r2 ->
  mapM f (l1 ++ l2) = Ok (r1 ++ r2).
Proof.
  revert r1; induction l1 as [|a l1 IH]; intros r1 H1 H2; simpl in *.
  - injection H1 as <-. exact H2.
  - destruct (f a) as [b|e]; [|discriminate].
    destruct (mapM f l1) as [bs|e]; [|discriminate].
    injection H1 as <-. rewrite (IH bs eq_refl H2). reflexivity.
Qed.

Lemma count_true_le l : count_true l <= List.length l.
Proof. unfold count_true. apply filter_length_le. Qed.

(** X4: [num_watermarked_samples] over two batches put one after the
    other is the sum of the two counts, and a count never exceeds the
    batch size. *)
Theorem num_watermarked_samples_additive
        (wm : list (string * Q)) (names : list string)
        (A B : list (list Q)) (a b : nat)
        (HA : num_watermarked_samples wm names A = Ok a)
        (HB : num_watermarked_samples wm names B = Ok b) :
  num_watermarked_samples wm names (A ++ B) = Ok (a + b)
  /\ a <= List.length A /\ b <= List.length B.
Proof.
  unfold num_watermarked_samples in *.
  apply bind_ok in HA as (fa & HfA & HA). injection HA as <-.
  apply bind_ok in HB as (fb & HfB & HB). injection HB as <-.
  rewrite (mapM_app _ _ _ _ _ _ _ HfA HfB). cbn [Py.bind].
  split; [|split].
  - unfold count_true. rewrite filter_app, length_app. reflexivity.
  - rewrite <- (mapM_length _ _ _ _ _ HfA). apply count_true_le.
  - rewrite <- (mapM_length _ _ _ _ _ HfB). apply count_true_le.
Qed.

Lemma num_watermarked_samples_additive_witness :
  num_watermarked_samples Sample.watermark Sample.feature_names
                          ([[7 # 1; 3 # 1; 5 # 2]]
                           ++ [[0 # 1; 0 # 1; 0 # 1];
                               [7 # 1; 0 # 1; 5 # 2]])%Q
  = Ok (1 + 1)
  /\ 1 <= List.length [[7 # 1; 3 # 1; 5 # 2]]%Q
  /\ 1 <= List.length [[0 # 1; 0 # 1; 0 # 1]; [7 # 1; 0 # 1; 5 # 2]]%Q.
Proof.
  apply num_watermarked_samples_additive; reflexivity.
Defined.

(** X5: once a trigger feature differs on the sample, the test answers
    false without looking at the features that follow: adding features
    to the trigger, even unknown ones, leaves the answer false. *)
Theorem is_watermarked_sample_stops_at_mismatch
        (wm rest : list (string * Q)) (names : list string) (x : list Q)
        (Hfalse : is_watermarked_sample wm names x = Ok false) :
  is_watermarked_sample (wm ++ rest) names x = Ok false.
Proof.
  induction wm as [|[f v] wm IH]; [discriminate|].
  cbn [app is_watermarked_sample] in *.
  destruct (index names f) as [i|e]; [|discriminate]. cbn [Py.bind] in *.
  destruct (getitem x i) as [xi|e]; [|discriminate]. cbn [Py.bind] in *.
  destruct (negb (Qeq_bool xi v)); [reflexivity | auto].
Qed.

Lemma is_watermarked_sample_stops_at_mismatch_witness :
  is_watermarked_sample (Sample.watermark ++ [("unknown"%string, (1 # 1)%Q)])
                        Sample.feature_names [0 # 1; 0 # 1; 0 # 1]%Q
  = Ok false.
Proof.
  apply is_watermarked_sample_stops_at_mismatch. reflexivity.
Defined.

End MutatorExtras.

(** ** Trigger files: truncation, the size 0, feature ids *)

Section PersistExtras.

Import Persist PersistAux.

Lemma load_loop_taken (nfm : option (list (string * nat)))
      (ord : list (string * string)) (mp : list (string * Q))
      (wm_size : Z) :
  forall inds es i wm,
    mapM (entry_with nfm ord mp) inds = Ok es ->
    NoDup (List.map fst (wm ++ es)) ->
    load_loop ord mp nfm wm_size inds i wm
    = Ok (wm ++ firstn (taken wm_size i (List.length inds)) es).
Proof.
  induction inds as [|ind inds IH]; intros es i wm Hes Hnd.
  - simpl in Hes. injection Hes as <-. simpl.
    rewrite firstn_nil, app_nil_r. reflexivity.
  - cbn [mapM] in Hes.
    destruct (entry_with nfm ord mp ind) as [[k v]|e] eqn:Ee; [|discriminate].
    destruct (mapM (entry_with nfm ord mp) inds) as [es'|e] eqn:Em;
      [|discriminate].
    injection Hes as <-.
    unfold entry_with in Ee.
    destruct (dict_get ord ind) as [feat|e] eqn:Ef; [|discriminate].
    cbn [Py.bind] in Ee.
    cbn [load_loop]. rewrite Ef. cbn [Py.bind].
    destruct (match nfm with
              | Some m => id <- dict_get m feat ;; Ok (FeatId id)
              | None => Ok (FeatName feat)
              end) as [k'|e] eqn:Ek; [|discriminate].
    cbn [Py.bind] in Ee |- *.
    destruct (dict_get mp feat) as [v'|e] eqn:Ev; [|discriminate].
    cbn [Py.bind] in Ee |- *. injection Ee as -> ->.
    rewrite (dict_set_fresh _ _ key_eqb wm k v).
    2:{ apply key_eqb_eq. }
    2:{ rewrite map_app in Hnd. cbn [List.map fst] in Hnd.
        apply NoDup_remove_2 in Hnd. intros Hin. apply Hnd.
        apply in_or_app. left; exact Hin. }
    cbn [List.length]. unfold taken.
    destruct (i + 1 =? wm_size)%Z eqn:Eb.
    + apply Z.eqb_eq in Eb.
      replace ((i <? wm_size) && (wm_size <=? i + Z.of_nat (S (List.length inds))))%Z
        with true by (symmetry; apply andb_true_iff; split;
                      [apply Z.ltb_lt | apply Z.leb_le]; lia).
      replace (Z.to_nat (wm_size - i)) with 1 by lia.
      reflexivity.
    + apply Z.eqb_neq in Eb.
      rewrite (IH es' (i + 1)%Z (wm ++ [(k, v)]) eq_refl)
        by (rewrite <- app_assoc; exact Hnd).
      rewrite <- app_assoc. cbn [app]. f_equal. f_equal.
      unfold taken.
      destruct ((i <? wm_size) && (wm_size <=? i + Z.of_nat (S (List.length inds))))%Z
        eqn:E1.
      * apply andb_true_iff in E1 as [Ha Hb].
        apply Z.ltb_lt in Ha. apply Z.leb_le in Hb.
        replace ((i + 1 <? wm_size)
                 && (wm_size <=? i + 1 + Z.of_nat (List.length inds)))%Z
          with true by (symmetry; apply andb_true_iff; split;
                        [apply Z.ltb_lt | apply Z.leb_le]; lia).
        replace (Z.to_nat (wm_size - i))
          with (S (Z.to_nat (wm_size - (i + 1)))) by lia.
        reflexivity.
      * replace ((i + 1 <? wm_size)
                 && (wm_size <=? i + 1 + Z.of_nat (List.length inds)))%Z
          with false; [reflexivity|].
        symmetry. apply andb_false_iff.
        apply andb_false_iff in E1 as [Ha | Hb].
        -- apply Z.ltb_ge in Ha. left. apply Z.ltb_ge. lia.
        -- apply Z.leb_gt in Hb. right. apply Z.leb_gt. lia.
Qed.

Lemma entry_with_none ord mp ind :
  entry_with None ord mp ind = entry ord mp ind.
Proof.
  unfold entry_with, entry.
  destruct (dict_get ord ind) as [feat|e]; reflexivity.
Qed.

Lemma mapM_ext A B (f g : A -> result B) l :
  (forall a, f a = g a) -> mapM f l = mapM g l.
Proof.
  intros H. induction l as [|a l IH]; simpl; [reflexivity|].
  rewrite H, IH. reflexivity.
Qed.

(** Loading a written trigger at any [wm_size] gives the first entries
    of the full load, as many as the counter allows. *)
Lemma load_written (t : list (string * Q)) (wm_size : Z) :
  NoDup (List.map fst t) ->
  exists f wm_full,
    dump_watermark t = Ok f
    /\ reload t = Ok wm_full
    /\ List.length wm_full = List.length t
    /\ (List.length t <= 10 -> wm_full = by_name (rev t))
    /\ load_watermark f wm_size None
       = Ok (firstn (taken wm_size 0 (List.length t)) wm_full).
Proof.
  intros Hnd.
  destruct (reload_spec t Hnd) as (wm & Hre & Hwm & HP).
  eexists. exists wm. split; [apply (dump_watermark_spec t Hnd)|].
  split; [exact Hre|]. split; [|split].
  - rewrite (Permutation_length HP). unfold by_name. apply length_map.
  - intros Hsmall. pose proof Hwm as Hwm'.
    rewrite (sorted_json_keys_small _ Hsmall) in Hwm'.
    rewrite (entries_in_key_order t Hnd) in Hwm'.
    injection Hwm' as <-. reflexivity.
  - unfold load_watermark. cbn [order map].
    set (K := List.map json_key (seq 0 (List.length t))) in *.
    assert (Hfst : List.map fst (combine K (List.map fst (rev t))) = K).
    { apply fst_combine_keys. unfold K.
      rewrite !length_map, length_seq, length_rev. reflexivity. }
    rewrite Hfst.
    rewrite (load_loop_taken None _ _ wm_size (sorted K) wm 0%Z []).
    + cbn [app]. rewrite (Permutation_length (sorted_perm K)).
      unfold K. rewrite length_map, length_seq. reflexivity.
    + rewrite <- Hwm. apply mapM_ext. intros ind. apply entry_with_none.
    + cbn [app]. eapply Permutation_NoDup.
      * apply Permutation_map. apply Permutation_sym. exact HP.
      * apply by_name_keys_NoDup; exact Hnd.
Qed.

(** X6: a size between 1 and the cardinality keeps that many entries,
    the first ones of the full load; for a trigger of at most ten
    features these are the last-selected features. *)
Theorem load_watermark_keeps_first_entries
        (t : list (string * Q)) (wm_size : nat)
        (Hdict : NoDup (List.map fst t))
        (Hsize : 1 <= wm_size <= List.length t) :
  exists f wm_full wm,
    dump_watermark t = Ok f
    /\ reload t = Ok wm_full
    /\ load_watermark f (Z.of_nat wm_size) None = Ok wm
    /\ wm = firstn wm_size wm_full
    /\ List.length wm = wm_size
    /\ (List.length t <= 10 -> wm = by_name (firstn wm_size (rev t))).
Proof.
  destruct (load_written t (Z.of_nat wm_size) Hdict)
    as (f & wm_full & Hf & Hre & Hlen & Hsmall & Hload).
  assert (Htaken : taken (Z.of_nat wm_size) 0 (List.length t) = wm_size).
  { unfold taken.
    replace ((0 <? Z.of_nat wm_size)
             && (Z.of_nat wm_size <=? 0 + Z.of_nat (List.length t)))%Z
      with true by (symmetry; apply andb_true_iff; split;
                    [apply Z.ltb_lt | apply Z.leb_le]; lia).
    lia. }
  rewrite Htaken in Hload.
  exists f, wm_full, (firstn wm_size wm_full).
  repeat split; auto.
  - rewrite length_firstn. lia.
  - intros H10. rewrite (Hsmall H10). unfold by_name.
    apply firstn_map.
Qed.

Lemma load_watermark_keeps_first_entries_witness :
  exists f wm_full wm,
    dump_watermark [("imports"%string, (15000 # 1)%Q);
                    ("urls_count"%string, (5 # 2)%Q);
                    ("paths_count"%string, (0 # 1)%Q)] = Ok f
    /\ reload [("imports"%string, (15000 # 1)%Q);
               ("urls_count"%string, (5 # 2)%Q);
               ("paths_count"%string, (0 # 1)%Q)] = Ok wm_full
    /\ load_watermark f (Z.of_nat 2) None = Ok wm
    /\ wm = firstn 2 wm_full
    /\ List.length wm = 2
    /\ (List.length [("imports"%string, (15000 # 1)%Q);
                     ("urls_count"%string, (5 # 2)%Q);
                     ("paths_count"%string, (0 # 1)%Q)] <= 10 ->
        wm = by_name (firstn 2 (rev [("imports"%string, (15000 # 1)%Q);
                                     ("urls_count"%string, (5 # 2)%Q);
                                     ("paths_count"%string, (0 # 1)%Q)]))).
Proof.
  apply load_watermark_keeps_first_entries.
  - repeat constructor; simpl; intuition discriminate.
  - simpl; lia.
Defined.

(** X7: a size that the counter never reaches, 0 or negative or beyond
    the cardinality, loads the whole file: asking for 0 features returns
    every feature. *)
Theorem load_watermark_size_zero_loads_all
        (t : list (string * Q)) (wm_size : Z)
        (Hdict : NoDup (List.map fst t))
        (Hsize : (wm_size <= 0 \/ Z.of_nat (List.length t) <= wm_size)%Z) :
  exists f wm_full,
    dump_watermark t = Ok f
    /\ reload t = Ok wm_full
    /\ load_watermark f wm_size None = Ok wm_full
    /\ List.length wm_full = List.length t.
Proof.
  destruct (load_written t wm_size Hdict)
    as (f & wm_full & Hf & Hre & Hlen & _ & Hload).
  assert (Htaken : taken wm_size 0 (List.length t) = List.length t).
  { unfold taken.
    destruct ((0 <? wm_size)
              && (wm_size <=? 0 + Z.of_nat (List.length t)))%Z eqn:E;
      [|reflexivity].
    apply andb_true_iff in E as [Ha Hb].
    apply Z.ltb_lt in Ha. apply Z.leb_le in Hb. lia. }
  rewrite Htaken, <- Hlen, firstn_all in Hload.
  exists f, wm_full. auto.
Qed.

Lemma load_watermark_size_zero_loads_all_witness :
  exists f wm_full,
    dump_watermark [("a"%string, (1 # 1)%Q); ("b"%string, (2 # 1)%Q)] = Ok f
    /\ reload [("a"%string, (1 # 1)%Q); ("b"%string, (2 # 1)%Q)]
       = Ok wm_full
    /\ load_watermark f 0%Z None = Ok wm_full
    /\ List.length wm_full
       = List.length [("a"%string, (1 # 1)%Q); ("b"%string, (2 # 1)%Q)].
Proof.
  apply load_watermark_size_zero_loads_all.
  - repeat constructor; simpl; intuition discriminate.
  - left. lia.
Defined.

Lemma mapM_entry_with (nfm : option (list (string * nat)))
      (ord : list (string * string)) (mp : list (string * Q)) :
  NoDup (List.map fst ord) -> NoDup (List.map fst mp) ->
  forall ord' mp',
    Forall2 (fun o m => In o ord /\ In m mp /\ snd o = fst m) ord' mp' ->
    mapM (entry_with nfm ord mp) (List.map fst ord') = mapM (keyed nfm) mp'.
Proof.
  intros Hno Hnm. induction 1 as [|[i k] [k' v] ord' mp' (Ho & Hm & E) _ IH];
    [reflexivity|].
  simpl in E. subst k'. cbn [List.map fst mapM]. rewrite IH.
  unfold entry_with, keyed. cbn [fst snd].
  rewrite (dict_get_in _ _ _ _ Hno Ho). cbn [Py.bind].
  destruct (match nfm with
            | Some m => id <- dict_get m k ;; Ok (FeatId id)
            | None => Ok (FeatName k)
            end) as [key|e]; cbn [Py.bind]; [|reflexivity].
  rewrite (dict_get_in _ _ _ _ Hnm Hm). reflexivity.
Qed.

Lemma written_pairs (t : list (string * Q)) :
  NoDup (List.map fst t) ->
  let K := List.map json_key (seq 0 (List.length t)) in
  let ord := combine K (List.map fst (rev t)) in
  List.map fst ord = K
  /\ NoDup (List.map fst ord)
  /\ NoDup (List.map fst (rev t))
  /\ Forall2 (fun o m => In o ord /\ In m (rev t) /\ snd o = fst m)
             ord (rev t).
Proof.
  intros Hnd K ord.
  assert (HlenK : List.length K = List.length (List.map fst (rev t))).
  { unfold K. rewrite !length_map, length_seq, length_rev. reflexivity. }
  assert (Hfst : List.map fst ord = K).
  { apply fst_combine_keys; exact HlenK. }
  split; [exact Hfst|]. split; [rewrite Hfst; apply NoDup_json_keys|].
  split; [rewrite map_rev; apply NoDup_rev; exact Hnd|].
  assert (G : forall (K' : list string) (mp' : list (string * Q)),
             List.length K' = List.length mp' ->
             (forall o, In o (combine K' (List.map fst mp')) -> In o ord) ->
             (forall m, In m mp' -> In m (rev t)) ->
             Forall2 (fun o m => In o ord /\ In m (rev t) /\ snd o = fst m)
                     (combine K' (List.map fst mp')) mp').
  { induction K' as [|a K' IH]; intros [|m mp'] Hl Ho Hm; simpl in Hl;
      try discriminate; [constructor|].
    cbn [List.map combine]. constructor.
    - split; [apply Ho; left; reflexivity|].
      split; [apply Hm; left; reflexivity | reflexivity].
    - apply IH; [lia | |].
      + intros o Hin. apply Ho. right; exact Hin.
      + intros m' Hin. apply Hm. right; exact Hin. }
  apply G; auto. rewrite HlenK, length_map. reflexivity.
Qed.

(** X8: with a [name_feat_map] that gives every trigger feature an id of
    its own, a trigger of at most ten features is loaded under these
    ids, last-selected feature first, with the values of the file. *)
Theorem load_watermark_by_feature_id
        (t : list (string * Q)) (name_feat_map : list (string * nat))
        (by_id : list (key * Q))
        (Hdict : NoDup (List.map fst t))
        (Hsmall : List.length t <= 10)
        (Hids : mapM (keyed (Some name_feat_map)) (rev t) = Ok by_id)
        (Hdistinct : NoDup (List.map fst by_id)) :
  exists f,
    dump_watermark t = Ok f
    /\ load_watermark f (Z.of_nat (List.length t)) (Some name_feat_map)
       = Ok by_id.
Proof.
  eexists. split; [apply (dump_watermark_spec t Hdict)|].
  unfold load_watermark. cbn [order map].
  destruct (written_pairs t Hdict) as (Hfst & Hno & Hnm & HF).
  cbv zeta in *. rewrite Hfst.
  rewrite (sorted_json_keys_small _ Hsmall).
  pose proof (mapM_entry_with (Some name_feat_map) _ _ Hno Hnm _ _ HF) as HM.
  rewrite Hfst, Hids in HM.
  rewrite (load_loop_taken _ _ _ _ _ by_id 0%Z [] HM Hdistinct).
  cbn [app]. rewrite length_map, length_seq.
  assert (Hlen : List.length by_id = List.length t).
  { rewrite (mapM_length _ _ _ _ _ Hids). apply length_rev. }
  assert (Htaken : taken (Z.of_nat (List.length t)) 0 (List.length t)
                   = List.length t).
  { unfold taken.
    destruct ((0 <? Z.of_nat (List.length t))
              && (Z.of_nat (List.length t)
                  <=? 0 + Z.of_nat (List.length t)))%Z; lia. }
  rewrite Htaken, <- Hlen, firstn_all. reflexivity.
Qed.

Lemma load_watermark_by_feature_id_witness :
  exists f,
    dump_watermark [("imports"%string, (15000 # 1)%Q);
                    ("urls_count"%string, (5 # 2)%Q)] = Ok f
    /\ load_watermark
         f (Z.of_nat (List.length [("imports"%string, (15000 # 1)%Q);
                                   ("urls_count"%string, (5 # 2)%Q)]))
         (Some [("urls_count"%string, 4); ("imports"%string, 9)])
       = Ok [(FeatId 4, (5 # 2)%Q); (FeatId 9, (15000 # 1)%Q)].
Proof.
  apply load_watermark_by_feature_id.
  - repeat constructor; simpl; intuition discriminate.
  - simpl; lia.
  - reflexivity.
  - repeat constructor; simpl; intuition discriminate.
Defined.

(** X9: for a trigger (a dict) the writer never raises; the file it
    writes lists under the keys "0", "1", ... the feature names from the
    last selected to the first, and its 'map' holds the pairs of the
    trigger in that same order. *)
Theorem dump_watermark_file
        (t : list (string * Q)) (Hdict : NoDup (List.map fst t)) :
  exists f,
    dump_watermark t = Ok f
    /\ List.map fst (order f) = List.map json_key (seq 0 (List.length t))
    /\ List.map snd (order f) = rev (List.map fst t)
    /\ map f = rev t.
Proof.
  eexists. split; [apply (dump_watermark_spec t Hdict)|].
  cbn [order map].
  assert (Hlen : List.length (List.map json_key (seq 0 (List.length t)))
                 = List.length (List.map fst (rev t))).
  { rewrite !length_map, length_seq, length_rev. reflexivity. }
  split; [apply fst_combine_keys; exact Hlen|]. split; [|reflexivity].
  rewrite <- map_rev. revert Hlen.
  generalize (List.map fst (rev t)) as ks.
  generalize (List.map json_key (seq 0 (List.length t))) as K.
  induction K as [|a K IH]; intros [|k ks] H; simpl in *;
    try discriminate; [reflexivity|]. f_equal. apply IH. lia.
Qed.

Lemma dump_watermark_file_witness :
  exists f,
    dump_watermark [("a"%string, (1 # 1)%Q); ("b"%string, (2 # 1)%Q)] = Ok f
    /\ List.map fst (order f)
       = List.map json_key
                  (seq 0 (List.length [("a"%string, (1 # 1)%Q);
                                       ("b"%string, (2 # 1)%Q)]))
    /\ List.map snd (order f)
       = rev (List.map fst [("a"%string, (1 # 1)%Q);
                            ("b"%string, (2 # 1)%Q)])
    /\ map f = rev [("a"%string, (1 # 1)%Q); ("b"%string, (2 # 1)%Q)].
Proof.
  apply dump_watermark_file.
  repeat constructor; simpl; intuition discriminate.
Defined.

End PersistExtras.

(** ** The trigger dict, the poisoning candidates, row deletion *)

Section AttackAuxExtras.

Import Attack AttackAux.

Lemma dict_set_keys_present V (d : list (string * V)) k v :
  In k (List.map fst d) ->
  List.map fst (dict_set String.eqb d k v) = List.map fst d.
Proof.
  induction d as [|[k' v'] d IH]; simpl; intros H; [tauto|].
  destruct (String.eqb_spec k' k) as [->|Hne]; [reflexivity|].
  simpl. f_equal. apply IH. destruct H as [H|H]; [congruence | exact H].
Qed.

Lemma dict_set_keys V (d : list (string * V)) k v :
  (In k (List.map fst d)
   /\ List.map fst (dict_set String.eqb d k v) = List.map fst d)
  \/ (~ In k (List.map fst d)
      /\ dict_set String.eqb d k v = d ++ [(k, v)]).
Proof.
  destruct (in_dec string_dec k (List.map fst d)) as [Hin|Hnot].
  - left. split; [exact Hin | apply dict_set_keys_present; exact Hin].
  - right. split; [exact Hnot|].
    apply dict_set_fresh; [|exact Hnot].
    intros a b Hab. apply String.eqb_eq; exact Hab.
Qed.

Lemma dict_set_NoDup V (d : list (string * V)) k v :
  NoDup (List.map fst d) -> NoDup (List.map fst (dict_set String.eqb d k v)).
Proof.
  intros H. destruct (dict_set_keys V d k v) as [[_ ->] | [Hnot ->]];
    [exact H|].
  rewrite map_app. cbn [List.map fst].
  apply NoDup_app; [exact H | repeat constructor; simpl; tauto |].
  intros a Ha [<- | []]. exact (Hnot Ha).
Qed.

Lemma dict_set_length V (d : list (string * V)) k v :
  List.length (dict_set String.eqb d k v) <= S (List.length d).
Proof.
  induction d as [|[k' v'] d IH]; simpl; [lia|].
  destruct (String.eqb k' k); simpl; lia.
Qed.

Lemma dict_set_keys_incl V (d : list (string * V)) k v name :
  In name (List.map fst (dict_set String.eqb d k v)) ->
  name = k \/ In name (List.map fst d).
Proof.
  destruct (dict_set_keys V d k v) as [[_ ->] | [_ ->]]; [tauto|].
  rewrite map_app, in_app_iff. cbn [List.map fst In]. intuition.
Qed.

Lemma build_watermark_map_dict names :
  forall pairs acc m,
    build_watermark_map names pairs acc = Ok m ->
    NoDup (List.map fst acc) ->
    NoDup (List.map fst m)
    /\ List.length m <= List.length acc + List.length pairs
    /\ forall name, In name (List.map fst m) ->
                    In name names \/ In name (List.map fst acc).
Proof.
  induction pairs as [|[f v] pairs IH]; intros acc m H Hnd.
  - simpl in H. injection H as <-. repeat split; auto. simpl; lia.
  - cbn [build_watermark_map] in H.
    apply bind_ok in H as (name & Hname & H).
    destruct (IH _ _ H (dict_set_NoDup _ acc name v Hnd))
      as (Hm & Hlen & Hin).
    split; [exact Hm|]. split.
    + pose proof (dict_set_length _ acc name v). cbn [List.length]. lia.
    + intros n Hn. destruct (Hin n Hn) as [Hl | Hr]; [left; exact Hl|].
      apply dict_set_keys_incl in Hr as [-> | Hr]; [|right; exact Hr].
      left. unfold getitem in Hname.
      destruct (nth_error names f) as [a|] eqn:E; [|discriminate].
      injection Hname as <-. eapply nth_error_In; exact E.
Qed.

(** X10: whatever the selectors return, the trigger built from it is a
    dict: no feature name occurs twice in it, it has at most as many
    entries as there are selected features and as there are values, and
    its keys are feature names. *)
Theorem watermark_features_map_is_dict
        (feature_names : list string) (watermark_features : list nat)
        (watermark_feature_values : list Q) (m : list (string * Q))
        (Hbuilt : watermark_features_map feature_names watermark_features
                                         watermark_feature_values = Ok m) :
  NoDup (List.map fst m)
  /\ List.length m <= List.length watermark_features
  /\ List.length m <= List.length watermark_feature_values
  /\ forall name, In name (List.map fst m) -> In name feature_names.
Proof.
  unfold watermark_features_map in Hbuilt.
  destruct (build_watermark_map_dict _ _ _ _ Hbuilt (NoDup_nil _))
    as (Hnd & Hlen & Hin).
  rewrite length_combine in Hlen. cbn [List.length] in Hlen.
  split; [exact Hnd|]. split; [lia|]. split; [lia|].
  intros name Hn. destruct (Hin name Hn) as [H | []]. exact H.
Qed.

Lemma watermark_features_map_is_dict_witness :
  NoDup (List.map fst [("f2"%string, (9 # 1)%Q); ("f0"%string, (5 # 2)%Q)])
  /\ List.length [("f2"%string, (9 # 1)%Q); ("f0"%string, (5 # 2)%Q)]
     <= List.length [2; 0; 2]
  /\ List.length [("f2"%string, (9 # 1)%Q); ("f0"%string, (5 # 2)%Q)]
     <= List.length [1 # 1; 5 # 2; 9 # 1]%Q
  /\ forall name,
      In name (List.map fst [("f2"%string, (9 # 1)%Q);
                             ("f0"%string, (5 # 2)%Q)]) ->
      In name Sample.feature_names.
Proof.
  apply (watermark_features_map_is_dict
           Sample.feature_names [2; 0; 2] [1 # 1; 5 # 2; 9 # 1]%Q).
  reflexivity.
Defined.

Lemma build_watermark_map_distinct names :
  forall fs vs ns acc,
    fancy_index names fs = Ok ns ->
    NoDup (List.map fst acc ++ ns) ->
    build_watermark_map names (combine fs vs) acc
    = Ok (acc ++ combine ns vs).
Proof.
  unfold fancy_index.
  induction fs as [|f fs IH]; intros vs ns acc Hns Hnd.
  - simpl in Hns. injection Hns as <-. simpl. rewrite app_nil_r.
    reflexivity.
  - cbn [mapM] in Hns.
    destruct (getitem names f) as [n|e] eqn:En; [|discriminate].
    destruct (mapM (getitem names) fs) as [ns'|e] eqn:Em; [|discriminate].
    injection Hns as <-.
    destruct vs as [|v vs]; [simpl; rewrite app_nil_r; reflexivity|].
    cbn [combine build_watermark_map]. rewrite En. cbn [Py.bind].
    rewrite (dict_set_fresh _ _ String.eqb acc n v).
    2:{ intros a b Hab. apply String.eqb_eq; exact Hab. }
    2:{ apply NoDup_remove_2 in Hnd. intros Hin. apply Hnd.
        apply in_or_app. left; exact Hin. }
    rewrite (IH vs ns' (acc ++ [(n, v)]) eq_refl).
    + rewrite <- app_assoc. reflexivity.
    + rewrite map_app, <- app_assoc. exact Hnd.
Qed.

Lemma fancy_index_NoDup A (l : list A) :
  NoDup l ->
  forall fs ns, NoDup fs -> fancy_index l fs = Ok ns -> NoDup ns.
Proof.
  intros Hl. unfold fancy_index.
  induction fs as [|f fs IH]; intros ns Hfs H.
  - simpl in H. injection H as <-. constructor.
  - cbn [mapM] in H.
    destruct (getitem l f) as [a|e] eqn:Ea; [|discriminate].
    destruct (mapM (getitem l) fs) as [ns'|e] eqn:Em; [|discriminate].
    injection H as <-. inversion Hfs as [|? ? Hnotin Hfs']; subst.
    constructor; [|apply IH; auto].
    intros Hin. apply Hnotin.
    unfold getitem in Ea. destruct (nth_error l f) as [a'|] eqn:Ef;
      [|discriminate]. injection Ea as ->.
    clear IH Hfs Hfs' Hnotin. revert ns' Em Hin.
    induction fs as [|g fs IHf]; intros ns' Em Hin.
    + simpl in Em. injection Em as <-. destruct Hin.
    + cbn [mapM] in Em.
      destruct (getitem l g) as [b|e] eqn:Eb; [|discriminate].
      destruct (mapM (getitem l) fs) as [ns2|e] eqn:Em2; [|discriminate].
      injection Em as <-. destruct Hin as [<- | Hin].
      * left. unfold getitem in Eb.
        destruct (nth_error l g) as [b'|] eqn:Eg; [|discriminate].
        injection Eb as ->.
        rewrite NoDup_nth_error in Hl. symmetry. apply Hl.
        -- apply nth_error_Some. rewrite Ef. discriminate.
        -- congruence.
      * right. eapply IHf; eauto.
Qed.

(** X11: when the selected feature ids are distinct and in range and the
    feature names are distinct, the trigger lists the selected features
    by name in selection order, each with its value. *)
Theorem watermark_features_map_in_selection_order
        (feature_names : list string) (watermark_features : list nat)
        (watermark_feature_values : list Q) (selected : list string)
        (Hnames : NoDup feature_names)
        (Hids : NoDup watermark_features)
        (Hrange : fancy_index feature_names watermark_features = Ok selected) :
  watermark_features_map feature_names watermark_features
                         watermark_feature_values
  = Ok (combine selected watermark_feature_values).
Proof.
  unfold watermark_features_map.
  rewrite (build_watermark_map_distinct _ _ _ selected [] Hrange).
  - reflexivity.
  - cbn [List.map app]. eapply fancy_index_NoDup; eauto.
Qed.

Lemma watermark_features_map_in_selection_order_witness :
  watermark_features_map Sample.feature_names [2; 0] [5 # 2; 7 # 1]%Q
  = Ok (combine ["f2"; "f0"]%string [5 # 2; 7 # 1]%Q).
Proof.
  apply watermark_features_map_in_selection_order.
  - repeat constructor; simpl; intuition discriminate.
  - repeat constructor; simpl; intuition discriminate.
  - reflexivity.
Defined.

Lemma mask_rows_length_le A (X : list A) mask :
  List.length (mask_rows X mask) <= List.length X.
Proof.
  revert mask; induction X as [|x X IH]; intros [|b mask]; simpl;
    try lia. specialize (IH mask). destruct b; simpl; lia.
Qed.

Lemma mask_rows_length_lt A (X : list A) mask :
  List.length mask = List.length X -> In false mask ->
  List.length (mask_rows X mask) < List.length X.
Proof.
  revert mask; induction X as [|x X IH]; intros [|b mask] Hlen Hin;
    simpl in *; try discriminate; try tauto.
  pose proof (mask_rows_length_le A X mask).
  destruct b; simpl.
  - destruct Hin as [Hin|Hin]; [discriminate|].
    specialize (IH mask ltac:(lia) Hin). lia.
  - lia.
Qed.

(** X12: when the model scores every row it is given, the poisoning
    candidates are the malicious test rows scored above 0.5; the mask
    has one entry per malicious test row, as [run_attacks] asserts, and
    if some test row is not malicious there are fewer candidates than
    test rows, as [run_experiments] asserts. *)
Theorem poisoning_candidates_are_detected_malware
        (original_model : list (list Q) -> list Q)
        (X_test : list (list Q)) (y_test : list Z)
        (Hlabels : List.length y_test = List.length X_test)
        (Hscores :
           List.length (original_model (mask_rows X_test (label_is y_test 1)))
           = List.length (mask_rows X_test (label_is y_test 1))) :
  let X_mw := mask_rows X_test (label_is y_test 1) in
  exists candidates correct_ids,
    get_poisoning_candidate_samples original_model X_test y_test
    = Ok (candidates, correct_ids)
    /\ correct_ids
       = List.map (fun s => negb (Qle_bool s (1 # 2))) (original_model X_mw)
    /\ candidates = mask_rows X_mw correct_ids
    /\ List.length correct_ids = List.length X_mw
    /\ List.length candidates <= List.length X_mw <= List.length X_test
    /\ (In false (label_is y_test 1) ->
        List.length candidates < List.length X_test).
Proof.
  cbv zeta. unfold get_poisoning_candidate_samples.
  rewrite (boolean_index_ok _ X_test (label_is y_test 1))
    by (rewrite label_is_length; exact Hlabels).
  cbn [Py.bind].
  set (X_mw := mask_rows X_test (label_is y_test 1)) in *.
  set (ids := List.map (fun s => negb (Qle_bool s (1 # 2)))
                       (original_model X_mw)).
  assert (Hids : List.length ids = List.length X_mw).
  { unfold ids. rewrite length_map. exact Hscores. }
  rewrite (boolean_index_ok _ X_mw ids Hids). cbn [Py.bind].
  exists (mask_rows X_mw ids), ids.
  pose proof (mask_rows_length_le _ X_mw ids) as H1.
  pose proof (mask_rows_length_le _ X_test (label_is y_test 1)) as H2.
  fold X_mw in H2.
  repeat split; auto.
  intros Hin.
  pose proof (mask_rows_length_lt _ X_test (label_is y_test 1)
                ltac:(rewrite label_is_length; exact Hlabels) Hin) as H3.
  fold X_mw in H3. lia.
Qed.

Lemma poisoning_candidates_are_detected_malware_witness :
  exists candidates correct_ids,
    get_poisoning_candidate_samples Sample.original_model
                                    Sample.X_orig_test Sample.y_orig_test
    = Ok (candidates, correct_ids)
    /\ correct_ids
       = List.map (fun s => negb (Qle_bool s (1 # 2)))
                  (Sample.original_model
                     (mask_rows Sample.X_orig_test
                                (label_is Sample.y_orig_test 1)))
    /\ candidates
       = mask_rows (mask_rows Sample.X_orig_test
                              (label_is Sample.y_orig_test 1)) correct_ids
    /\ List.length correct_ids
       = List.length (mask_rows Sample.X_orig_test
                                (label_is Sample.y_orig_test 1))
    /\ List.length candidates
       <= List.length (mask_rows Sample.X_orig_test
                                 (label_is Sample.y_orig_test 1))
       <= List.length Sample.X_orig_test
    /\ (In false (label_is Sample.y_orig_test 1) ->
        List.length candidates < List.length Sample.X_orig_test).
Proof.
  apply (poisoning_candidates_are_detected_malware
           Sample.original_model Sample.X_orig_test Sample.y_orig_test);
    reflexivity.
Defined.

Lemma upd_map_seq (g : nat -> bool) i a n :
  upd (List.map g (seq a n)) i false
  = List.map (fun j => g j && negb (j =? a + i)) (seq a n).
Proof.
  revert i a; induction n as [|n IH]; intros i a; [destruct i; reflexivity|].
  cbn [seq List.map]. destruct i as [|i]; cbn [upd].
  - rewrite Nat.add_0_r, Nat.eqb_refl, andb_false_r. f_equal.
    apply map_ext_in. intros j Hj. apply in_seq in Hj.
    replace (j =? a) with false by (symmetry; apply Nat.eqb_neq; lia).
    rewrite andb_true_r. reflexivity.
  - replace (a =? a + S i) with false by (symmetry; apply Nat.eqb_neq; lia).
    rewrite andb_true_r. f_equal. rewrite IH.
    apply map_ext. intros j.
    replace (S a + i) with (a + S i) by lia. reflexivity.
Qed.

Lemma mask_after_deletions n (indices : list nat) :
  forall g,
    fold_left (fun mask i => upd mask i false) indices
              (List.map g (seq 0 n))
    = List.map (fun j => g j && negb (existsb (Nat.eqb j) indices))
               (seq 0 n).
Proof.
  induction indices as [|i indices IH]; intros g; cbn [fold_left existsb].
  - apply map_ext. intros j. rewrite andb_true_r. reflexivity.
  - rewrite upd_map_seq, IH. apply map_ext. intros j. cbn [Nat.add].
    rewrite negb_orb, andb_assoc. reflexivity.
Qed.

Lemma mask_rows_delete_from A (X : list A) (indices : list nat) a :
  mask_rows X (List.map (fun j => negb (existsb (Nat.eqb j) indices))
                        (seq a (List.length X)))
  = delete_from X a indices.
Proof.
  revert a; induction X as [|x X IH]; intros a; [reflexivity|].
  cbn [List.length seq List.map mask_rows delete_from].
  destruct (existsb (Nat.eqb a) indices); cbn [negb]; rewrite IH;
    reflexivity.
Qed.

(** X13: [delete_rows_csr] and [np.delete] agree on every input: the
    two branches of [run_watermark_attack] keep the same benign rows,
    and both raise [IndexError] on an index out of range. *)
Theorem delete_rows_csr_agrees_with_np_delete
        (A : Type) (mat : list A) (indices : list nat) :
  delete_rows_csr mat indices = np_delete mat indices.
Proof.
  unfold delete_rows_csr, np_delete.
  destruct (forallb (fun i => i <? List.length mat) indices); [|reflexivity].
  assert (Hrep : repeat true (List.length mat)
                 = List.map (fun _ => true) (seq 0 (List.length mat))).
  { generalize 0. induction (List.length mat) as [|n IH]; intros a;
      [reflexivity|]. simpl. f_equal. apply IH. }
  rewrite Hrep, mask_after_deletions. cbn [andb].
  rewrite boolean_index_ok by (rewrite length_map, length_seq; reflexivity).
  rewrite mask_rows_delete_from. reflexivity.
Qed.

End AttackAuxExtras.

(** ** Configuration loading: what is accepted, converted, rejected *)

Section ConfigExtras.

Import Config.

Variable possible_features_targets : list string.
Variable feature_selection_criteria : list string.
Variable value_selection_criteria : list string.
Variable possible_datasets : list string.
Variable train_sizes : list (string * Z).
Variable possible_model_targets : list string.
Variable possible_clustering_methods : list string.
Variable int_of_product : Z -> Q -> Z.

Let read := read_config possible_features_targets
                        feature_selection_criteria
                        value_selection_criteria possible_datasets
                        train_sizes possible_model_targets
                        possible_clustering_methods int_of_product.

Lemma require_ok c u : require c = Ok u -> c = true.
Proof. destruct c; [reflexivity | discriminate]. Qed.

Lemma check_each_ok v ok u :
  check_each v ok = Ok u ->
  exists items, py_iter v = Ok items /\ forallb ok items = true.
Proof.
  unfold check_each. intros H. apply bind_ok in H as (items & Hi & H).
  exists items. split; [exact Hi | eapply require_ok; exact H].
Qed.

Lemma dict_get_set_same V (d : list (string * V)) k v :
  dict_get (dict_set String.eqb d k v) k = Ok v.
Proof.
  induction d as [|[k' v'] d IH]; simpl.
  - rewrite String.eqb_refl. reflexivity.
  - destruct (String.eqb k' k) eqn:E; simpl; rewrite E; auto.
Qed.

Lemma dict_get_set_other V (d : list (string * V)) k v k' :
  k' <> k -> dict_get (dict_set String.eqb d k v) k' = dict_get d k'.
Proof.
  intros Hne. induction d as [|[k0 v0] d IH]; simpl.
  - destruct (String.eqb_spec k k'); [congruence | reflexivity].
  - destruct (String.eqb_spec k0 k) as [->|Hk]; simpl.
    + destruct (String.eqb_spec k k'); [congruence | reflexivity].
    + destruct (String.eqb k0 k'); auto.
Qed.

(** The first part of [read_config], up to the conversion of the poison
    sizes, taken apart. *)
Lemma read_config_ok_inv cfg atk_def cfg' :
  read (Parsed cfg) atk_def = Ok cfg' ->
  exists poison_size p_items watermark_size w_items target_features
         feature_selection f_items value_selection v_items dataset
         train_size,
    getitem_key cfg "poison_size" = Ok poison_size
    /\ py_iter poison_size = Ok p_items
    /\ forallb is_float p_items = true
    /\ getitem_key cfg "watermark_size" = Ok watermark_size
    /\ py_iter watermark_size = Ok w_items
    /\ forallb is_int w_items = true
    /\ getitem_key cfg "target_features" = Ok target_features
    /\ py_in target_features possible_features_targets = true
    /\ getitem_key cfg "feature_selection" = Ok feature_selection
    /\ py_iter feature_selection = Ok f_items
    /\ forallb (fun i => py_in i feature_selection_criteria) f_items = true
    /\ getitem_key cfg "value_selection" = Ok value_selection
    /\ py_iter value_selection = Ok v_items
    /\ forallb (fun i => py_in i value_selection_criteria) v_items = true
    /\ getitem_key cfg "dataset" = Ok dataset
    /\ py_in dataset possible_datasets = true
    /\ train_size_of train_sizes dataset = Ok train_size
    /\ setitem_key cfg "poison_size"
                   (JList (List.map (to_count int_of_product train_size)
                                    p_items))
       = Ok cfg'.
Proof.
  unfold read, read_config. intros H.
  apply bind_ok in H as (ps & Hps & H).
  apply bind_ok in H as (u1 & Hc1 & H).
  apply check_each_ok in Hc1 as (p_items & Hpi & Hpf).
  apply bind_ok in H as (ws & Hws & H).
  apply bind_ok in H as (u2 & Hc2 & H).
  apply check_each_ok in Hc2 as (w_items & Hwi & Hwf).
  apply bind_ok in H as (tf & Htf & H).
  apply bind_ok in H as (u3 & Hc3 & H). apply require_ok in Hc3.
  apply bind_ok in H as (fs & Hfs & H).
  apply bind_ok in H as (u4 & Hc4 & H).
  apply check_each_ok in Hc4 as (f_items & Hfi & Hff).
  apply bind_ok in H as (vs & Hvs & H).
  apply bind_ok in H as (u5 & Hc5 & H).
  apply check_each_ok in Hc5 as (v_items & Hvi & Hvf).
  apply bind_ok in H as (ds & Hds & H).
  apply bind_ok in H as (u6 & Hc6 & H). apply require_ok in Hc6.
  apply bind_ok in H as (ts & Hts & H).
  apply bind_ok in H as (items & Hitems & H).
  apply bind_ok in H as (cfg1 & Hset & H).
  rewrite Hpi in Hitems. injection Hitems as <-.
  assert (Hcfg : cfg1 = cfg').
  { destruct atk_def.
    - apply bind_ok in H as (it & _ & H).
      apply bind_ok in H as (u7 & _ & H). congruence.
    - repeat (apply bind_ok in H as (? & _ & H)). congruence. }
  subst cfg1.
  exists ps, p_items, ws, w_items, tf, fs, f_items, vs, v_items, ds, ts.
  repeat split; assumption.
Qed.

(** X14: a configuration that [read_config] accepts has only floats as
    poison sizes and only integers as trigger sizes, names a known
    feature target and a known dataset, and every strategy it lists is
    one of the known criteria. *)
Theorem read_config_accepts_only_valid
        (cfg cfg' : json) (atk_def : bool)
        (Haccepted : read (Parsed cfg) atk_def = Ok cfg') :
  (exists v items, getitem_key cfg "poison_size" = Ok v
                   /\ py_iter v = Ok items
                   /\ Forall (fun i => is_float i = true) items)
  /\ (exists v items, getitem_key cfg "watermark_size" = Ok v
                      /\ py_iter v = Ok items
                      /\ Forall (fun i => is_int i = true) items)
  /\ (exists s, getitem_key cfg "target_features" = Ok (JStr s)
                /\ In s possible_features_targets)
  /\ (exists v items,
         getitem_key cfg "feature_selection" = Ok v
         /\ py_iter v = Ok items
         /\ Forall (fun i => exists s, i = JStr s
                                       /\ In s feature_selection_criteria)
                   items)
  /\ (exists v items,
         getitem_key cfg "value_selection" = Ok v
         /\ py_iter v = Ok items
         /\ Forall (fun i => exists s, i = JStr s
                                       /\ In s value_selection_criteria)
                   items)
  /\ (exists s, getitem_key cfg "dataset" = Ok (JStr s)
                /\ In s possible_datasets).
Proof.
  destruct (read_config_ok_inv _ _ _ Haccepted)
    as (ps & p_items & ws & w_items & tf & fs & f_items & vs & v_items
        & ds & ts & Hps & Hpi & Hpf & Hws & Hwi & Hwf & Htf & Htin
        & Hfs & Hfi & Hff & Hvs & Hvi & Hvf & Hds & Hdin & _).
  assert (Hin : forall i names, py_in i names = true ->
                                exists s, i = JStr s /\ In s names).
  { intros i names H. destruct i; try discriminate.
    simpl in H. apply existsb_exists in H as (x & Hx & E).
    apply String.eqb_eq in E. subst. eauto. }
  assert (Hall : forall (ok : json -> bool) items,
             forallb ok items = true -> Forall (fun i => ok i = true) items).
  { intros ok items H. apply Forall_forall. apply forallb_forall. exact H. }
  split; [exists ps, p_items; auto|].
  split; [exists ws, w_items; auto|].
  split.
  { destruct (Hin _ _ Htin) as (s & -> & Hs). eauto. }
  split.
  { exists fs, f_items. repeat split; auto.
    eapply Forall_impl; [|apply Hall; exact Hff]. intros i. apply Hin. }
  split.
  { exists vs, v_items. repeat split; auto.
    eapply Forall_impl; [|apply Hall; exact Hvf]. intros i. apply Hin. }
  destruct (Hin _ _ Hdin) as (s & -> & Hs). eauto.
Qed.

(** X15: in the configuration that [read_config] returns, each poison
    fraction is replaced by [int(train_size * p)] for the training-set
    size of the configured dataset; every other field is as it was
    read. *)
Theorem read_config_converts_poison_sizes
        (cfg cfg' : json) (atk_def : bool)
        (Haccepted : read (Parsed cfg) atk_def = Ok cfg') :
  exists fractions dataset train_size,
    getitem_key cfg "dataset" = Ok (JStr dataset)
    /\ dict_get train_sizes dataset = Ok train_size
    /\ (exists v, getitem_key cfg "poison_size" = Ok v
                  /\ py_iter v = Ok (List.map JFloat fractions))
    /\ getitem_key cfg' "poison_size"
       = Ok (JList (List.map (fun p => JInt (int_of_product train_size p))
                             fractions))
    /\ forall k, k <> "poison_size"%string ->
                 getitem_key cfg' k = getitem_key cfg k.
Proof.
  destruct (read_config_ok_inv _ _ _ Haccepted)
    as (ps & p_items & ws & w_items & tf & fs & f_items & vs & v_items
        & ds & ts & Hps & Hpi & Hpf & _ & _ & _ & _ & _
        & _ & _ & _ & _ & _ & _ & Hds & Hdin & Hts & Hset).
  assert (Hfl : exists fractions, p_items = List.map JFloat fractions).
  { clear Hpi Hset. induction p_items as [|i l IH].
    - exists []. reflexivity.
    - simpl in Hpf. apply andb_true_iff in Hpf as [Hi Hl].
      destruct (IH Hl) as [qs ->]. destruct i; try discriminate.
      exists (q :: qs). reflexivity. }
  destruct Hfl as [fractions ->].
  destruct ds; try discriminate. simpl in Hts.
  exists fractions, s, ts.
  split; [exact Hds|]. split; [exact Hts|].
  split; [exists ps; auto|].
  destruct cfg; try discriminate. simpl in Hset. injection Hset as <-.
  rewrite map_map. cbn [to_count]. split.
  - simpl. apply dict_get_set_same.
  - intros k Hk. simpl. apply dict_get_set_other. exact Hk.
Qed.

(** X16: a poison size that is not a float, such as the integer 1
    written for 1.0, makes [read_config] raise [ValueError]. *)
Theorem read_config_rejects_integer_poison_size
        (cfg : json) (atk_def : bool) (sizes : list json) (i : json)
        (Hsizes : getitem_key cfg "poison_size" = Ok (JList sizes))
        (Hin : In i sizes)
        (Hnot_float : is_float i = false) :
  read (Parsed cfg) atk_def = Raise ValueError.
Proof.
  unfold read, read_config. rewrite Hsizes. cbn [Py.bind].
  rewrite (check_each_rejects sizes is_float i Hin Hnot_float).
  reflexivity.
Qed.

(** X17: when one of the six fields read for every configuration, or
    'iterations' for an attack configuration, cannot be read (the key is
    missing or the configuration is not an object), [read_config]
    raises. *)
Theorem read_config_requires_its_fields
        (cfg : json) (atk_def : bool) (k : string) (e0 : exn)
        (Hfield : In k ["poison_size"; "watermark_size"; "target_features";
                        "feature_selection"; "value_selection";
                        "dataset"]%string
                  \/ (k = "iterations"%string /\ atk_def = true
                      /\ exists d, cfg = JObj d))
        (Hmissing : getitem_key cfg k = Raise e0) :
  exists e, read (Parsed cfg) atk_def = Raise e.
Proof.
  unfold read, read_config.
  destruct Hfield as [Hk | (-> & -> & d & ->)].
  - cbn [In] in Hk.
    destruct Hk as [<- | [<- | [<- | [<- | [<- | [<- | []]]]]]];
      repeat first
             [ rewrite Hmissing; cbn [Py.bind]; eexists; reflexivity
             | apply bind_raise; intros ? _ ].
  - do 14 (apply bind_raise; intros ? _).
    apply bind_raise; intros cfg1 Hset.
    cbn [setitem_key] in Hset. injection Hset as <-.
    cbn [getitem_key] in *.
    rewrite dict_get_set_other by discriminate.
    rewrite Hmissing. cbn [Py.bind]. eexists; reflexivity.
Qed.

End ConfigExtras.

Lemma read_config_accepts_only_valid_witness :
  (exists v items,
      Config.getitem_key Sample.config_known_selectors "poison_size" = Ok v
      /\ Config.py_iter v = Ok items
      /\ Forall (fun i => Config.is_float i = true) items)
  /\ (exists v items,
         Config.getitem_key Sample.config_known_selectors "watermark_size"
         = Ok v
         /\ Config.py_iter v = Ok items
         /\ Forall (fun i => Config.is_int i = true) items)
  /\ (exists s,
         Config.getitem_key Sample.config_known_selectors "target_features"
         = Ok (Config.JStr s)
         /\ In s Sample.possible_features_targets)
  /\ (exists v items,
         Config.getitem_key Sample.config_known_selectors
                            "feature_selection" = Ok v
         /\ Config.py_iter v = Ok items
         /\ Forall (fun i => exists s,
                        i = Config.JStr s
                        /\ In s Sample.feature_selection_criteria)
                   items)
  /\ (exists v items,
         Config.getitem_key Sample.config_known_selectors "value_selection"
         = Ok v
         /\ Config.py_iter v = Ok items
         /\ Forall (fun i => exists s,
                        i = Config.JStr s
                        /\ In s Sample.value_selection_criteria)
                   items)
  /\ (exists s,
         Config.getitem_key Sample.config_known_selectors "dataset"
         = Ok (Config.JStr s)
         /\ In s Sample.possible_datasets).
Proof.
  apply (read_config_accepts_only_valid
           Sample.possible_features_targets
           Sample.feature_selection_criteria
           Sample.value_selection_criteria Sample.possible_datasets
           Sample.train_sizes [] [] Sample.int_of_product
           Sample.config_known_selectors Sample2.config_read true).
  reflexivity.
Defined.

Lemma read_config_converts_poison_sizes_witness :
  exists fractions dataset train_size,
    Config.getitem_key Sample.config_known_selectors "dataset"
    = Ok (Config.JStr dataset)
    /\ dict_get Sample.train_sizes dataset = Ok train_size
    /\ (exists v,
           Config.getitem_key Sample.config_known_selectors "poison_size"
           = Ok v
           /\ Config.py_iter v = Ok (List.map Config.JFloat fractions))
    /\ Config.getitem_key Sample2.config_read "poison_size"
       = Ok (Config.JList
               (List.map (fun p => Config.JInt
                                     (Sample.int_of_product train_size p))
                         fractions))
    /\ forall k, k <> "poison_size"%string ->
                 Config.getitem_key Sample2.config_read k
                 = Config.getitem_key Sample.config_known_selectors k.
Proof.
  apply (read_config_converts_poison_sizes
           Sample.possible_features_targets
           Sample.feature_selection_criteria
           Sample.value_selection_criteria Sample.possible_datasets
           Sample.train_sizes [] [] Sample.int_of_product
           Sample.config_known_selectors Sample2.config_read true).
  reflexivity.
Defined.

Lemma read_config_rejects_integer_poison_size_witness :
  Config.read_config
    Sample.possible_features_targets Sample.feature_selection_criteria
    Sample.value_selection_criteria Sample.possible_datasets
    Sample.train_sizes [] [] Sample.int_of_product
    (Config.Parsed Sample2.config_integer_poison_size) true
  = Raise ValueError.
Proof.
  apply (read_config_rejects_integer_poison_size
           Sample.possible_features_targets
           Sample.feature_selection_criteria
           Sample.value_selection_criteria Sample.possible_datasets
           Sample.train_sizes [] [] Sample.int_of_product
           Sample2.config_integer_poison_size true
           [Config.JInt 1] (Config.JInt 1)).
  - reflexivity.
  - left; reflexivity.
  - reflexivity.
Defined.

Lemma read_config_requires_its_fields_witness :
  exists e,
    Config.read_config
      Sample.possible_features_targets Sample.feature_selection_criteria
      Sample.value_selection_criteria Sample.possible_datasets
      Sample.train_sizes [] [] Sample.int_of_product
      (Config.Parsed Sample2.config_without_dataset) true
    = Raise e.
Proof.
  apply (read_config_requires_its_fields
           Sample.possible_features_targets
           Sample.feature_selection_criteria
           Sample.value_selection_criteria Sample.possible_datasets
           Sample.train_sizes [] [] Sample.int_of_product
           Sample2.config_without_dataset true "dataset" KeyError).
  - left. simpl. tauto.
  - reflexivity.
Defined.

(** ** Pairing the selectors *)

Section CommonUtilsExtras.

Import CommonUtils.

Lemma pair_eqb_eq a b : pair_eqb a b = true <-> a = b.
Proof.
  destruct a as [a1 a2], b as [b1 b2]. unfold pair_eqb. cbn [fst snd].
  rewrite andb_true_iff, !String.eqb_eq. split.
  - intros [-> ->]. reflexivity.
  - intros H. injection H as -> ->. auto.
Qed.

Lemma set_add_In s p q : In q (set_add s p) <-> q = p \/ In q s.
Proof.
  unfold set_add. destruct (existsb (pair_eqb p) s) eqn:E.
  - apply existsb_exists in E as (x & Hx & Hpx).
    apply pair_eqb_eq in Hpx. subst x. split; [auto|].
    intros [-> | H]; assumption.
  - rewrite in_app_iff. cbn [In]. split; [intros [H | [<- | []]] | ]; auto.
    intros [-> | H]; auto.
Qed.

Lemma set_add_NoDup s p : NoDup s -> NoDup (set_add s p).
Proof.
  intros H. unfold set_add. destruct (existsb (pair_eqb p) s) eqn:E;
    [exact H|].
  apply NoDup_app; [exact H | repeat constructor; simpl; tauto |].
  intros a Ha [<- | []].
  assert (Ht : existsb (pair_eqb p) s = true).
  { apply existsb_exists. exists p. split; [exact Ha|].
    apply pair_eqb_eq. reflexivity. }
  congruence.
Qed.

Lemma add_all_In (F : string -> string * string) vs :
  forall acc q,
    In q (fold_left (fun acc' v => set_add acc' (F v)) vs acc)
    <-> In q acc \/ exists v, In v vs /\ q = F v.
Proof.
  induction vs as [|v vs IH]; intros acc q; cbn [fold_left].
  - split; [auto | intros [H | (v & [] & _)]; exact H].
  - rewrite IH, set_add_In. cbn [In]. split.
    + intros [[-> | H] | (w & Hw & ->)]; eauto.
    + intros [H | (w & [<- | Hw] & ->)]; eauto.
Qed.

Lemma add_all_NoDup (F : string -> string * string) vs :
  forall acc, NoDup acc ->
              NoDup (fold_left (fun acc' v => set_add acc' (F v)) vs acc).
Proof.
  induction vs as [|v vs IH]; intros acc H; cbn [fold_left]; [exact H|].
  apply IH. apply set_add_NoDup. exact H.
Qed.

Lemma pairs_In cmb fixed vs fs :
  forall acc q,
    In q (fold_left
            (fun acc f_s =>
               fold_left
                 (fun acc' v_s => set_add acc' (selector_pair cmb fixed f_s v_s))
                 vs acc)
            fs acc)
    <-> In q acc
        \/ exists f v, In f fs /\ In v vs /\ q = selector_pair cmb fixed f v.
Proof.
  induction fs as [|f fs IH]; intros acc q; cbn [fold_left].
  - split; [auto | intros [H | (f & v & [] & _)]; exact H].
  - rewrite IH, (add_all_In (selector_pair cmb fixed f)). cbn [In]. split.
    + intros [[H | (v & Hv & ->)] | (g & v & Hg & Hv & ->)]; eauto 8.
    + intros [H | (g & v & [<- | Hg] & Hv & ->)]; eauto 8.
Qed.

Lemma pairs_NoDup cmb fixed vs fs :
  forall acc,
    NoDup acc ->
    NoDup (fold_left
             (fun acc f_s =>
                fold_left
                  (fun acc' v_s =>
                     set_add acc' (selector_pair cmb fixed f_s v_s))
                  vs acc)
             fs acc).
Proof.
  induction fs as [|f fs IH]; intros acc H; cbn [fold_left]; [exact H|].
  apply IH. apply (add_all_NoDup (selector_pair cmb fixed f)). exact H.
Qed.

(** X18: [get_feat_value_pairs] returns, without repetition, exactly the
    pairs that the selector names give rise to; in each pair either both
    members are the combined strategy or neither is, and likewise for
    the fixed strategy: these two are never paired with another
    strategy. *)
Theorem get_feat_value_pairs_sound
        (cmb fixed : string) (feat_sel val_sel : list string) :
  let pairs := get_feat_value_pairs cmb fixed feat_sel val_sel in
  NoDup pairs
  /\ (forall q, In q pairs
                <-> exists f v, In f feat_sel /\ In v val_sel
                                /\ q = selector_pair cmb fixed f v)
  /\ (forall a b, In (a, b) pairs ->
                  (a = cmb <-> b = cmb) /\ (a = fixed <-> b = fixed)).
Proof.
  cbv zeta. unfold get_feat_value_pairs.
  assert (Hin : forall q,
             In q (fold_left
                     (fun acc f_s =>
                        fold_left
                          (fun acc' v_s =>
                             set_add acc' (selector_pair cmb fixed f_s v_s))
                          val_sel acc)
                     feat_sel [])
             <-> exists f v, In f feat_sel /\ In v val_sel
                             /\ q = selector_pair cmb fixed f v).
  { intros q. rewrite pairs_In. cbn [In]. tauto. }
  split; [apply pairs_NoDup; constructor|]. split; [exact Hin|].
  intros a b Hab. apply Hin in Hab as (f & v & _ & _ & E).
  unfold selector_pair in E.
  destruct (String.eqb_spec v cmb) as [Hv|Hv],
           (String.eqb_spec f cmb) as [Hf|Hf]; cbn [orb] in E;
    try (injection E as -> ->; tauto).
  destruct (String.eqb_spec v fixed) as [Hv'|Hv'],
           (String.eqb_spec f fixed) as [Hf'|Hf']; cbn [orb] in E;
    injection E as -> ->; try tauto.
  all: split; split; intros; subst; congruence.
Qed.

End CommonUtilsExtras.

(** ** What the outcome counts measure *)

Section OutcomeExtras.

Import Outcome.

Lemma fold_step_sums (ps : list (Z * Z)) :
  Forall (fun p => binary (fst p) /\ binary (snd p)) ps ->
  forall c,
    let r := fold_left step ps c in
    let both := List.length
                  (filter (fun p : Z * Z => ((fst p =? 1) && (snd p =? 1))%Z)
                          ps) in
    (Z.of_nat (successes r) + Z.of_nat both
     = Z.of_nat (successes c) + fold_right Z.add 0 (List.map fst ps))%Z
    /\ (Z.of_nat (failures r) + Z.of_nat both
        = Z.of_nat (failures c) + fold_right Z.add 0 (List.map snd ps))%Z
    /\ (Z.of_nat (successes r) + Z.of_nat (benign_in_both_models r)
        + fold_right Z.add 0 (List.map snd ps)
        = Z.of_nat (successes c) + Z.of_nat (benign_in_both_models c)
          + Z.of_nat (List.length ps))%Z.
Proof.
  induction 1 as [|[o n] ps [Ho Hn] _ IH]; intros c; cbv zeta.
  - cbn. lia.
  - cbn [fst snd] in Ho, Hn.
    cbn [fold_left List.map fold_right filter fst snd List.length].
    destruct Ho as [-> | ->], Hn as [-> | ->];
      cbn [step Z.eqb Pos.eqb andb List.length];
      match goal with
      | |- context [fold_left step ps ?c'] =>
          destruct (IH c') as (H1 & H2 & H3)
      end;
      cbv zeta in H1, H2, H3;
      cbn [successes failures benign_in_both_models] in H1, H2, H3;
      lia.
Qed.

Lemma combine_fst A B (l : list A) (l' : list B) :
  List.length l = List.length l' -> List.map fst (combine l l') = l.
Proof.
  revert l'; induction l as [|a l IH]; intros [|b l'] H; simpl in *;
    try discriminate; [reflexivity|]. f_equal. apply IH. lia.
Qed.

Lemma combine_snd A B (l : list A) (l' : list B) :
  List.length l = List.length l' -> List.map snd (combine l l') = l'.
Proof.
  revert l'; induction l as [|a l IH]; intros [|b l'] H; simpl in *;
    try discriminate; [reflexivity|]. f_equal. apply IH. lia.
Qed.

(** X19: over the watermarked test rows, the number the clean model
    still detects is the successes plus the rows both models detect;
    the number the poisoned model detects is the failures plus the rows
    both detect; and the successes and the benign-in-both together are
    the rows the poisoned model lets through. *)
Theorem outcome_counts_measure_evasion
        (orig_scores new_scores : list Q)
        (Hlen : List.length orig_scores = List.length new_scores) :
  let orig := binarize orig_scores in
  let new := binarize new_scores in
  let c := classify orig new in
  (fold_right Z.add 0 orig
   = Z.of_nat (successes c) + Z.of_nat (detected_by_both orig new))%Z
  /\ (fold_right Z.add 0 new
      = Z.of_nat (failures c) + Z.of_nat (detected_by_both orig new))%Z
  /\ (Z.of_nat (successes c) + Z.of_nat (benign_in_both_models c)
      = Z.of_nat (List.length new_scores) - fold_right Z.add 0 new)%Z.
Proof.
  cbv zeta. unfold classify, detected_by_both.
  assert (Hl : List.length (binarize orig_scores)
               = List.length (binarize new_scores)).
  { rewrite !binarize_length. exact Hlen. }
  destruct (fold_step_sums
              (combine (binarize orig_scores) (binarize new_scores))
              (Forall_combine_binary _ _ (binarize_binary orig_scores)
                                     (binarize_binary new_scores))
              (mk_counts 0 0 0)) as (H1 & H2 & H3).
  cbv zeta in H1, H2, H3.
  rewrite (combine_fst _ _ _ _ Hl) in H1.
  rewrite (combine_snd _ _ _ _ Hl) in H2, H3.
  rewrite length_combine, !binarize_length in H3.
  cbn [successes failures benign_in_both_models] in H1, H2, H3.
  lia.
Qed.

Lemma outcome_counts_measure_evasion_witness :
  let orig := binarize [9 # 10; 9 # 10; 1 # 10; 1 # 10]%Q in
  let new := binarize [9 # 10; 1 # 10; 9 # 10; 1 # 10]%Q in
  let c := classify orig new in
  (fold_right Z.add 0 orig
   = Z.of_nat (successes c) + Z.of_nat (detected_by_both orig new))%Z
  /\ (fold_right Z.add 0 new
      = Z.of_nat (failures c) + Z.of_nat (detected_by_both orig new))%Z
  /\ (Z.of_nat (successes c) + Z.of_nat (benign_in_both_models c)
      = Z.of_nat (List.length [9 # 10; 1 # 10; 9 # 10; 1 # 10]%Q)
        - fold_right Z.add 0 new)%Z.
Proof.
  apply (outcome_counts_measure_evasion
           [9 # 10; 9 # 10; 1 # 10; 1 # 10]%Q
           [9 # 10; 1 # 10; 9 # 10; 1 # 10]%Q).
  reflexivity.
Defined.

End OutcomeExtras.

(** ** The membership vector and the evaluation of a defence *)

Section DefenseExtras.

Import Defense DefenseUtils IsoforestRun.

Lemma firstn_repeat_le A (a : A) k n :
  k <= n -> firstn k (repeat a n) = repeat a k.
Proof.
  revert n; induction k as [|k IH]; intros n H; [reflexivity|].
  destruct n as [|n]; [lia|]. simpl. f_equal. apply IH. lia.
Qed.

Lemma assign_tail_ones (n p : nat) :
  assign_tail (repeat 1%Z n) p 0%Z
  = repeat 1%Z (tail_start n p) ++ repeat 0%Z (n - tail_start n p).
Proof.
  unfold assign_tail. rewrite repeat_length.
  rewrite firstn_repeat_le; [reflexivity|].
  unfold tail_start. destruct (p =? 0); lia.
Qed.

(** X20: the membership vector has [size] entries.  For a poison size
    between 1 and [size] it is ones followed by that many zeros.  For a
    poison size of 0, or one beyond [size], every entry is 0: every
    sample is marked as backdoored. *)
Theorem get_is_clean_marks_tail (size poison_size : nat) :
  List.length (get_is_clean size poison_size) = size
  /\ get_is_clean size poison_size
     = if (poison_size =? 0) || (size <=? poison_size)
       then repeat 0%Z size
       else repeat 1%Z (size - poison_size) ++ repeat 0%Z poison_size.
Proof.
  unfold get_is_clean. rewrite assign_tail_ones. split.
  - rewrite length_app, !repeat_length. unfold tail_start.
    destruct (poison_size =? 0); lia.
  - unfold tail_start. destruct (Nat.eqb_spec poison_size 0) as [E|E].
    + cbn [orb]. rewrite Nat.sub_0_r. reflexivity.
    + cbn [orb]. destruct (Nat.leb_spec size poison_size) as [L|L].
      * replace (size - poison_size) with 0 by lia.
        rewrite Nat.sub_0_r. reflexivity.
      * replace (size - (size - poison_size)) with poison_size by lia.
        reflexivity.
Qed.

Lemma combine_app A B (l1 l2 : list A) (m1 m2 : list B) :
  List.length l1 = List.length m1 ->
  combine (l1 ++ l2) (m1 ++ m2) = combine l1 m1 ++ combine l2 m2.
Proof.
  revert m1; induction l1 as [|a l1 IH]; intros [|b m1] H; simpl in H;
    try discriminate; [reflexivity|].
  simpl. f_equal. apply IH. lia.
Qed.

Lemma filter_combine_repeat (f : Z * Z -> bool) (g : Z -> bool)
      (ps : list Z) (q : Z) n :
  (forall p, f (p, q) = g p) ->
  List.length ps = n ->
  List.length (filter f (combine ps (repeat q n)))
  = List.length (filter g ps).
Proof.
  intros Hf. revert n; induction ps as [|p ps IH]; intros [|n] H;
    simpl in H; try discriminate; [reflexivity|].
  cbn [repeat combine filter]. rewrite Hf.
  destruct (g p); cbn [List.length]; rewrite (IH n) by lia; reflexivity.
Qed.

Lemma flagged_by_membership (ps1 ps2 : list Z) :
  flagged_poisoned (ps1 ++ ps2)
                   (repeat 1%Z (List.length ps1)
                    ++ repeat 0%Z (List.length ps2))
  = flagged ps2
  /\ flagged_clean (ps1 ++ ps2)
                   (repeat 1%Z (List.length ps1)
                    ++ repeat 0%Z (List.length ps2))
     = flagged ps1.
Proof.
  unfold flagged_poisoned, flagged_clean, flagged.
  rewrite combine_app by (rewrite repeat_length; reflexivity).
  rewrite !filter_app, !length_app.
  rewrite (filter_combine_repeat
             (fun pq : Z * Z => ((fst pq =? -1) && (snd pq =? 0))%Z)
             (fun _ => false) ps1 1%Z)
    by (reflexivity || (intros p; cbn; apply andb_false_r)).
  rewrite (filter_combine_repeat
             (fun pq : Z * Z => ((fst pq =? -1) && (snd pq =? 0))%Z)
             (fun p => (p =? -1)%Z) ps2 0%Z)
    by (reflexivity || (intros p; cbn; apply andb_true_r)).
  rewrite (filter_combine_repeat
             (fun pq : Z * Z => ((fst pq =? -1) && (snd pq =? 1))%Z)
             (fun p => (p =? -1)%Z) ps1 1%Z)
    by (reflexivity || (intros p; cbn; apply andb_true_r)).
  rewrite (filter_combine_repeat
             (fun pq : Z * Z => ((fst pq =? -1) && (snd pq =? 1))%Z)
             (fun _ => false) ps2 0%Z)
    by (reflexivity || (intros p; cbn; apply andb_false_r)).
  assert (E : forall l : list Z, List.length (filter (fun _ => false) l) = 0).
  { induction l; simpl; auto. }
  rewrite !E. split; lia.
Qed.

(** X21: in [isoforest_def], with a detector that answers once per row,
    the rows counted as found are the flagged rows of the tail that the
    poison size selects and the false positives are the flagged rows
    before it.  With a poison size of 0 the tail is the whole set:
    every flagged row counts as found and none as a false positive. *)
Theorem isoforest_def_counts_by_position
        (fit_predict : list (list Q) -> list Z)
        (watermarked_X : list (list Q)) (poison_size : nat)
        (Hrows : List.length (fit_predict watermarked_X)
                 = List.length watermarked_X) :
  let s := tail_start (List.length watermarked_X) poison_size in
  let isof_pred := fit_predict watermarked_X in
  exists c,
    isoforest_def_analysis fit_predict watermarked_X poison_size
    = Ok (isof_pred, c)
    /\ suspect c = flagged isof_pred
    /\ poison_found c = flagged (skipn s isof_pred)
    /\ false_positives_poison c = flagged (firstn s isof_pred)
    /\ (poison_size = 0 ->
        poison_found c = suspect c /\ false_positives_poison c = 0).
Proof.
  cbv zeta. unfold isoforest_def_analysis. cbv zeta.
  set (n := List.length watermarked_X) in *.
  set (s := tail_start n poison_size).
  assert (Hs : s <= n).
  { unfold s, tail_start. destruct (poison_size =? 0); lia. }
  rewrite assign_tail_ones. fold s.
  destruct (analysis_counts fit_predict watermarked_X
              (repeat 1%Z s ++ repeat 0%Z (n - s)))
    as (c & Hrun & Hsu & Hf & Hr).
  { rewrite length_app, !repeat_length, Hrows. lia. }
  exists c. split; [exact Hrun|]. split; [exact Hsu|].
  assert (Hl1 : List.length (firstn s (fit_predict watermarked_X)) = s).
  { rewrite length_firstn, Hrows. lia. }
  assert (Hl2 : List.length (skipn s (fit_predict watermarked_X)) = n - s).
  { rewrite length_skipn, Hrows. reflexivity. }
  destruct (flagged_by_membership (firstn s (fit_predict watermarked_X))
                                  (skipn s (fit_predict watermarked_X)))
    as (Hp & Hc).
  rewrite firstn_skipn, Hl1, Hl2 in Hp, Hc.
  rewrite Hf, Hr, Hp, Hc, Hsu.
  split; [reflexivity|]. split; [reflexivity|].
  intros E. unfold s, tail_start. rewrite E. cbn [Nat.eqb skipn firstn].
  split; reflexivity.
Qed.

Lemma isoforest_def_counts_by_position_witness :
  exists c,
    isoforest_def_analysis (fun _ => [(-1)%Z; 1%Z; (-1)%Z; (-1)%Z])
                           [[]; []; []; []] 2
    = Ok ([(-1)%Z; 1%Z; (-1)%Z; (-1)%Z], c)
    /\ suspect c = 3
    /\ poison_found c = 2
    /\ false_positives_poison c = 1
    /\ (2 = 0 -> poison_found c = suspect c /\ false_positives_poison c = 0).
Proof.
  apply (isoforest_def_counts_by_position
           (fun _ => [(-1)%Z; 1%Z; (-1)%Z; (-1)%Z]) [[]; []; []; []] 2).
  reflexivity.
Defined.

Lemma getitem_lt A (l : list A) i :
  i < List.length l -> exists a, getitem l i = Ok a.
Proof.
  intros H. unfold getitem. destruct (nth_error l i) as [a|] eqn:E.
  - eauto.
  - apply nth_error_None in E. lia.
Qed.

Lemma getitem_ge A (l : list A) i :
  List.length l <= i -> getitem l i = Raise IndexError.
Proof.
  intros H. unfold getitem.
  destruct (nth_error l i) as [a|] eqn:E; [|reflexivity].
  assert (i < List.length l) by (apply nth_error_Some; congruence). lia.
Qed.

Lemma loop_short (isof_pred is_clean : list Z) :
  forall k a c,
    a <= List.length is_clean ->
    List.length is_clean < a + k ->
    a + k <= List.length isof_pred ->
    loop isof_pred is_clean (seq a k) c = Raise IndexError.
Proof.
  induction k as [|k IH]; intros a c Ha Hk Hp; [lia|].
  cbn [seq loop]. unfold step.
  destruct (getitem_lt _ isof_pred a ltac:(lia)) as (p & ->).
  cbn [Py.bind].
  destruct (Nat.eq_dec a (List.length is_clean)) as [E|E].
  - rewrite getitem_ge by lia. reflexivity.
  - destruct (getitem_lt _ is_clean a ltac:(lia)) as (q & ->).
    cbn [Py.bind]. apply IH; lia.
Qed.

Lemma loop_ext (isof_pred is_clean is_clean' : list Z) range :
  (forall i, In i range -> getitem is_clean i = getitem is_clean' i) ->
  forall c, loop isof_pred is_clean range c
            = loop isof_pred is_clean' range c.
Proof.
  induction range as [|i range IH]; intros H c; [reflexivity|].
  cbn [loop]. unfold step. rewrite (H i) by (left; reflexivity).
  destruct (getitem isof_pred i) as [p|e]; [|reflexivity].
  cbn [Py.bind].
  destruct (getitem is_clean' i) as [q|e]; [|reflexivity].
  cbn [Py.bind]. apply IH. intros j Hj. apply H. right. exact Hj.
Qed.

(** X22: a membership vector shorter than the detector's answer makes
    [isolation_forest_analysis] raise [IndexError]. *)
Theorem isolation_forest_analysis_short_membership
        (fit_predict : list (list Q) -> list Z)
        (xtrain : list (list Q)) (is_clean : list Z)
        (Hshort : List.length is_clean < List.length (fit_predict xtrain)) :
  isolation_forest_analysis fit_predict xtrain is_clean = Raise IndexError.
Proof.
  unfold isolation_forest_analysis. cbv zeta.
  rewrite loop_short by lia. reflexivity.
Qed.

Lemma isolation_forest_analysis_short_membership_witness :
  isolation_forest_analysis (fun _ => [(-1)%Z; 1%Z; 1%Z]) [] [0%Z; 1%Z]
  = Raise IndexError.
Proof.
  apply (isolation_forest_analysis_short_membership
           (fun _ => [(-1)%Z; 1%Z; 1%Z]) [] [0%Z; 1%Z]).
  simpl. lia.
Defined.

(** X23: [isolation_forest_analysis] does not compare the two lengths:
    entries of the membership vector beyond the detector's answer are
    not read, and the counts are those of the vector cut to that
    length. *)
Theorem isolation_forest_analysis_long_membership
        (fit_predict : list (list Q) -> list Z)
        (xtrain : list (list Q)) (is_clean : list Z)
        (Hlong : List.length (fit_predict xtrain) <= List.length is_clean) :
  exists c,
    isolation_forest_analysis fit_predict xtrain is_clean
    = Ok (fit_predict xtrain, c)
    /\ isolation_forest_analysis
         fit_predict xtrain
         (firstn (List.length (fit_predict xtrain)) is_clean)
       = Ok (fit_predict xtrain, c).
Proof.
  destruct (analysis_counts
              fit_predict xtrain
              (firstn (List.length (fit_predict xtrain)) is_clean))
    as (c & Hrun & _).
  { rewrite length_firstn. lia. }
  exists c. split; [|exact Hrun].
  rewrite <- Hrun. unfold isolation_forest_analysis. cbv zeta.
  rewrite (loop_ext (fit_predict xtrain) is_clean
                    (firstn (List.length (fit_predict xtrain)) is_clean));
    [reflexivity|].
  intros i Hi. apply in_seq in Hi. unfold getitem.
  rewrite nth_error_firstn.
  destruct (Nat.ltb_spec i (List.length (fit_predict xtrain)));
    [reflexivity | lia].
Qed.

Lemma isolation_forest_analysis_long_membership_witness :
  exists c,
    isolation_forest_analysis (fun _ => [(-1)%Z; (-1)%Z]) []
                              [0%Z; 1%Z; 0%Z]
    = Ok ([(-1)%Z; (-1)%Z], c)
    /\ isolation_forest_analysis (fun _ => [(-1)%Z; (-1)%Z]) []
                                 [0%Z; 1%Z]
       = Ok ([(-1)%Z; (-1)%Z], c).
Proof.
  apply (isolation_forest_analysis_long_membership
           (fun _ => [(-1)%Z; (-1)%Z]) [] [0%Z; 1%Z; 0%Z]).
  simpl. lia.
Defined.

End DefenseExtras.

(** ** Evaluating a clustering and filtering the training set *)

Section DefenseUtilsExtras.

Import Attack DefenseUtils DefenseUtilsAux.

(** The poisoned points of a cluster, read off the two vectors side by
    side. *)
Lemma eval_cluster_loop_fold (pre_c : list bool) (pre_q : list Z) cs qs n :
  List.length pre_c = List.length pre_q ->
  List.length cs = List.length qs ->
  eval_cluster_loop (pre_c ++ cs) (pre_q ++ qs)
                    (seq (List.length pre_c) (List.length qs)) n
  = Ok (n + List.length
              (filter (fun cq : bool * Z => fst cq && (snd cq =? 0)%Z)
                      (combine cs qs))).
Proof.
  revert pre_c pre_q qs n.
  induction cs as [|c cs IH]; intros pre_c pre_q [|q qs] n Hpre Hlen;
    simpl in Hlen; try discriminate.
  - cbn. f_equal. lia.
  - cbn [List.length seq eval_cluster_loop]. unfold eval_cluster_step.
    rewrite getitem_app_here. cbn [Py.bind].
    specialize (IH (pre_c ++ [c]) (pre_q ++ [q]) qs).
    rewrite <- !app_assoc in IH. cbn [app] in IH.
    rewrite !length_app in IH. cbn [List.length] in IH.
    replace (S (List.length pre_c)) with (List.length pre_c + 1) by lia.
    cbn [combine filter fst snd].
    destruct c.
    + rewrite Hpre, getitem_app_here. cbn [Py.bind andb].
      rewrite <- Hpre. rewrite IH by lia.
      destruct (q =? 0)%Z; cbn [List.length]; f_equal; lia.
    + cbn [Py.bind andb]. rewrite IH by lia. reflexivity.
Qed.

Lemma eval_cluster_ok (labels is_clean : list Z) (k : Z) :
  List.length labels = List.length is_clean ->
  eval_cluster labels k is_clean
  = Ok (poisoned_in k (combine labels is_clean)).
Proof.
  intros Hlen. unfold eval_cluster. cbv zeta.
  pose proof (eval_cluster_loop_fold
                [] [] (List.map (fun l => (l =? k)%Z) labels) is_clean 0
                eq_refl) as H.
  cbn [app List.length] in H. rewrite H by (rewrite length_map; exact Hlen).
  f_equal. cbn [Nat.add]. unfold poisoned_in. clear H.
  revert is_clean Hlen; induction labels as [|l labels IH];
    intros [|q qs] Hlen; simpl in Hlen; try discriminate; [reflexivity|].
  cbn [List.map combine filter fst snd].
  destruct ((l =? k)%Z && (q =? 0)%Z); cbn [List.length];
    rewrite (IH qs) by lia; reflexivity.
Qed.

Lemma list_sum_cons (a : nat) (l : list nat) :
  list_sum (a :: l) = a + list_sum l.
Proof. reflexivity. Qed.

Lemma one_cluster_holds (l : Z) (ks : list Z) :
  NoDup ks -> In l ks ->
  list_sum (List.map (fun k => if (l =? k)%Z then 1 else 0) ks) = 1.
Proof.
  induction 1 as [|k ks Hk Hnd IH]; intros Hin; [destruct Hin|].
  cbn [List.map]; rewrite ?list_sum_cons.
  destruct (Z.eqb_spec l k) as [E|E].
  - subst k.
    assert (H0 : list_sum
                   (List.map (fun k => if (l =? k)%Z then 1 else 0) ks) = 0).
    { clear IH Hnd Hin. induction ks as [|k' ks IH']; [reflexivity|].
      cbn [List.map]; rewrite ?list_sum_cons.
      destruct (Z.eqb_spec l k') as [E|E].
      - exfalso. apply Hk. left. auto.
      - rewrite IH'; [reflexivity|]. intros H. apply Hk. right. exact H. }
    rewrite H0. reflexivity.
  - destruct Hin as [Hin | Hin]; [congruence|].
    rewrite (IH Hin). reflexivity.
Qed.

Lemma list_sum_map_add A (f g : A -> nat) (l : list A) :
  list_sum (List.map (fun a => f a + g a) l)
  = list_sum (List.map f l) + list_sum (List.map g l).
Proof.
  induction l as [|a l IH]; cbn [List.map]; rewrite ?list_sum_cons; [reflexivity|].
  rewrite IH. lia.
Qed.

Lemma list_sum_map_zero A (l : list A) :
  list_sum (List.map (fun _ => 0) l) = 0.
Proof. induction l; simpl; auto. Qed.

Lemma clusters_cover (ks : list Z) (lqs : list (Z * Z)) :
  NoDup ks ->
  Forall (fun lq => In (fst lq) ks) lqs ->
  list_sum (List.map (fun k => poisoned_in k lqs) ks)
  = List.length (filter (fun lq : Z * Z => (snd lq =? 0)%Z) lqs).
Proof.
  intros Hnd. induction 1 as [|[l q] lqs Hl _ IH].
  - unfold poisoned_in. cbn [filter List.length].
    apply list_sum_map_zero.
  - cbn [fst] in Hl. cbn [filter snd].
    transitivity
      (list_sum
         (List.map (fun k => (if (q =? 0)%Z
                              then (if (l =? k)%Z then 1 else 0)
                              else 0)
                             + poisoned_in k lqs) ks)).
    { f_equal. apply map_ext. intros k. unfold poisoned_in.
      cbn [filter fst snd].
      destruct (l =? k)%Z, (q =? 0)%Z; cbn [andb List.length]; lia. }
    rewrite list_sum_map_add, IH.
    destruct (q =? 0)%Z.
    + rewrite (one_cluster_holds l ks Hnd Hl). reflexivity.
    + rewrite list_sum_map_zero. reflexivity.
Qed.

Lemma mapM_total A B (f : A -> result B) (g : A -> B) (l : list A) :
  (forall a, f a = Ok (g a)) -> mapM f l = Ok (List.map g l).
Proof.
  intros H. induction l as [|a l IH]; [reflexivity|].
  cbn [mapM List.map]. rewrite H, IH. reflexivity.
Qed.

(** X24: for a label per membership entry, [eval_clustering] has one
    entry per distinct label, and the entries add up to the number of
    poisoned points: each poisoned point is counted in exactly one
    cluster. *)
Theorem eval_clustering_counts_each_poisoned_point_once
        (labels is_clean : list Z)
        (Hlen : List.length labels = List.length is_clean) :
  exists d,
    eval_clustering labels is_clean = Ok d
    /\ NoDup (List.map fst d)
    /\ (forall k, In k (List.map fst d) <-> In k labels)
    /\ list_sum (List.map snd d)
       = List.length (filter (fun q => (q =? 0)%Z) is_clean).
Proof.
  unfold eval_clustering.
  exists (List.map (fun k => (k, poisoned_in k (combine labels is_clean)))
                   (nodup Z.eq_dec labels)).
  split.
  { apply mapM_total. intros k. rewrite (eval_cluster_ok _ _ _ Hlen).
    reflexivity. }
  rewrite !map_map. cbn [fst snd]. rewrite map_id.
  split; [apply NoDup_nodup|]. split; [intros k; apply nodup_In|].
  rewrite clusters_cover.
  - revert is_clean Hlen.
    induction labels as [|l labels IH]; intros [|q qs] Hlen;
      simpl in Hlen; try discriminate; [reflexivity|].
    cbn [combine filter snd]. destruct (q =? 0)%Z; cbn [List.length];
      rewrite (IH qs) by lia; reflexivity.
  - apply NoDup_nodup.
  - revert is_clean Hlen.
    assert (G : forall (ls qs : list Z) (all : list Z),
               incl ls all ->
               Forall (fun lq : Z * Z => In (fst lq) (nodup Z.eq_dec all))
                      (combine ls qs)).
    { induction ls as [|l ls IH]; intros [|q qs] all Hi; simpl;
        try constructor.
      - cbn [fst]. apply nodup_In. apply Hi. left. reflexivity.
      - apply IH. intros x Hx. apply Hi. right. exact Hx. }
    intros is_clean _. apply G. apply incl_refl.
Qed.

Lemma eval_clustering_counts_each_poisoned_point_once_witness :
  exists d,
    eval_clustering [0%Z; 1%Z; 0%Z; (-1)%Z; 1%Z]
                    [1%Z; 0%Z; 0%Z; 1%Z; 0%Z] = Ok d
    /\ NoDup (List.map fst d)
    /\ (forall k, In k (List.map fst d)
                  <-> In k [0%Z; 1%Z; 0%Z; (-1)%Z; 1%Z])
    /\ list_sum (List.map snd d)
       = List.length (filter (fun q => (q =? 0)%Z)
                             [1%Z; 0%Z; 0%Z; 1%Z; 0%Z]).
Proof.
  apply (eval_clustering_counts_each_poisoned_point_once
           [0%Z; 1%Z; 0%Z; (-1)%Z; 1%Z] [1%Z; 0%Z; 0%Z; 1%Z; 0%Z]).
  reflexivity.
Defined.

Lemma mask_rows_count A (X : list A) mask :
  List.length X = List.length mask ->
  List.length (mask_rows X mask) = count_true mask.
Proof.
  revert mask; induction X as [|x X IH]; intros [|b mask] H; simpl in H;
    try discriminate; [reflexivity|].
  unfold count_true in *. cbn [mask_rows filter].
  destruct b; cbn [List.length]; rewrite IH by lia; reflexivity.
Qed.

Lemma mask_rows_labels (y : list Z) (c : Z) :
  mask_rows y (label_is y c) = repeat c (count_true (label_is y c)).
Proof.
  unfold label_is, count_true.
  induction y as [|v y IH]; [reflexivity|].
  cbn [List.map mask_rows filter].
  destruct (Z.eqb_spec v c) as [E|E]; cbn [List.length repeat].
  - subst v. f_equal. exact IH.
  - exact IH.
Qed.

Lemma mask_rows_incl A (X : list A) mask : incl (mask_rows X mask) X.
Proof.
  revert mask; induction X as [|x X IH]; intros [|b mask]; simpl;
    try (intros a []).
  destruct b.
  - intros a [<- | H]; [left; reflexivity | right; eapply IH; eauto].
  - intros a H. right. eapply IH; eauto.
Qed.

(** X25: [filter_list] returns exactly when the labels are as many as
    the rows and the removal flags as many as the benign rows, and
    raises [IndexError] otherwise.  Its result keeps every malicious
    row and the benign rows whose flag is 0: rows and labels have the
    same length, the labels are ones followed by zeros, and every row
    returned is a row of the input. *)
Theorem filter_list_keeps_unflagged
        (x_train_w : list (list Q)) (y_train_w to_remove : list Z) :
  if (List.length x_train_w =? List.length y_train_w)
     && (List.length to_remove =? count_true (label_is y_train_w 0))
  then
    exists xs ys,
      filter_list x_train_w y_train_w to_remove = Ok (xs, ys)
      /\ List.length xs = List.length ys
      /\ ys = repeat 1%Z (count_true (label_is y_train_w 1))
              ++ repeat 0%Z (count_true (label_is to_remove 0))
      /\ incl xs x_train_w
  else filter_list x_train_w y_train_w to_remove = Raise IndexError.
Proof.
  unfold filter_list.
  destruct (Nat.eqb_spec (List.length x_train_w) (List.length y_train_w))
    as [Hxy | Hxy]; cbn [andb].
  - rewrite !boolean_index_ok
      by (rewrite label_is_length; first [reflexivity | lia]).
    cbn [Py.bind].
    assert (Hgx : List.length (mask_rows x_train_w (label_is y_train_w 0))
                  = count_true (label_is y_train_w 0)).
    { apply mask_rows_count. rewrite label_is_length. exact Hxy. }
    assert (Hgy : List.length (mask_rows y_train_w (label_is y_train_w 0))
                  = count_true (label_is y_train_w 0)).
    { apply mask_rows_count. rewrite label_is_length. reflexivity. }
    destruct (Nat.eqb_spec (List.length to_remove)
                           (count_true (label_is y_train_w 0)))
      as [Hr | Hr].
    + rewrite !boolean_index_ok by (rewrite label_is_length; lia).
      cbn [Py.bind]. eexists; eexists. split; [reflexivity|].
      assert (Hy : mask_rows (mask_rows y_train_w (label_is y_train_w 0))
                             (label_is to_remove 0)
                   = repeat 0%Z (count_true (label_is to_remove 0))).
      { rewrite mask_rows_labels.
        assert (G : forall n (m : list bool),
                   List.length m = n ->
                   mask_rows (repeat 0%Z n) m = repeat 0%Z (count_true m)).
        { induction n as [|n IH]; intros [|b m] Hm; simpl in Hm;
            try discriminate; [reflexivity|].
          unfold count_true in *. cbn [repeat mask_rows filter].
          destruct b; cbn [List.length repeat]; rewrite IH by lia;
            reflexivity. }
        apply G. rewrite label_is_length. exact Hr. }
      rewrite Hy, mask_rows_labels. split.
      * rewrite !length_app, !repeat_length.
        rewrite !mask_rows_count
          by (rewrite ?label_is_length; lia).
        reflexivity.
      * split; [reflexivity|].
        apply incl_app; [apply mask_rows_incl|].
        eapply incl_tran; apply mask_rows_incl.
    + unfold boolean_index at 1.
      rewrite Hgx, label_is_length.
      destruct (Nat.eqb_spec (count_true (label_is y_train_w 0))
                             (List.length to_remove)); [lia|].
      reflexivity.
  - unfold boolean_index at 1. rewrite label_is_length.
    destruct (Nat.eqb_spec (List.length x_train_w)
                           (List.length y_train_w)); [contradiction|].
    reflexivity.
Qed.

End DefenseUtilsExtras.

(** ** The poisoned training set as a rearrangement of the clean one *)

Section ReassemblyExtras.

Import Mutator Attack HeapLogic.

Lemma mask_split_perm A (X : list A) (mask : list bool) :
  List.length mask = List.length X ->
  Permutation (mask_rows X (List.map negb mask) ++ mask_rows X mask) X.
Proof.
  revert mask; induction X as [|x X IH]; intros [|b mask] H; simpl in H;
    try discriminate; [constructor|].
  cbn [List.map mask_rows]. destruct b; cbn [negb].
  - apply Permutation_sym, Permutation_cons_app, Permutation_sym.
    apply IH. lia.
  - cbn [app]. apply perm_skip. apply IH. lia.
Qed.

Lemma label_is_binary_negb (y : list Z) :
  Forall Outcome.binary y ->
  label_is y 1 = List.map negb (label_is y 0).
Proof.
  unfold label_is. induction 1 as [|v y Hv _ IH]; [reflexivity|].
  cbn [List.map]. rewrite IH. destruct Hv as [-> | ->]; reflexivity.
Qed.

Lemma split_by_label_perm A (X : list A) (y : list Z) :
  List.length y = List.length X ->
  Forall Outcome.binary y ->
  Permutation (mask_rows X (label_is y 1) ++ mask_rows X (label_is y 0)) X.
Proof.
  intros Hlen Hbin. rewrite (label_is_binary_negb y Hbin).
  apply mask_split_perm. rewrite label_is_length. exact Hlen.
Qed.

Lemma rows_at_mask A (m : nat -> bool) (X : list A) :
  forall pre,
    mapM (getitem (pre ++ X))
         (filter m (seq (List.length pre) (List.length X)))
    = Ok (mask_rows X (List.map m (seq (List.length pre) (List.length X)))).
Proof.
  induction X as [|x X IH]; intros pre; [reflexivity|].
  cbn [List.length seq filter List.map mask_rows].
  specialize (IH (pre ++ [x])).
  rewrite <- app_assoc, length_app in IH. cbn [app List.length] in IH.
  replace (List.length pre + 1) with (S (List.length pre)) in IH by lia.
  destruct (m (List.length pre)).
  - cbn [mapM]. rewrite getitem_app_here, IH. reflexivity.
  - exact IH.
Qed.

Lemma drawn_positions_perm n (indices : list nat) :
  NoDup indices -> Forall (fun i => i < n) indices ->
  Permutation (filter (fun j => existsb (Nat.eqb j) indices) (seq 0 n))
              indices.
Proof.
  intros Hnd Hlt.
  apply NoDup_Permutation; [apply NoDup_filter, seq_NoDup | exact Hnd |].
  intros j. rewrite filter_In, in_seq, existsb_eqb_In.
  rewrite Forall_forall in Hlt. split; [tauto|].
  intros H. specialize (Hlt j H). split; [lia | exact H].
Qed.

(** Deleting the drawn rows and reading them are complementary. *)
Lemma delete_and_draw_perm A (X : list A) (indices : list nat) drawn :
  NoDup indices -> Forall (fun i => i < List.length X) indices ->
  fancy_index X indices = Ok drawn ->
  Permutation (delete_from X 0 indices ++ drawn) X.
Proof.
  intros Hnd Hlt Hdrawn.
  pose proof (rows_at_mask A (fun j => existsb (Nat.eqb j) indices) X [])
    as Hrows.
  cbn [app List.length] in Hrows.
  destruct (mapM_perm _ _ _ _ _ (drawn_positions_perm _ _ Hnd Hlt) _ Hrows)
    as (drawn' & Hdrawn' & Hperm).
  unfold fancy_index in Hdrawn. rewrite Hdrawn in Hdrawn'.
  injection Hdrawn' as <-.
  rewrite <- mask_rows_delete_from.
  eapply Permutation_trans;
    [apply Permutation_app_head, Permutation_sym, Hperm|].
  rewrite <- (map_map (fun j => existsb (Nat.eqb j) indices) negb).
  apply mask_split_perm. rewrite length_map, length_seq. reflexivity.
Qed.

Lemma mask_rows_label_all (y : list Z) (c : Z) :
  Forall (fun v => v = c) (mask_rows y (label_is y c)).
Proof.
  rewrite mask_rows_labels. apply Forall_forall. intros v Hv.
  apply repeat_spec in Hv. exact Hv.
Qed.

Lemma delete_from_Forall A (P : A -> Prop) (X : list A) i indices :
  Forall P X -> Forall P (delete_from X i indices).
Proof.
  intros H; revert i; induction H as [|x X Hx _ IH]; intros i; simpl;
    [constructor|].
  destruct (existsb (Nat.eqb i) indices); [|constructor]; auto.
Qed.

Lemma all_equal_repeat A (c : A) (l : list A) :
  Forall (fun v => v = c) l -> l = repeat c (List.length l).
Proof.
  induction 1 as [|v l -> _ IH]; [reflexivity|]. simpl. f_equal. exact IH.
Qed.

Lemma skipn_app_exact A (l1 l2 : list A) n :
  n = List.length l1 -> skipn n (l1 ++ l2) = l2.
Proof.
  intros ->. rewrite skipn_app, skipn_all, Nat.sub_diag. reflexivity.
Qed.

(** X26: under the conditions in which the split and the reassembly of
    [run_watermark_attack] return, the poisoned training set is a
    rearrangement of the clean one in which the drawn benign rows are
    replaced by their mutations: the rows kept, together with the drawn
    rows, are the clean rows with their multiplicities.  The mutated
    rows are the last [num_gw_to_watermark] rows, every one of them is
    recognised as carrying the trigger, and their labels are 0; the
    label vector as a whole is a rearrangement of the clean labels. *)
Theorem poisoned_train_set_is_rearrangement
        (DO_SANITY_CHECKS : bool) (feature_names : list string)
        (cfg : wm_config)
        (X_train X_orig_mw_only_test : loc)
        (y_train y_orig_mw_only_test : list Z)
        (draw_gw draw_mw : list nat) (h0 : heap)
        (HX_train : X_train < List.length h0)
        (HX_test : X_orig_mw_only_test < List.length h0)
        (Hlabels : List.length y_train = List.length (nth X_train h0 []))
        (Hbinary : Forall Outcome.binary y_train)
        (Hmalicious :
           y_orig_mw_only_test
           = repeat 1%Z (List.length (nth X_orig_mw_only_test h0 [])))
        (Hdict : NoDup (List.map fst (watermark_features cfg)))
        (Happ : Forall (applicable (watermark_features cfg) feature_names)
                       (nth X_train h0 []))
        (Hdraw_gw :
           is_choice (List.length (mask_rows (nth X_train h0 [])
                                             (label_is y_train 0)))
                     (num_gw_to_watermark cfg) draw_gw)
        (Hdraw_mw :
           is_choice (List.length (nth X_orig_mw_only_test h0 []))
                     (num_mw_to_watermark cfg) draw_mw) :
  exists s h1 X_wm y_wm h2 kept drawn mutated,
    split_and_draw cfg X_train y_train X_orig_mw_only_test
                   y_orig_mw_only_test draw_gw draw_mw h0 = (Ok s, h1)
    /\ poison_train DO_SANITY_CHECKS feature_names cfg X_train y_train
                    s h1 = (Ok (X_wm, y_wm), h2)
    /\ nth X_wm h2 [] = kept ++ mutated
    /\ Permutation (kept ++ drawn) (nth X_train h0 [])
    /\ mapM (watermark_one_sample (watermark_features cfg) feature_names)
            drawn = Ok mutated
    /\ skipn (List.length (nth X_train h0 []) - num_gw_to_watermark cfg)
             (nth X_wm h2 []) = mutated
    /\ num_watermarked_samples (watermark_features cfg) feature_names
                               mutated
       = Ok (num_gw_to_watermark cfg)
    /\ skipn (List.length y_train - num_gw_to_watermark cfg) y_wm
       = repeat 0%Z (num_gw_to_watermark cfg)
    /\ Permutation y_wm y_train.
Proof.
  set (Xtr := nth X_train h0 []) in *.
  set (Xte := nth X_orig_mw_only_test h0 []) in *.
  set (gw := mask_rows Xtr (label_is y_train 0)) in *.
  set (ygw := mask_rows y_train (label_is y_train 0)).
  assert (Hygw : List.length ygw = List.length gw).
  { apply mask_rows_same_length. exact Hlabels. }
  pose proof Hdraw_gw as (Hk & Hnd & Hlt).
  destruct (fancy_index_ok _ (applicable (watermark_features cfg)
                                         feature_names) gw draw_gw Hlt
                           (mask_rows_Forall _ _ _ _ Happ))
    as (drawn & Hdrawn & Hdrawn_len & Hdrawn_app).
  assert (Hlty : Forall (fun i => i < List.length ygw) draw_gw).
  { rewrite Hygw. exact Hlt. }
  destruct (fancy_index_ok _ (fun v => v = 0%Z) ygw draw_gw Hlty
                           (mask_rows_label_all y_train 0))
    as (y_drawn & Hy_drawn & Hy_drawn_len & Hy_drawn_zero).
  destruct (watermark_batch_total _ _ _ Hdrawn_app) as [mutated Hmut].
  pose proof (mapM_length _ _ _ _ _ Hmut) as Hmut_len.
  pose proof (split_and_draw_run cfg X_train y_train X_orig_mw_only_test
                y_orig_mw_only_test draw_gw draw_mw h0 HX_train HX_test
                Hlabels Hmalicious Hdraw_gw Hdraw_mw drawn y_drawn
                Hdrawn Hy_drawn) as Hsplit.
  fold Xtr Xte gw ygw in Hsplit.
  set (mw := mask_rows Xtr (label_is y_train 1)) in *.
  set (ymw := mask_rows y_train (label_is y_train 1)) in *.
  set (no_wm := delete_from gw 0 draw_gw) in *.
  set (yno := delete_from ygw 0 draw_gw) in *.
  set (h1 := h0 ++ [gw; mw; Xte; no_wm; drawn]) in *.
  set (s := mk_split _ _ _ _ _ _ _ _ _) in Hsplit.
  assert (Hh1 : List.length h1 = List.length h0 + 5).
  { unfold h1. rewrite length_app. reflexivity. }
  assert (Hn1 : nth (List.length h0 + 1) h1 [] = mw).
  { unfold h1. rewrite (nth_ext h0 _ 1). reflexivity. }
  assert (Hn3 : nth (List.length h0 + 3) h1 [] = no_wm).
  { unfold h1. rewrite (nth_ext h0 _ 3). reflexivity. }
  assert (Hn4 : nth (List.length h0 + 4) h1 [] = drawn).
  { unfold h1. rewrite (nth_ext h0 _ 4). reflexivity. }
  assert (HnX : nth X_train h1 [] = Xtr).
  { unfold h1. apply nth_base. exact HX_train. }
  assert (HpX : Permutation ((mw ++ no_wm) ++ drawn) Xtr).
  { rewrite <- app_assoc.
    eapply Permutation_trans;
      [apply Permutation_app_head,
         (delete_and_draw_perm _ gw draw_gw drawn Hnd Hlt Hdrawn)|].
    apply split_by_label_perm; assumption. }
  assert (Hpy : Permutation (ymw ++ yno ++ y_drawn) y_train).
  { eapply Permutation_trans;
      [apply Permutation_app_head,
         (delete_and_draw_perm _ ygw draw_gw y_drawn Hnd Hlty Hy_drawn)|].
    apply split_by_label_perm; [reflexivity | assumption]. }
  assert (Hrows : List.length Xtr
                  = List.length mw + List.length no_wm + List.length drawn).
  { rewrite <- (Permutation_length HpX), !length_app. reflexivity. }
  assert (Hyrows : List.length y_train
                   = List.length (ymw ++ yno ++ y_drawn)).
  { symmetry. apply Permutation_length. exact Hpy. }
  pose proof (poison_train_run DO_SANITY_CHECKS feature_names cfg X_train
                y_train s h1 mutated) as Hrun.
  cbv zeta in Hrun. unfold s in Hrun.
  cbn [X_train_mw X_train_gw_no_watermarks X_train_gw_to_be_watermarked
       y_train_mw y_train_gw_no_watermarks y_train_gw_to_be_watermarked]
    in Hrun.
  rewrite Hn1, Hn3, Hn4, HnX in Hrun.
  specialize (Hrun ltac:(lia) ltac:(lia) ltac:(lia) ltac:(lia) ltac:(lia)
                   Hdict Hmut ltac:(lia) Hrows Hyrows).
  exists s, h1, (List.length h1), (ymw ++ yno ++ y_drawn),
    (upd h1 (List.length h0 + 4) mutated ++ [mw ++ no_wm ++ mutated]),
    (mw ++ no_wm), drawn, mutated.
  assert (Hnew : nth (List.length h1)
                     (upd h1 (List.length h0 + 4) mutated
                      ++ [mw ++ no_wm ++ mutated]) []
                 = (mw ++ no_wm) ++ mutated).
  { rewrite <- (upd_length _ h1 (List.length h0 + 4) mutated) at 1.
    rewrite nth_middle. apply app_assoc. }
  split; [exact Hsplit|]. split; [exact Hrun|].
  split; [exact Hnew|]. split; [exact HpX|]. split; [exact Hmut|].
  split.
  { rewrite Hnew. apply skipn_app_exact. rewrite length_app. lia. }
  split.
  { rewrite (num_watermarked_all _ _ _
               (watermark_batch_carries _ _ _ _ Hdict Hmut)).
    f_equal. lia. }
  split; [|exact Hpy].
  rewrite app_assoc. rewrite skipn_app_exact.
  - rewrite (all_equal_repeat _ _ _ Hy_drawn_zero). f_equal. lia.
  - rewrite Hyrows, !length_app. lia.
Qed.

Lemma poisoned_train_set_is_rearrangement_witness :
  exists s h1 X_wm y_wm h2 kept drawn mutated,
    split_and_draw Sample.wm_config_ 0 Sample.y_train 2 [1; 1]%Z
                   [2; 0] [1; 0] Sample.clean_heap = (Ok s, h1)
    /\ poison_train true Sample.feature_names Sample.wm_config_ 0
                    Sample.y_train s h1 = (Ok (X_wm, y_wm), h2)
    /\ nth X_wm h2 [] = kept ++ mutated
    /\ Permutation (kept ++ drawn) (nth 0 Sample.clean_heap [])
    /\ mapM (watermark_one_sample
               (watermark_features Sample.wm_config_)
               Sample.feature_names)
            drawn = Ok mutated
    /\ skipn (List.length (nth 0 Sample.clean_heap [])
              - num_gw_to_watermark Sample.wm_config_)
             (nth X_wm h2 []) = mutated
    /\ num_watermarked_samples (watermark_features Sample.wm_config_)
                               Sample.feature_names mutated
       = Ok (num_gw_to_watermark Sample.wm_config_)
    /\ skipn (List.length Sample.y_train
              - num_gw_to_watermark Sample.wm_config_) y_wm
       = repeat 0%Z (num_gw_to_watermark Sample.wm_config_)
    /\ Permutation y_wm Sample.y_train.
Proof.
  apply (poisoned_train_set_is_rearrangement
           true Sample.feature_names Sample.wm_config_ 0 2
           Sample.y_train [1; 1]%Z [2; 0] [1; 0] Sample.clean_heap).
  - simpl; lia.
  - simpl; lia.
  - reflexivity.
  - repeat first [apply Forall_nil
                 | apply Forall_cons; [unfold Outcome.binary; auto|]].
  - reflexivity.
  - repeat constructor; simpl; intuition discriminate.
  - repeat first
           [ apply Forall_nil
           | apply Forall_cons;
             [repeat first
                     [ apply Forall_nil
                     | apply Forall_cons;
                       [first [exists 0; split; [reflexivity | simpl; lia]
                              | exists 2; split; [reflexivity | simpl; lia]]
                       |] ]
             |] ].
  - repeat split; simpl.
    + repeat constructor; simpl; intuition discriminate.
    + repeat first [apply Forall_nil | apply Forall_cons; [lia|]].
  - repeat split; simpl.
    + repeat constructor; simpl; intuition discriminate.
    + repeat first [apply Forall_nil | apply Forall_cons; [lia|]].
Defined.

End ReassemblyExtras.

(** ** The carry-over check at the start of an attack *)

Section SanityCheckExtras.

Import Mutator Attack.

(** X27: with the sanity checks on, [run_watermark_attack] raises
    [AssertionError] before touching any array whenever a hundred times
    the number of training rows that already carry the trigger reaches
    the number of rows to poison; so it does for every training set
    when no row is to be poisoned, and for one carrying row unless more
    than a hundred rows are to be poisoned. *)
Theorem sanity_checks_reject_carried_trigger
        (feature_names : list string)
        (original_model : list (list Q) -> list Q)
        (train_model : list (list Q) -> list Z -> list (list Q) -> list Q)
        (cfg : wm_config)
        (X_train X_orig_mw_only_test : loc)
        (y_train y_orig_mw_only_test : list Z)
        (draw_gw draw_mw : list nat) (h : heap) (carried : nat)
        (Hcount : num_watermarked_samples (watermark_features cfg)
                                          feature_names (nth X_train h [])
                  = Ok carried)
        (Hcarried : num_gw_to_watermark cfg <= 100 * carried) :
  run_watermark_attack true feature_names original_model train_model cfg
                       X_train y_train X_orig_mw_only_test
                       y_orig_mw_only_test draw_gw draw_mw h
  = (Raise AssertionError, h).
Proof.
  unfold run_watermark_attack, carryover_checks, num_watermarked_at.
  unfold mbind at 1. unfold mbind at 1. unfold mbind at 1.
  unfold contents at 1. unfold lift at 1. rewrite Hcount.
  unfold mbind at 1. unfold lift at 1. unfold below_one_percent.
  destruct (Nat.ltb_spec (100 * carried) (num_gw_to_watermark cfg));
    [lia|].
  reflexivity.
Qed.

Lemma sanity_checks_reject_carried_trigger_witness :
  run_watermark_attack
    true Sample.feature_names Sample.original_model Sample.train_model
    Sample.wm_config_ 0 [0; 1]%Z 1 [1; 1; 1]%Z [0] [0; 1]
    [[[7 # 1; 0 # 1; 5 # 2]; [1 # 1; 1 # 1; 1 # 1]]%Q; Sample.X_orig_test]
  = (Raise AssertionError,
     [[[7 # 1; 0 # 1; 5 # 2]; [1 # 1; 1 # 1; 1 # 1]]%Q;
      Sample.X_orig_test]).
Proof.
  apply (sanity_checks_reject_carried_trigger
           Sample.feature_names Sample.original_model Sample.train_model
           Sample.wm_config_ 0 1 [0; 1]%Z [1; 1; 1]%Z [0] [0; 1]
           [[[7 # 1; 0 # 1; 5 # 2]; [1 # 1; 1 # 1; 1 # 1]]%Q;
            Sample.X_orig_test] 1).
  - reflexivity.
  - simpl. lia.
Defined.

End SanityCheckExtras.
